(** * SkImage_Lazy: lazily generated images (src/image/SkImage_Lazy.cpp)

    A shallow embedding of the lazy image of Skia: the validator that derives
    the info and unique id of an image, the raster accessor [getROPixels],
    the YUV planar accessor [getPlanes], the recoloring memo
    [onMakeColorTypeAndColorSpace] and the texture cascade
    [lockTextureProxyView].

    The program is sequential here: the two mutexes (the generator's and the
    recoloring memo's) serialise the critical sections, and every function
    below is one such section.  Objects that C++ reaches through pointers live
    in stores of the [World] and are named by their index; the caches are
    finite maps. *)

From stdpp Require Import base numbers option list gmap.
From Stdlib Require Import ZArith Lia.

Local Open Scope Z_scope.

(** ** Value types declared in headers *)

(** Modelled from the spec: the color type enumeration of
    include/core/SkImageInfo.h, which is not part of the source at hand; only
    the identity of its members matters below. *)
Inductive SkColorType :=
  | kUnknown_SkColorType
  | kAlpha_8_SkColorType
  | kRGB_565_SkColorType
  | kARGB_4444_SkColorType
  | kRGBA_8888_SkColorType
  | kRGB_888x_SkColorType
  | kBGRA_8888_SkColorType
  | kRGBA_1010102_SkColorType
  | kRGB_101010x_SkColorType
  | kGray_8_SkColorType
  | kRGBA_F16Norm_SkColorType
  | kRGBA_F16_SkColorType
  | kRGBA_F32_SkColorType.

#[global] Instance SkColorType_eq_dec : EqDecision SkColorType.
Proof. solve_decision. Defined.

Inductive SkAlphaType :=
  | kUnknown_SkAlphaType
  | kOpaque_SkAlphaType
  | kPremul_SkAlphaType
  | kUnpremul_SkAlphaType.

#[global] Instance SkAlphaType_eq_dec : EqDecision SkAlphaType.
Proof. solve_decision. Defined.

(** A color space is known by what [SkColorSpace::Equals] compares (its
    transfer function and gamut), abstracted to a number; a null
    [sk_sp<SkColorSpace>] is [None]. *)
Definition SkColorSpace := N.

Definition SkColorSpace_Equals (a b : option SkColorSpace) : bool :=
  bool_decide (a = b).

Record SkImageInfo := {
  ii_width : Z;
  ii_height : Z;
  ii_colorType : SkColorType;
  ii_alphaType : SkAlphaType;
  ii_colorSpace : option SkColorSpace
}.

#[global] Instance SkImageInfo_eq_dec : EqDecision SkImageInfo.
Proof. solve_decision. Defined.

Definition SkImageInfo_default : SkImageInfo :=
  {| ii_width := 0; ii_height := 0; ii_colorType := kUnknown_SkColorType;
     ii_alphaType := kUnknown_SkAlphaType; ii_colorSpace := None |}.

Definition isEmpty (i : SkImageInfo) : bool :=
  (ii_width i <=? 0) || (ii_height i <=? 0).

Definition makeColorType (i : SkImageInfo) (ct : SkColorType) : SkImageInfo :=
  {| ii_width := ii_width i; ii_height := ii_height i; ii_colorType := ct;
     ii_alphaType := ii_alphaType i; ii_colorSpace := ii_colorSpace i |}.

Definition makeColorSpace (i : SkImageInfo) (cs : option SkColorSpace) : SkImageInfo :=
  {| ii_width := ii_width i; ii_height := ii_height i;
     ii_colorType := ii_colorType i; ii_alphaType := ii_alphaType i;
     ii_colorSpace := cs |}.

(** The (color type, color space) pair a recoloring is compared on. *)
Definition colorOf (i : SkImageInfo) : SkColorType * option SkColorSpace :=
  (ii_colorType i, ii_colorSpace i).

(** Pixel and encoded data: bytes. *)
Definition Bytes := list N.

Record SkISize := { fWidth : Z; fHeight : Z }.

#[global] Instance SkISize_eq_dec : EqDecision SkISize.
Proof. solve_decision. Defined.

Definition SkISize_isEmpty (s : SkISize) : bool :=
  (fWidth s <=? 0) || (fHeight s <=? 0).

(** [SkIRect] as (left, top, right, bottom). *)
Definition SkIRect : Type := Z * Z * Z * Z.

Definition SkIRect_MakeSize (w h : Z) : SkIRect := (0, 0, w, h).

(** ** The YUV plane description *)

Definition kMaxCount : nat := 4.

Inductive SkYUVColorSpace :=
  | kJPEG_SkYUVColorSpace
  | kRec601_SkYUVColorSpace
  | kRec709_SkYUVColorSpace
  | kBT2020_SkYUVColorSpace
  | kIdentity_SkYUVColorSpace.

(** [fSizes] and [fWidthBytes] are arrays of [kMaxCount] entries; [fOrigin] is
    the encoded origin (its EXIF number). *)
Record SkYUVASizeInfo := {
  fSizes : list SkISize;
  fWidthBytes : list Z;
  fOrigin : N
}.

(** A [SkYUVAIndex]: (plane index, channel). *)
Definition SkYUVAIndex : Type := Z * N.

(** [SkYUVPlanesCache::Info]. *)
Record YUVInfo := {
  fSizeInfo : SkYUVASizeInfo;
  fYUVAIndices : list SkYUVAIndex;
  fColorSpace : SkYUVColorSpace
}.

(** Reading the arrays: [fWidthBytes[i]] and [fSizes[i].fHeight]. *)
Definition widthBytes (si : SkYUVASizeInfo) (i : nat) : Z :=
  nth i (fWidthBytes si) 0.

Definition sizeAt (si : SkYUVASizeInfo) (i : nat) : SkISize :=
  nth i (fSizes si) {| fWidth := 0; fHeight := 0 |}.

Definition heightAt (si : SkYUVASizeInfo) (i : nat) : Z := fHeight (sizeAt si i).

(** ** Machine arithmetic: [size_t] and pointers of 64 bits *)

Definition size_t_modulus : Z := 2 ^ 64.

Definition to_size_t (z : Z) : Z := z mod size_t_modulus.

(** [a * b] where [a] is a [size_t] and [b] an [int] converted to it. *)
Definition size_t_mul (a b : Z) : Z := to_size_t (a * to_size_t b).

Definition size_t_add (a b : Z) : Z := to_size_t (a + b).

(** A pointer is its address; the null pointer is address 0. *)
Definition nullptr : Z := 0.

(** [(uint8_t* )p + n]. *)
Definition ptr_add (p n : Z) : Z := to_size_t (p + n).

(** [SkCachedData]: the address and size of its buffer and the bytes in it. *)
Record SkCachedData := {
  cd_data : Z;
  cd_size : Z;
  cd_bytes : Bytes
}.

(** ** Bitmaps and the bitmap cache key *)

(** A bitmap: its info, its pixels, whether it was made immutable and whether
    its pixels belong to a record of the bitmap cache. *)
Record SkBitmap := {
  bm_info : SkImageInfo;
  bm_pixels : Bytes;
  bm_immutable : bool;
  bm_cacheOwned : bool
}.

(** [SkBitmapCacheDesc]: (image id, subset). *)
Definition SkBitmapCacheDesc : Type := N * SkIRect.

Inductive CachingHint := kAllow_CachingHint | kDisallow_CachingHint.

(** ** GPU side *)

Inductive GrMipmapped := GrMipmapped_kNo | GrMipmapped_kYes.

#[global] Instance GrMipmapped_eq_dec : EqDecision GrMipmapped.
Proof. solve_decision. Defined.

Inductive GrImageTexGenPolicy :=
  | kDraw
  | kNew_Uncached_Unbudgeted
  | kNew_Uncached_Budgeted.

#[global] Instance GrImageTexGenPolicy_eq_dec : EqDecision GrImageTexGenPolicy.
Proof. solve_decision. Defined.

Inductive SkBudgeted := SkBudgeted_kNo | SkBudgeted_kYes.

Inductive SkBackingFit := kApprox | kExact.

Inductive GrSurfaceOrigin := kTopLeft_GrSurfaceOrigin | kBottomLeft_GrSurfaceOrigin.

(** Modelled from the spec: the GPU color types of
    include/private/GrTypesPriv.h, not part of the source at hand. *)
Inductive GrColorType :=
  | GrColorType_kUnknown
  | GrColorType_kAlpha_8
  | GrColorType_kBGR_565
  | GrColorType_kABGR_4444
  | GrColorType_kRGBA_8888
  | GrColorType_kRGB_888x
  | GrColorType_kBGRA_8888
  | GrColorType_kRGBA_1010102
  | GrColorType_kGray_8
  | GrColorType_kRGBA_F16
  | GrColorType_kRGBA_F16_Clamped
  | GrColorType_kRGBA_F32.

#[global] Instance GrColorType_eq_dec : EqDecision GrColorType.
Proof. solve_decision. Defined.

(** A backend format: an opaque tag and whether it is valid. *)
Record GrBackendFormat := { fmt_tag : N; fmt_isValid : bool }.

Definition GrSwizzle := N.

(** [GrUniqueKey] as built by [GrMakeKeyFromImageID]: (image id, subset).  A
    default-constructed, invalid key is [None]. *)
Definition GrUniqueKey : Type := N * SkIRect.

Definition GrMakeKeyFromImageID (id : N) (r : SkIRect) : GrUniqueKey := (id, r).

(** A view: the proxy it refers to (by address), origin and swizzle.  The
    empty view [{}] is [None] where a view is returned. *)
Record GrSurfaceProxyView := {
  v_proxy : nat;
  v_origin : GrSurfaceOrigin;
  v_swizzle : GrSwizzle
}.

(** What a texture was filled from. *)
Inductive TextureContents :=
  | FromGenerator
  | FromBitmap (bm : SkBitmap)
  | FromBaseLevelOf (src : nat)
  | FromYUVDraw (planes : list (option GrSurfaceProxyView))
                (indices : list SkYUVAIndex) (yuv : SkYUVColorSpace)
                (srcColorSpace dstColorSpace : option SkColorSpace)
                (rect : SkISize) (origin : N).

(** A texture proxy object. *)
Record GrTextureProxy := {
  tp_mipmapped : GrMipmapped;
  tp_backendFormat : GrBackendFormat;
  tp_dimensions : SkISize;
  tp_uniqueKey : option GrUniqueKey;
  tp_contents : TextureContents
}.

(** What a texture-producing collaborator hands back when it succeeds. *)
Record NewTexture := {
  nt_mipmapped : GrMipmapped;
  nt_backendFormat : GrBackendFormat;
  nt_dimensions : SkISize;
  nt_origin : GrSurfaceOrigin;
  nt_swizzle : GrSwizzle
}.

(** The recording context, as far as the image consults it: its id, the
    option that turns GPU YUV conversion off, the two queries on its caps, and
    the outcome of the GPU operations the image requests (bitmap upload,
    render target creation, copy into a mipmapped texture). *)
Record GrRecordingContext := {
  contextID : N;
  fDisableGpuYUVConversion : bool;
  getDefaultBackendFormat : GrColorType -> GrBackendFormat;
  getReadSwizzle : GrBackendFormat -> GrColorType -> GrSwizzle;
  GrBitmapTextureMaker_view :
    SkBitmap -> SkBackingFit + GrImageTexGenPolicy -> GrMipmapped -> option NewTexture;
  GrRenderTargetContext_Make :
    GrColorType -> SkISize -> SkBudgeted -> option GrBackendFormat;
  GrCopyBaseMipMap_succeeds : GrTextureProxy -> bool
}.

(** ** The generator *)

(** [SkImageGenerator] is the abstract boundary: a generator is given by its
    two constants and by what each of its virtual methods answers. *)
Record SkImageGenerator := {
  getInfo : SkImageInfo;
  uniqueID : N;
  getPixels : SkImageInfo -> option Bytes;
  refEncodedData : option Bytes;
  isValid : GrRecordingContext -> bool;
  queryYUVA8 : option YUVInfo;
  getYUVA8Planes : SkYUVASizeInfo -> list SkYUVAIndex -> list Z -> option Bytes;
  generateTexture :
    GrRecordingContext -> SkImageInfo -> GrMipmapped -> GrImageTexGenPolicy ->
    option NewTexture
}.

(** [SharedGenerator]: the generator behind its mutex. *)
Record SharedGenerator := { fGenerator : SkImageGenerator }.

Definition SharedGenerator_Make (gen : option SkImageGenerator) : option SharedGenerator :=
  match gen with
  | Some g => Some {| fGenerator := g |}
  | None => None
  end.

(** ** The image object *)

(** [GrMakeUniqueKeyInvalidationListener(&key, contextID)]. *)
Definition SkIDChangeListener : Type := GrUniqueKey * N.

(** A [SkImage_Lazy]: the constant members ([fInfo] and [fUniqueID] of the
    base class, the shared generator) and the mutable ones (the memoized
    recoloring, a reference; the listeners; the raster cache flag). *)
Record SkImage_Lazy := {
  fInfo : SkImageInfo;
  fUniqueID : N;
  fSharedGenerator : SharedGenerator;
  fOnMakeColorTypeAndSpaceResult : option nat;
  fUniqueIDListeners : list SkIDChangeListener;
  fAddedToRasterCache : bool
}.

Definition generatorOf (img : SkImage_Lazy) : SkImageGenerator :=
  fGenerator (fSharedGenerator img).

Definition colorType (img : SkImage_Lazy) : SkColorType := ii_colorType (fInfo img).
Definition colorSpace (img : SkImage_Lazy) : option SkColorSpace := ii_colorSpace (fInfo img).
Definition dimensions (img : SkImage_Lazy) : SkISize :=
  {| fWidth := ii_width (fInfo img); fHeight := ii_height (fInfo img) |}.
Definition bounds (img : SkImage_Lazy) : SkIRect :=
  SkIRect_MakeSize (ii_width (fInfo img)) (ii_height (fInfo img)).

(** ** The world *)

Inductive LockTexturePath :=
  | kFailure_LockTexturePath
  | kPreExisting_LockTexturePath
  | kNative_LockTexturePath
  | kCompressed_LockTexturePath
  | kYUV_LockTexturePath
  | kRGBA_LockTexturePath.

#[global] Instance LockTexturePath_eq_dec : EqDecision LockTexturePath.
Proof. solve_decision. Defined.

(** Everything the image code reads or writes outside its arguments:
    - [nextImageID]: the counter behind [SkNextID::ImageID];
    - [images]: the image objects, by address;
    - [bitmapCache]: the records of [SkBitmapCache];
    - [yuvPlanesCache]: the records of [SkYUVPlanesCache];
    - [proxies], [fUniquelyKeyedProxies]: the texture proxies and the key
      table of the [GrProxyProvider];
    - [histogram]: the samples sent to LockTexturePath, oldest first;
    - which allocations succeed: [SkBitmapCache_Alloc], [tryAllocPixels], and
      [SkResourceCache_NewCachedData], which answers the address of the new
      buffer or null. *)
Record World := {
  nextImageID : N;
  images : list SkImage_Lazy;
  bitmapCache : gmap SkBitmapCacheDesc SkBitmap;
  yuvPlanesCache : gmap N (SkCachedData * YUVInfo);
  proxies : list GrTextureProxy;
  fUniquelyKeyedProxies : gmap GrUniqueKey nat;
  histogram : list LockTexturePath;
  SkBitmapCache_Alloc : SkBitmapCacheDesc -> SkImageInfo -> bool;
  tryAllocPixels : SkImageInfo -> bool;
  SkResourceCache_NewCachedData : Z -> option Z
}.

Definition set_nextImageID (n : N) (w : World) : World :=
  {| nextImageID := n; images := images w; bitmapCache := bitmapCache w;
     yuvPlanesCache := yuvPlanesCache w; proxies := proxies w;
     fUniquelyKeyedProxies := fUniquelyKeyedProxies w; histogram := histogram w;
     SkBitmapCache_Alloc := SkBitmapCache_Alloc w; tryAllocPixels := tryAllocPixels w;
     SkResourceCache_NewCachedData := SkResourceCache_NewCachedData w |}.

Definition set_images (l : list SkImage_Lazy) (w : World) : World :=
  {| nextImageID := nextImageID w; images := l; bitmapCache := bitmapCache w;
     yuvPlanesCache := yuvPlanesCache w; proxies := proxies w;
     fUniquelyKeyedProxies := fUniquelyKeyedProxies w; histogram := histogram w;
     SkBitmapCache_Alloc := SkBitmapCache_Alloc w; tryAllocPixels := tryAllocPixels w;
     SkResourceCache_NewCachedData := SkResourceCache_NewCachedData w |}.

Definition set_bitmapCache (m : gmap SkBitmapCacheDesc SkBitmap) (w : World) : World :=
  {| nextImageID := nextImageID w; images := images w; bitmapCache := m;
     yuvPlanesCache := yuvPlanesCache w; proxies := proxies w;
     fUniquelyKeyedProxies := fUniquelyKeyedProxies w; histogram := histogram w;
     SkBitmapCache_Alloc := SkBitmapCache_Alloc w; tryAllocPixels := tryAllocPixels w;
     SkResourceCache_NewCachedData := SkResourceCache_NewCachedData w |}.

Definition set_yuvPlanesCache (m : gmap N (SkCachedData * YUVInfo)) (w : World) : World :=
  {| nextImageID := nextImageID w; images := images w; bitmapCache := bitmapCache w;
     yuvPlanesCache := m; proxies := proxies w;
     fUniquelyKeyedProxies := fUniquelyKeyedProxies w; histogram := histogram w;
     SkBitmapCache_Alloc := SkBitmapCache_Alloc w; tryAllocPixels := tryAllocPixels w;
     SkResourceCache_NewCachedData := SkResourceCache_NewCachedData w |}.

Definition set_proxies (l : list GrTextureProxy) (w : World) : World :=
  {| nextImageID := nextImageID w; images := images w; bitmapCache := bitmapCache w;
     yuvPlanesCache := yuvPlanesCache w; proxies := l;
     fUniquelyKeyedProxies := fUniquelyKeyedProxies w; histogram := histogram w;
     SkBitmapCache_Alloc := SkBitmapCache_Alloc w; tryAllocPixels := tryAllocPixels w;
     SkResourceCache_NewCachedData := SkResourceCache_NewCachedData w |}.

Definition set_fUniquelyKeyedProxies (m : gmap GrUniqueKey nat) (w : World) : World :=
  {| nextImageID := nextImageID w; images := images w; bitmapCache := bitmapCache w;
     yuvPlanesCache := yuvPlanesCache w; proxies := proxies w;
     fUniquelyKeyedProxies := m; histogram := histogram w;
     SkBitmapCache_Alloc := SkBitmapCache_Alloc w; tryAllocPixels := tryAllocPixels w;
     SkResourceCache_NewCachedData := SkResourceCache_NewCachedData w |}.

Definition set_histogram (h : list LockTexturePath) (w : World) : World :=
  {| nextImageID := nextImageID w; images := images w; bitmapCache := bitmapCache w;
     yuvPlanesCache := yuvPlanesCache w; proxies := proxies w;
     fUniquelyKeyedProxies := fUniquelyKeyedProxies w; histogram := h;
     SkBitmapCache_Alloc := SkBitmapCache_Alloc w; tryAllocPixels := tryAllocPixels w;
     SkResourceCache_NewCachedData := SkResourceCache_NewCachedData w |}.

(** ** Outcomes *)

(** A call either returns a value in a new world or steps outside defined
    behaviour: it was made on a dangling [this], or it dereferenced a null
    pointer. *)
Inductive Fault := DanglingThis | NullDereference.

Inductive Outcome (A : Type) :=
  | Ret (a : A) (w : World)
  | Crash (f : Fault).

Arguments Ret {A} a w.
Arguments Crash {A} f.

(** Two calls answer the same: the same value, or the same fault. *)
Definition same_answer {A : Type} (o1 o2 : Outcome A) : Prop :=
  match o1, o2 with
  | Ret a1 _, Ret a2 _ => a1 = a2
  | Crash f1, Crash f2 => f1 = f2
  | _, _ => False
  end.

(** ** Identity *)

(** Modelled from the spec: [SkNextID::ImageID] (src/core/SkNextID.h, not part
    of the source at hand), a process-unique id allocated monotonically from a
    shared counter. *)
Definition SkNextID_ImageID (w : World) : N * World :=
  (nextImageID w, set_nextImageID (nextImageID w + 1)%N w).

(** ** Validator (lines 64-94) *)

Record Validator := {
  v_fSharedGenerator : option SharedGenerator;
  v_fInfo : SkImageInfo;
  v_fUniqueID : N
}.

(** A pointer tested as a condition. *)
Definition non_null {A : Type} (p : option A) : bool :=
  match p with Some _ => true | None => false end.

(** [explicit operator bool() const { return fSharedGenerator; }] *)
Definition Validator_bool (v : Validator) : bool :=
  match v_fSharedGenerator v with Some _ => true | None => false end.

(** The constructor.  [colorType] is the pointer argument, null being [None];
    [colorSpace] is the [sk_sp], null being [None]. *)
Definition Validator_ctor (gen : option SharedGenerator)
    (colorType : option SkColorType) (colorSpace : option SkColorSpace)
    (w : World) : Validator * World :=
  match gen with
  | None =>
      ({| v_fSharedGenerator := None; v_fInfo := SkImageInfo_default; v_fUniqueID := 0%N |}, w)
  | Some sg =>
      let info := getInfo (fGenerator sg) in
      if isEmpty info then
        ({| v_fSharedGenerator := None; v_fInfo := info; v_fUniqueID := 0%N |}, w)
      else
        let id := uniqueID (fGenerator sg) in
        let colorType :=
          match colorType with
          | Some ct => if bool_decide (ct = ii_colorType info) then None else Some ct
          | None => None
          end in
        if non_null colorType || non_null colorSpace then
          let info1 :=
            match colorType with Some ct => makeColorType info ct | None => info end in
          let info2 :=
            match colorSpace with
            | Some cs => makeColorSpace info1 (Some cs)
            | None => info1
            end in
          let (fresh, w') := SkNextID_ImageID w in
          ({| v_fSharedGenerator := Some sg; v_fInfo := info2; v_fUniqueID := fresh |}, w')
        else
          ({| v_fSharedGenerator := Some sg; v_fInfo := info; v_fUniqueID := id |}, w)
  end.

(** [SkImage_Lazy::SkImage_Lazy(Validator* )] followed by [new]: the object is
    built from a truthy validator and placed at a fresh address. *)
Definition SkImage_Lazy_ctor (sg : SharedGenerator) (v : Validator) : SkImage_Lazy :=
  {| fInfo := v_fInfo v; fUniqueID := v_fUniqueID v; fSharedGenerator := sg;
     fOnMakeColorTypeAndSpaceResult := None; fUniqueIDListeners := [];
     fAddedToRasterCache := false |}.

Definition new_SkImage_Lazy (v : Validator) (w : World) : option nat * World :=
  match v_fSharedGenerator v with
  | Some sg => (Some (length (images w)), set_images (images w ++ [SkImage_Lazy_ctor sg v]) w)
  | None => (None, w)
  end.

(** [SkImage::MakeFromGenerator] (lines 247-252). *)
Definition MakeFromGenerator (gen : option SkImageGenerator) (w : World) : option nat * World :=
  let (validator, w1) := Validator_ctor (SharedGenerator_Make gen) None None w in
  new_SkImage_Lazy validator w1.

(** Writing the memo slot of the object at [this]. *)
Definition set_memo (r : option nat) (img : SkImage_Lazy) : SkImage_Lazy :=
  {| fInfo := fInfo img; fUniqueID := fUniqueID img;
     fSharedGenerator := fSharedGenerator img;
     fOnMakeColorTypeAndSpaceResult := r;
     fUniqueIDListeners := fUniqueIDListeners img;
     fAddedToRasterCache := fAddedToRasterCache img |}.

(** Does the memo slot hold an image of this color type and color space? *)
Definition memo_matches (w : World) (self : SkImage_Lazy)
    (targetCT : SkColorType) (targetCS : option SkColorSpace) : option nat :=
  match fOnMakeColorTypeAndSpaceResult self with
  | Some r =>
      match images w !! r with
      | Some child =>
          if bool_decide (targetCT = colorType child)
             && SkColorSpace_Equals targetCS (colorSpace child)
          then Some r else None
      | None => None
      end
  | None => None
  end.

(** [SkImage_Lazy::onMakeColorTypeAndColorSpace] (lines 212-227). *)
Definition onMakeColorTypeAndColorSpace (this : nat) (targetCT : SkColorType)
    (targetCS : option SkColorSpace) (w : World) : Outcome (option nat) :=
  match images w !! this with
  | None => Crash DanglingThis
  | Some self =>
      match memo_matches w self targetCT targetCS with
      | Some r => Ret (Some r) w
      | None =>
          let (validator, w1) :=
            Validator_ctor (Some (fSharedGenerator self)) (Some targetCT) targetCS w in
          let (result, w2) :=
            if Validator_bool validator then new_SkImage_Lazy validator w1 else (None, w1) in
          match result with
          | Some r => Ret (Some r) (set_images (<[this := set_memo (Some r) self]> (images w2)) w2)
          | None => Ret None w2
          end
      end
  end.

(** [SkImage_Lazy::onRefEncoded] (lines 176-183). *)
Definition onRefEncoded (this : nat) (w : World) : Outcome (option Bytes) :=
  match images w !! this with
  | None => Crash DanglingThis
  | Some self =>
      if bool_decide (uniqueID (generatorOf self) = fUniqueID self)
      then Ret (refEncodedData (generatorOf self)) w
      else Ret None w
  end.

(** ** Raster accessor *)

(** [SkBitmapCacheDesc::Make(const SkImage* )]: the image id and its bounds. *)
Definition SkBitmapCacheDesc_Make (self : SkImage_Lazy) : SkBitmapCacheDesc :=
  (fUniqueID self, bounds self).

(** [notifyAddedToRasterCache]. *)
Definition notifyAddedToRasterCache (img : SkImage_Lazy) : SkImage_Lazy :=
  {| fInfo := fInfo img; fUniqueID := fUniqueID img;
     fSharedGenerator := fSharedGenerator img;
     fOnMakeColorTypeAndSpaceResult := fOnMakeColorTypeAndSpaceResult img;
     fUniqueIDListeners := fUniqueIDListeners img;
     fAddedToRasterCache := true |}.

(** [SkImage_Lazy::getROPixels] (lines 132-163).  The result is the bitmap
    written through the out-parameter when the call answers true, and [None]
    when it answers false.  A pending [RecPtr] that is never added is released
    when it goes out of scope, so a failed decode leaves the cache as it was. *)
Definition getROPixels (this : nat) (chint : CachingHint) (w : World)
    : Outcome (option SkBitmap) :=
  match images w !! this with
  | None => Crash DanglingThis
  | Some self =>
      let desc := SkBitmapCacheDesc_Make self in
      match bitmapCache w !! desc with
      | Some bitmap => Ret (Some bitmap) w
      | None =>
          match chint with
          | kAllow_CachingHint =>
              if negb (SkBitmapCache_Alloc w desc (fInfo self)) then Ret None w
              else
                match getPixels (generatorOf self) (fInfo self) with
                | None => Ret None w
                | Some px =>
                    let bitmap :=
                      {| bm_info := fInfo self; bm_pixels := px;
                         bm_immutable := true; bm_cacheOwned := true |} in
                    Ret (Some bitmap)
                        (set_images (<[this := notifyAddedToRasterCache self]> (images w))
                           (set_bitmapCache (<[desc := bitmap]> (bitmapCache w)) w))
                end
          | kDisallow_CachingHint =>
              if negb (tryAllocPixels w (fInfo self)) then Ret None w
              else
                match getPixels (generatorOf self) (fInfo self) with
                | None => Ret None w
                | Some px =>
                    Ret (Some {| bm_info := fInfo self; bm_pixels := px;
                                 bm_immutable := true; bm_cacheOwned := false |}) w
                end
          end
      end
  end.

(** ** YUV planes *)

(** What [getPlanes] hands back: the cached data it returns and the four
    out-parameters. *)
Record Planes := {
  p_data : SkCachedData;
  p_yuvaSizeInfo : SkYUVASizeInfo;
  p_yuvaIndices : list SkYUVAIndex;
  p_yuvColorSpace : SkYUVColorSpace;
  p_outPlanes : list Z
}.

(** The local array [void* planes[kMaxCount]] before anything is stored. *)
Definition planes_uninit : list Z := replicate kMaxCount nullptr.

Definition plane (planes : list Z) (i : nat) : Z := nth i planes nullptr.

(** Lines 374-385: the planes over the data found in the cache. *)
Definition planes_on_hit (data : SkCachedData) (yuvInfo : YUVInfo) : list Z :=
  let planes := <[0%nat := cd_data data]> planes_uninit in
  foldl (fun planes i =>
           if bool_decide (widthBytes (fSizeInfo yuvInfo) i = 0)
           then <[i := nullptr]> planes
           else <[i := ptr_add (plane planes (i - 1))
                         (size_t_mul (widthBytes (fSizeInfo yuvInfo) (i - 1))
                                     (heightAt (fSizeInfo yuvInfo) (i - 1)))]> planes)
        planes (seq 1 (kMaxCount - 1)).

(** Lines 394-400: the size of the one buffer that holds all planes. *)
Definition totalSize (yuvInfo : YUVInfo) : Z :=
  foldl (fun total i =>
           size_t_add total
             (size_t_mul (widthBytes (fSizeInfo yuvInfo) i) (heightAt (fSizeInfo yuvInfo) i)))
        0 (seq 0 kMaxCount).

(** Lines 404-415: the planes over the freshly allocated data. *)
Definition planes_on_miss (writable_data : Z) (yuvInfo : YUVInfo) : list Z :=
  let planes := <[0%nat := writable_data]> planes_uninit in
  foldl (fun planes i =>
           if bool_decide (widthBytes (fSizeInfo yuvInfo) i = 0)
           then <[i := nullptr]> planes
           else <[i := ptr_add (plane planes (i - 1))
                         (size_t_mul (widthBytes (fSizeInfo yuvInfo) (i - 1))
                                     (heightAt (fSizeInfo yuvInfo) (i - 1)))]> planes)
        planes (seq 1 (kMaxCount - 1)).

(** Modelled from the spec: [SkYUVPlanesCache::FindAndRef] and
    [SkYUVPlanesCache::Add] (src/core/SkYUVPlanesCache.cpp, not part of the
    source at hand), a table keyed by a unique id. *)
Definition SkYUVPlanesCache_FindAndRef (id : N) (w : World) : option (SkCachedData * YUVInfo) :=
  yuvPlanesCache w !! id.

Definition SkYUVPlanesCache_Add (id : N) (data : SkCachedData) (yuvInfo : YUVInfo)
    (w : World) : World :=
  set_yuvPlanesCache (<[id := (data, yuvInfo)]> (yuvPlanesCache w)) w.

(** [SkImage_Lazy::getPlanes] (lines 360-434).  [None] is the null
    [sk_sp<SkCachedData>].  On a miss the result of
    [SkResourceCache::NewCachedData] is used at once, through
    [data->writable_data()], whether or not it is null. *)
Definition getPlanes (this : nat) (w : World) : Outcome (option Planes) :=
  match images w !! this with
  | None => Crash DanglingThis
  | Some self =>
      let generator := generatorOf self in
      match SkYUVPlanesCache_FindAndRef (uniqueID generator) w with
      | Some (data, yuvInfo) =>
          Ret (Some {| p_data := data; p_yuvaSizeInfo := fSizeInfo yuvInfo;
                       p_yuvaIndices := fYUVAIndices yuvInfo;
                       p_yuvColorSpace := fColorSpace yuvInfo;
                       p_outPlanes := planes_on_hit data yuvInfo |}) w
      | None =>
          match queryYUVA8 generator with
          | None => Ret None w
          | Some yuvInfo =>
              match SkResourceCache_NewCachedData w (totalSize yuvInfo) with
              | None => Crash NullDereference
              | Some addr =>
                  let planes := planes_on_miss addr yuvInfo in
                  match getYUVA8Planes generator (fSizeInfo yuvInfo)
                                       (fYUVAIndices yuvInfo) planes with
                  | None => Ret None w
                  | Some bytes =>
                      let data := {| cd_data := addr; cd_size := totalSize yuvInfo;
                                     cd_bytes := bytes |} in
                      Ret (Some {| p_data := data; p_yuvaSizeInfo := fSizeInfo yuvInfo;
                                   p_yuvaIndices := fYUVAIndices yuvInfo;
                                   p_yuvColorSpace := fColorSpace yuvInfo;
                                   p_outPlanes := planes |})
                          (SkYUVPlanesCache_Add (fUniqueID self) data yuvInfo w)
                  end
              end
          end
      end
  end.

(** ** The proxy provider *)

Definition new_proxy (tp : GrTextureProxy) (w : World) : nat * World :=
  (length (proxies w), set_proxies (proxies w ++ [tp]) w).

Definition proxy_of_NewTexture (nt : NewTexture) (c : TextureContents) : GrTextureProxy :=
  {| tp_mipmapped := nt_mipmapped nt; tp_backendFormat := nt_backendFormat nt;
     tp_dimensions := nt_dimensions nt; tp_uniqueKey := None; tp_contents := c |}.

(** A collaborator succeeded with [nt]: the proxy is created and viewed. *)
Definition view_of_NewTexture (nt : NewTexture) (c : TextureContents) (w : World)
    : GrSurfaceProxyView * World :=
  let (p, w') := new_proxy (proxy_of_NewTexture nt c) w in
  ({| v_proxy := p; v_origin := nt_origin nt; v_swizzle := nt_swizzle nt |}, w').

Definition set_uniqueKey (k : option GrUniqueKey) (tp : GrTextureProxy) : GrTextureProxy :=
  {| tp_mipmapped := tp_mipmapped tp; tp_backendFormat := tp_backendFormat tp;
     tp_dimensions := tp_dimensions tp; tp_uniqueKey := k; tp_contents := tp_contents tp |}.

(** Modelled from the spec: the three operations of [GrProxyProvider]
    (src/gpu/GrProxyProvider.cpp, not part of the source at hand): find the
    proxy bound to a key, bind a key to a proxy, and remove the key a proxy
    carries. *)
Definition findOrCreateProxyByUniqueKey (key : GrUniqueKey) (w : World)
    : option (nat * GrTextureProxy) :=
  match fUniquelyKeyedProxies w !! key with
  | Some p =>
      match proxies w !! p with
      | Some proxy => Some (p, proxy)
      | None => None
      end
  | None => None
  end.

Definition assignUniqueKeyToProxy (key : GrUniqueKey) (p : nat) (w : World) : World :=
  set_fUniquelyKeyedProxies (<[key := p]> (fUniquelyKeyedProxies w))
    (set_proxies (alter (set_uniqueKey (Some key)) p (proxies w)) w).

Definition removeUniqueKeyFromProxy (p : nat) (w : World) : World :=
  match proxies w !! p with
  | Some proxy =>
      match tp_uniqueKey proxy with
      | Some key =>
          set_fUniquelyKeyedProxies (delete key (fUniquelyKeyedProxies w))
            (set_proxies (<[p := set_uniqueKey None proxy]> (proxies w)) w)
      | None => w
      end
  | None => w
  end.

(** Modelled from the spec: [GrCopyBaseMipMapToView] (src/gpu/SkGr.cpp, not
    part of the source at hand): a fresh mipmapped texture that receives the
    base level of the viewed one, or the empty view when that fails. *)
Definition GrCopyBaseMipMapToView (ctx : GrRecordingContext) (view : GrSurfaceProxyView)
    (w : World) : option GrSurfaceProxyView * World :=
  match proxies w !! v_proxy view with
  | Some src =>
      if GrCopyBaseMipMap_succeeds ctx src then
        let (p, w') :=
          new_proxy {| tp_mipmapped := GrMipmapped_kYes;
                       tp_backendFormat := tp_backendFormat src;
                       tp_dimensions := tp_dimensions src; tp_uniqueKey := None;
                       tp_contents := FromBaseLevelOf (v_proxy view) |} w in
        (Some {| v_proxy := p; v_origin := v_origin view; v_swizzle := v_swizzle view |}, w')
      else (None, w)
  | None => (None, w)
  end.

(** [SK_HISTOGRAM_ENUMERATION("LockTexturePath", sample, count)]. *)
Definition SK_HISTOGRAM_ENUMERATION (sample : LockTexturePath) (w : World) : World :=
  set_histogram (histogram w ++ [sample]) w.

(** [SkImage_Lazy::addUniqueIDListener] (lines 569-572). *)
Definition add_listener (l : SkIDChangeListener) (img : SkImage_Lazy) : SkImage_Lazy :=
  {| fInfo := fInfo img; fUniqueID := fUniqueID img;
     fSharedGenerator := fSharedGenerator img;
     fOnMakeColorTypeAndSpaceResult := fOnMakeColorTypeAndSpaceResult img;
     fUniqueIDListeners := fUniqueIDListeners img ++ [l];
     fAddedToRasterCache := fAddedToRasterCache img |}.

Definition addUniqueIDListener (this : nat) (l : SkIDChangeListener) (w : World) : World :=
  set_images (alter (add_listener l) this (images w)) w.

(** The lambda [installKey] of [lockTextureProxyView] (lines 468-475). *)
Definition installKey (this : nat) (ctx : GrRecordingContext) (key : option GrUniqueKey)
    (view : GrSurfaceProxyView) (w : World) : World :=
  match key with
  | Some k =>
      assignUniqueKeyToProxy k (v_proxy view)
        (addUniqueIDListener this (k, contextID ctx) w)
  | None => w
  end.

(** ** Textures *)

Section Textures.

(** [SkColorTypeToGrColorType] is declared in a header outside the source at
    hand; the image code holds for whatever it computes. *)
Variable SkColorTypeToGrColorType : SkColorType -> GrColorType.

(** [SkImage_Lazy::colorTypeOfLockTextureProxy] (lines 560-567).  The caps
    are reached through the context; the second argument of
    [getDefaultBackendFormat] is the constant [GrRenderable::kNo]. *)
Definition colorTypeOfLockTextureProxy (self : SkImage_Lazy) (caps : GrRecordingContext)
    : GrColorType :=
  let ct := SkColorTypeToGrColorType (colorType self) in
  let format := getDefaultBackendFormat caps ct in
  if negb (fmt_isValid format) then GrColorType_kRGBA_8888 else ct.

Definition SkImageInfo_MakeA8 (width height : Z) : SkImageInfo :=
  {| ii_width := width; ii_height := height; ii_colorType := kAlpha_8_SkColorType;
     ii_alphaType := kPremul_SkAlphaType; ii_colorSpace := None |}.

(** The bytes of plane [i] inside the cached data; a null plane pointer
    installs no pixels. *)
Definition plane_bytes (pl : Planes) (i : nat) : Bytes :=
  if bool_decide (plane (p_outPlanes pl) i = nullptr) then []
  else
    take (Z.to_nat (widthBytes (p_yuvaSizeInfo pl) i * heightAt (p_yuvaSizeInfo pl) i))
         (drop (Z.to_nat (plane (p_outPlanes pl) i - cd_data (p_data pl)))
               (cd_bytes (p_data pl))).

(** The loop of lines 270-315 from index [i] on, over [n] further planes:
    [yuvViews] holds the views made so far; [None] is the early [return {}]. *)
Fixpoint upload_planes (ctx : GrRecordingContext) (pl : Planes) (n : nat) (i : nat)
    (yuvViews : list (option GrSurfaceProxyView)) (w : World)
    : option (list (option GrSurfaceProxyView)) * World :=
  match n with
  | O => (Some yuvViews, w)
  | S n' =>
      let size := sizeAt (p_yuvaSizeInfo pl) i in
      if SkISize_isEmpty size then upload_planes ctx pl n' (S i) yuvViews w
      else
        let componentWidth := fWidth size in
        let componentHeight := fHeight size in
        let fit :=
          if negb (bool_decide (componentWidth = fWidth (sizeAt (p_yuvaSizeInfo pl) 0)))
             || negb (bool_decide (componentHeight = fHeight (sizeAt (p_yuvaSizeInfo pl) 0)))
          then kExact else kApprox in
        let bitmap :=
          {| bm_info := SkImageInfo_MakeA8 componentWidth componentHeight;
             bm_pixels := plane_bytes pl i; bm_immutable := true;
             bm_cacheOwned := false |} in
        match GrBitmapTextureMaker_view ctx bitmap (inl fit) GrMipmapped_kNo with
        | None => (None, w)
        | Some nt =>
            let (view, w') := view_of_NewTexture nt (FromBitmap bitmap) w in
            upload_planes ctx pl n' (S i) (<[i := Some view]> yuvViews) w'
        end
  end.

(** [SkImage_Lazy::textureProxyViewFromPlanes] (lines 256-358).  The draw of
    lines 326-354 is kept as the contents of the render target: the plane
    views, the indices, the YUV color space, the color space conversion from
    the generator's color space to the image's, the rectangle and the encoded
    origin that gives the matrix. *)
Definition textureProxyViewFromPlanes (this : nat) (ctx : GrRecordingContext)
    (budgeted : SkBudgeted) (w : World) : Outcome (option GrSurfaceProxyView) :=
  match images w !! this with
  | None => Crash DanglingThis
  | Some self =>
      match getPlanes this w with
      | Crash f => Crash f
      | Ret None w1 => Ret None w1
      | Ret (Some pl) w1 =>
          match upload_planes ctx pl kMaxCount 0 (replicate kMaxCount None) w1 with
          | (None, w2) => Ret None w2
          | (Some yuvViews, w2) =>
              let ct := SkColorTypeToGrColorType (colorType self) in
              match GrRenderTargetContext_Make ctx ct (dimensions self) budgeted with
              | None => Ret None w2
              | Some format =>
                  let srcColorSpace := ii_colorSpace (getInfo (generatorOf self)) in
                  let dstColorSpace := colorSpace self in
                  let r := sizeAt (p_yuvaSizeInfo pl) 0 in
                  let (p, w3) :=
                    new_proxy
                      {| tp_mipmapped := GrMipmapped_kNo; tp_backendFormat := format;
                         tp_dimensions := dimensions self; tp_uniqueKey := None;
                         tp_contents :=
                           FromYUVDraw yuvViews (p_yuvaIndices pl) (p_yuvColorSpace pl)
                                       srcColorSpace dstColorSpace r
                                       (fOrigin (p_yuvaSizeInfo pl)) |} w2 in
                  Ret (Some {| v_proxy := p; v_origin := kTopLeft_GrSurfaceOrigin;
                               v_swizzle := getReadSwizzle ctx format ct |}) w3
              end
          end
      end
  end.

(** Stage 4 of [lockTextureProxyView] (lines 537-557), with the final
    failure sample. *)
Definition lockTexture_stage4 (this : nat) (ctx : GrRecordingContext)
    (texGenPolicy : GrImageTexGenPolicy) (mipMapped : GrMipmapped)
    (key : option GrUniqueKey) (w : World) : Outcome (option GrSurfaceProxyView) :=
  let hint := if bool_decide (texGenPolicy = kDraw)
              then kAllow_CachingHint else kDisallow_CachingHint in
  let failure w := Ret None (SK_HISTOGRAM_ENUMERATION kFailure_LockTexturePath w) in
  match getROPixels this hint w with
  | Crash f => Crash f
  | Ret None w1 => failure w1
  | Ret (Some bitmap) w1 =>
      let makerPolicy :=
        if bool_decide (texGenPolicy = kNew_Uncached_Unbudgeted)
        then kNew_Uncached_Unbudgeted else kNew_Uncached_Budgeted in
      match GrBitmapTextureMaker_view ctx bitmap (inr makerPolicy) mipMapped with
      | Some nt =>
          let (view, w2) := view_of_NewTexture nt (FromBitmap bitmap) w1 in
          Ret (Some view)
              (SK_HISTOGRAM_ENUMERATION kRGBA_LockTexturePath (installKey this ctx key view w2))
      | None => failure w1
      end
  end.

(** Stage 3 (lines 520-535), falling through to stage 4. *)
Definition lockTexture_stage3 (this : nat) (ctx : GrRecordingContext)
    (texGenPolicy : GrImageTexGenPolicy) (mipMapped : GrMipmapped)
    (key : option GrUniqueKey) (w : World) : Outcome (option GrSurfaceProxyView) :=
  if bool_decide (mipMapped = GrMipmapped_kNo) && negb (fDisableGpuYUVConversion ctx) then
    let budgeted := if bool_decide (texGenPolicy = kNew_Uncached_Unbudgeted)
                    then SkBudgeted_kNo else SkBudgeted_kYes in
    match textureProxyViewFromPlanes this ctx budgeted w with
    | Crash f => Crash f
    | Ret (Some view) w1 =>
        Ret (Some view)
            (installKey this ctx key view (SK_HISTOGRAM_ENUMERATION kYUV_LockTexturePath w1))
    | Ret None w1 => lockTexture_stage4 this ctx texGenPolicy mipMapped key w1
    end
  else lockTexture_stage4 this ctx texGenPolicy mipMapped key w.

(** Stage 2 (lines 508-518), falling through to stage 3. *)
Definition lockTexture_stage2 (this : nat) (self : SkImage_Lazy) (ctx : GrRecordingContext)
    (texGenPolicy : GrImageTexGenPolicy) (mipMapped : GrMipmapped)
    (key : option GrUniqueKey) (w : World) : Outcome (option GrSurfaceProxyView) :=
  match generateTexture (generatorOf self) ctx (fInfo self) mipMapped texGenPolicy with
  | Some nt =>
      let (view, w1) := view_of_NewTexture nt FromGenerator w in
      Ret (Some view)
          (installKey this ctx key view (SK_HISTOGRAM_ENUMERATION kNative_LockTexturePath w1))
  | None => lockTexture_stage3 this ctx texGenPolicy mipMapped key w
  end.

(** [SkImage_Lazy::lockTextureProxyView] (lines 444-558). *)
Definition lockTextureProxyView (this : nat) (ctx : GrRecordingContext)
    (texGenPolicy : GrImageTexGenPolicy) (mipMapped : GrMipmapped) (w : World)
    : Outcome (option GrSurfaceProxyView) :=
  match images w !! this with
  | None => Crash DanglingThis
  | Some self =>
      let key :=
        if bool_decide (texGenPolicy = kDraw)
        then Some (GrMakeKeyFromImageID (fUniqueID self)
                     (SkIRect_MakeSize (fWidth (dimensions self)) (fHeight (dimensions self))))
        else None in
      let ct := colorTypeOfLockTextureProxy self ctx in
      match key ≫= (fun k => findOrCreateProxyByUniqueKey k w) with
      | Some (p, proxy) =>
          let w1 := SK_HISTOGRAM_ENUMERATION kPreExisting_LockTexturePath w in
          let swizzle := getReadSwizzle ctx (tp_backendFormat proxy) ct in
          let view := {| v_proxy := p; v_origin := kTopLeft_GrSurfaceOrigin;
                         v_swizzle := swizzle |} in
          if bool_decide (mipMapped = GrMipmapped_kNo)
             || bool_decide (tp_mipmapped proxy = GrMipmapped_kYes)
          then Ret (Some view) w1
          else
            match GrCopyBaseMipMapToView ctx view w1 with
            | (None, w2) => Ret (Some view) w2
            | (Some mippedView, w2) =>
                Ret (Some mippedView)
                    (installKey this ctx key mippedView
                       (removeUniqueKeyFromProxy (v_proxy view) w2))
            end
      | None => lockTexture_stage2 this self ctx texGenPolicy mipMapped key w
      end
  end.

(** *** The cascade in the words of the specification

    Which stage would succeed on a call, each stage taken by itself; the
    outcome of the cascade is the first of the stages, in order, that
    succeeds. *)

Definition lockTexture_key (self : SkImage_Lazy) (texGenPolicy : GrImageTexGenPolicy)
    : option GrUniqueKey :=
  if bool_decide (texGenPolicy = kDraw)
  then Some (GrMakeKeyFromImageID (fUniqueID self)
               (SkIRect_MakeSize (fWidth (dimensions self)) (fHeight (dimensions self))))
  else None.

(** Stage 1: the policy gives a key and the proxy provider has a proxy for it. *)
Definition cache_hit_succeeds (self : SkImage_Lazy) (texGenPolicy : GrImageTexGenPolicy)
    (w : World) : bool :=
  non_null (lockTexture_key self texGenPolicy ≫= (fun k => findOrCreateProxyByUniqueKey k w)).

(** Stage 2: the generator makes a texture itself. *)
Definition native_generation_succeeds (self : SkImage_Lazy) (ctx : GrRecordingContext)
    (texGenPolicy : GrImageTexGenPolicy) (mipMapped : GrMipmapped) : bool :=
  non_null (generateTexture (generatorOf self) ctx (fInfo self) mipMapped texGenPolicy).

(** Stage 3 is skipped for mipmapped requests and when the context disables
    GPU YUV conversion. *)
Definition yuv_planar_attempted (ctx : GrRecordingContext) (mipMapped : GrMipmapped) : bool :=
  bool_decide (mipMapped = GrMipmapped_kNo) && negb (fDisableGpuYUVConversion ctx).

Definition yuv_budgeted (texGenPolicy : GrImageTexGenPolicy) : SkBudgeted :=
  if bool_decide (texGenPolicy = kNew_Uncached_Unbudgeted)
  then SkBudgeted_kNo else SkBudgeted_kYes.

Definition yuv_planar_succeeds (this : nat) (ctx : GrRecordingContext)
    (texGenPolicy : GrImageTexGenPolicy) (mipMapped : GrMipmapped) (w : World) : bool :=
  yuv_planar_attempted ctx mipMapped
  && match textureProxyViewFromPlanes this ctx (yuv_budgeted texGenPolicy) w with
     | Ret (Some _) _ => true
     | _ => false
     end.

(** The world stage 4 starts in: the one a failed stage 3 left behind (the
    planes it decoded stay cached), or the initial one if stage 3 was
    skipped. *)
Definition world_after_yuv_attempt (this : nat) (ctx : GrRecordingContext)
    (texGenPolicy : GrImageTexGenPolicy) (mipMapped : GrMipmapped) (w : World) : World :=
  if yuv_planar_attempted ctx mipMapped then
    match textureProxyViewFromPlanes this ctx (yuv_budgeted texGenPolicy) w with
    | Ret _ w1 => w1
    | Crash _ => w
    end
  else w.

(** Stage 4: the pixels are read and the bitmap uploads. *)
Definition rgba_fallback_succeeds (this : nat) (ctx : GrRecordingContext)
    (texGenPolicy : GrImageTexGenPolicy) (mipMapped : GrMipmapped) (w : World) : bool :=
  let hint := if bool_decide (texGenPolicy = kDraw)
              then kAllow_CachingHint else kDisallow_CachingHint in
  let makerPolicy :=
    if bool_decide (texGenPolicy = kNew_Uncached_Unbudgeted)
    then kNew_Uncached_Unbudgeted else kNew_Uncached_Budgeted in
  match getROPixels this hint (world_after_yuv_attempt this ctx texGenPolicy mipMapped w) with
  | Ret (Some bitmap) _ =>
      non_null (GrBitmapTextureMaker_view ctx bitmap (inr makerPolicy) mipMapped)
  | _ => false
  end.

Definition first_stage_that_succeeds (this : nat) (self : SkImage_Lazy)
    (ctx : GrRecordingContext) (texGenPolicy : GrImageTexGenPolicy)
    (mipMapped : GrMipmapped) (w : World) : LockTexturePath :=
  if cache_hit_succeeds self texGenPolicy w then kPreExisting_LockTexturePath
  else if native_generation_succeeds self ctx texGenPolicy mipMapped
  then kNative_LockTexturePath
  else if yuv_planar_succeeds this ctx texGenPolicy mipMapped w then kYUV_LockTexturePath
  else if rgba_fallback_succeeds this ctx texGenPolicy mipMapped w then kRGBA_LockTexturePath
  else kFailure_LockTexturePath.

End Textures.

(** ** Well-formed worlds *)

(** Ids come from the one counter: those of the images and of their
    generators lie below it. *)
Definition ids_allocated (w : World) : Prop :=
  forall a img, images w !! a = Some img ->
    (fUniqueID img < nextImageID w)%N /\ (uniqueID (generatorOf img) < nextImageID w)%N.

(** An image that carries its generator's id carries its generator's info. *)
Definition generator_id_generator_info (w : World) : Prop :=
  forall a img, images w !! a = Some img ->
    fUniqueID img = uniqueID (generatorOf img) -> fInfo img = getInfo (generatorOf img).

(** Over one generator, the unique id determines the info. *)
Definition id_determines_info (w : World) : Prop :=
  forall a b ia ib,
    images w !! a = Some ia -> images w !! b = Some ib ->
    fSharedGenerator ia = fSharedGenerator ib ->
    fUniqueID ia = fUniqueID ib -> fInfo ia = fInfo ib.

Definition well_formed (w : World) : Prop :=
  ids_allocated w /\ generator_id_generator_info w /\ id_determines_info w.

(** The allocation that [getPlanes] would make for this image on a miss of
    the planes cache does not answer null. *)
Definition planes_allocation_succeeds (self : SkImage_Lazy) (w : World) : Prop :=
  yuvPlanesCache w !! uniqueID (generatorOf self) = None ->
  forall yuvInfo,
    queryYUVA8 (generatorOf self) = Some yuvInfo ->
    is_Some (SkResourceCache_NewCachedData w (totalSize yuvInfo)).

(** ** Sample generator, images and worlds *)

Definition sample_info : SkImageInfo :=
  {| ii_width := 2; ii_height := 2; ii_colorType := kRGBA_8888_SkColorType;
     ii_alphaType := kPremul_SkAlphaType; ii_colorSpace := Some 1%N |}.

(** Planes Y 2x2, U 1x1, V 1x1, no alpha plane. *)
Definition sample_yuv : YUVInfo :=
  {| fSizeInfo :=
       {| fSizes := [ {| fWidth := 2; fHeight := 2 |}; {| fWidth := 1; fHeight := 1 |};
                      {| fWidth := 1; fHeight := 1 |}; {| fWidth := 0; fHeight := 0 |} ];
          fWidthBytes := [2; 1; 1; 0];
          fOrigin := 1%N |};
     fYUVAIndices := [(0, 0%N); (1, 0%N); (2, 0%N); (-1, 0%N)];
     fColorSpace := kJPEG_SkYUVColorSpace |}.

Definition sample_generator : SkImageGenerator :=
  {| getInfo := sample_info;
     uniqueID := 2%N;
     getPixels := fun _ => Some (replicate 16 255%N);
     refEncodedData := Some [137%N; 80%N; 78%N; 71%N];
     isValid := fun _ => true;
     queryYUVA8 := Some sample_yuv;
     getYUVA8Planes := fun _ _ _ => Some [16%N; 16%N; 16%N; 16%N; 128%N; 128%N];
     generateTexture := fun _ _ _ _ => None |}.

Definition empty_world : World :=
  {| nextImageID := 4%N; images := []; bitmapCache := ∅; yuvPlanesCache := ∅;
     proxies := []; fUniquelyKeyedProxies := ∅; histogram := [];
     SkBitmapCache_Alloc := fun _ _ => true; tryAllocPixels := fun _ => true;
     SkResourceCache_NewCachedData := fun _ => Some 4096 |}.

(** One image made from the sample generator: it sits at address 0. *)
Definition sample_world : World := snd (MakeFromGenerator (Some sample_generator) empty_world).

Definition sample_image : SkImage_Lazy :=
  {| fInfo := sample_info; fUniqueID := 2%N;
     fSharedGenerator := {| fGenerator := sample_generator |};
     fOnMakeColorTypeAndSpaceResult := None; fUniqueIDListeners := [];
     fAddedToRasterCache := false |}.

(** The world after recoloring that image to BGRA in color space 1: the
    child sits at address 1 and in the memo slot of image 0. *)
Definition recolored_world : World :=
  match onMakeColorTypeAndColorSpace 0 kBGRA_8888_SkColorType (Some 1%N) sample_world with
  | Ret _ w => w
  | Crash _ => sample_world
  end.

Definition recolored_image : SkImage_Lazy :=
  {| fInfo := makeColorType sample_info kBGRA_8888_SkColorType; fUniqueID := 4%N;
     fSharedGenerator := {| fGenerator := sample_generator |};
     fOnMakeColorTypeAndSpaceResult := None; fUniqueIDListeners := [];
     fAddedToRasterCache := false |}.

(** A generator of an empty image, and a world holding an image over it (as
    no constructor would build). *)
Definition empty_generator : SkImageGenerator :=
  {| getInfo := SkImageInfo_default; uniqueID := 2%N;
     getPixels := fun _ => None; refEncodedData := None; isValid := fun _ => false;
     queryYUVA8 := None; getYUVA8Planes := fun _ _ _ => None;
     generateTexture := fun _ _ _ _ => None |}.


(** The sample world when no allocation succeeds. *)
Definition failing_alloc_world : World :=
  {| nextImageID := 4%N; images := [sample_image]; bitmapCache := ∅; yuvPlanesCache := ∅;
     proxies := []; fUniquelyKeyedProxies := ∅; histogram := [];
     SkBitmapCache_Alloc := fun _ _ => false; tryAllocPixels := fun _ => false;
     SkResourceCache_NewCachedData := fun _ => None |}.

(** ** The layout rule of the YUV planes, in the words of the specification *)

(** The sum over [j < i] of [row_bytes[j] * height[j]]. *)
Fixpoint offset_of_plane (si : SkYUVASizeInfo) (i : nat) : Z :=
  match i with
  | O => 0
  | S j => offset_of_plane si j + widthBytes si j * heightAt si j
  end.

(** Every plane strictly between 0 and [i] is non-empty. *)
Definition packed_below (si : SkYUVASizeInfo) (i : nat) : Prop :=
  forall j, (0 < j < i)%nat -> widthBytes si j <> 0.

(** A plane description with a hole: planes 0 and 2 of 4x4, plane 1 empty. *)
Definition gapped_yuv : YUVInfo :=
  {| fSizeInfo :=
       {| fSizes := [ {| fWidth := 4; fHeight := 4 |}; {| fWidth := 0; fHeight := 0 |};
                      {| fWidth := 4; fHeight := 4 |}; {| fWidth := 0; fHeight := 0 |} ];
          fWidthBytes := [4; 0; 4; 0];
          fOrigin := 1%N |};
     fYUVAIndices := [(0, 0%N); (2, 0%N); (2, 1%N); (-1, 0%N)];
     fColorSpace := kJPEG_SkYUVColorSpace |}.

Definition gapped_generator : SkImageGenerator :=
  {| getInfo := sample_info; uniqueID := 2%N;
     getPixels := fun _ => None; refEncodedData := None; isValid := fun _ => true;
     queryYUVA8 := Some gapped_yuv;
     getYUVA8Planes := fun _ _ _ => Some (replicate 32 0%N);
     generateTexture := fun _ _ _ _ => None |}.

Definition gapped_world : World := snd (MakeFromGenerator (Some gapped_generator) empty_world).

(** Successive [getPlanes] calls, one per receiver in the list. *)
Fixpoint getPlanes_each (receivers : list nat) (w : World) : Outcome (list (option Planes)) :=
  match receivers with
  | [] => Ret [] w
  | this :: rest =>
      match getPlanes this w with
      | Ret r w1 =>
          match getPlanes_each rest w1 with
          | Ret rs w2 => Ret (r :: rs) w2
          | Crash f => Crash f
          end
      | Crash f => Crash f
      end
  end.

(** Every receiver is a live image over the shared generator [sg] whose
    unique id is not the generator's. *)
Definition recolored_over (sg : SharedGenerator) (w : World) (receivers : list nat) : Prop :=
  Forall (fun this => exists img, images w !! this = Some img
                                  /\ fSharedGenerator img = sg
                                  /\ fUniqueID img <> uniqueID (fGenerator sg)) receivers.

(** A context whose GPU operations all succeed; unknown color types have no
    valid default format. *)
Definition sample_format : GrBackendFormat := {| fmt_tag := 1%N; fmt_isValid := true |}.

Definition sample_ctx : GrRecordingContext :=
  {| contextID := 7%N;
     fDisableGpuYUVConversion := false;
     getDefaultBackendFormat := fun ct =>
       {| fmt_tag := 1%N; fmt_isValid := negb (bool_decide (ct = GrColorType_kUnknown)) |};
     getReadSwizzle := fun _ _ => 0%N;
     GrBitmapTextureMaker_view := fun bm _ mip =>
       Some {| nt_mipmapped := mip; nt_backendFormat := sample_format;
               nt_dimensions := {| fWidth := ii_width (bm_info bm);
                                   fHeight := ii_height (bm_info bm) |};
               nt_origin := kTopLeft_GrSurfaceOrigin; nt_swizzle := 0%N |};
     GrRenderTargetContext_Make := fun _ _ _ => Some sample_format;
     GrCopyBaseMipMap_succeeds := fun _ => true |}.

(** The same context on a GPU that cannot copy into a mipmapped texture. *)
Definition no_copy_ctx : GrRecordingContext :=
  {| contextID := 7%N;
     fDisableGpuYUVConversion := false;
     getDefaultBackendFormat := getDefaultBackendFormat sample_ctx;
     getReadSwizzle := getReadSwizzle sample_ctx;
     GrBitmapTextureMaker_view := GrBitmapTextureMaker_view sample_ctx;
     GrRenderTargetContext_Make := GrRenderTargetContext_Make sample_ctx;
     GrCopyBaseMipMap_succeeds := fun _ => false |}.

(** A color type conversion that knows three color types. *)
Definition sample_SkColorTypeToGrColorType (ct : SkColorType) : GrColorType :=
  match ct with
  | kAlpha_8_SkColorType => GrColorType_kAlpha_8
  | kRGBA_8888_SkColorType => GrColorType_kRGBA_8888
  | kBGRA_8888_SkColorType => GrColorType_kBGRA_8888
  | _ => GrColorType_kUnknown
  end.

(** The sample world after the image was locked once for drawing, without
    mipmaps: its key is bound to a texture. *)
Definition locked_world : World :=
  match lockTextureProxyView sample_SkColorTypeToGrColorType 0 sample_ctx kDraw
          GrMipmapped_kNo sample_world with
  | Ret _ w => w
  | Crash _ => sample_world
  end.

(** ** Further members of [SkImage_Lazy] *)

(** [SkImage_Lazy::onIsValid] (lines 185-188). *)
Definition onIsValid (this : nat) (context : GrRecordingContext) (w : World) : Outcome bool :=
  match images w !! this with
  | None => Crash DanglingThis
  | Some self => Ret (isValid (generatorOf self) context) w
  end.

(** Modelled from the spec: [SkImage::MakeFromBitmap] (src/image/SkImage_Raster.cpp,
    not part of the source at hand) on an immutable bitmap with pixels: the
    eager raster image that shares the bitmap, given here by that bitmap. *)
Definition SkImage_MakeFromBitmap (bitmap : SkBitmap) : option SkBitmap := Some bitmap.

(** [SkImage_Lazy::onReinterpretColorSpace] (lines 229-245): the bitmap is
    allocated with the new color space, the pixmap handed to the generator
    carries the image's own color space again. *)
Definition onReinterpretColorSpace (this : nat) (newCS : option SkColorSpace) (w : World)
    : Outcome (option SkBitmap) :=
  match images w !! this with
  | None => Crash DanglingThis
  | Some self =>
      let bitmapInfo := makeColorSpace (fInfo self) newCS in
      if tryAllocPixels w bitmapInfo then
        let pixmapInfo := makeColorSpace bitmapInfo (colorSpace self) in
        match getPixels (generatorOf self) pixmapInfo with
        | Some px =>
            Ret (SkImage_MakeFromBitmap
                   {| bm_info := bitmapInfo; bm_pixels := px; bm_immutable := true;
                      bm_cacheOwned := false |}) w
        | None => Ret None w
        end
      else Ret None w
  end.

Section ReadPixels.

(** [SkBitmap::readPixels] is declared outside the source at hand: what it
    copies out of a bitmap, or [None] when it answers false. *)
Variable SkBitmap_readPixels : SkBitmap -> SkImageInfo -> Z -> Z -> Z -> option Bytes.

(** [SkImage_Lazy::onReadPixels] (lines 167-174). *)
Definition onReadPixels (this : nat) (dstInfo : SkImageInfo) (dstRB : Z) (srcX srcY : Z)
    (chint : CachingHint) (w : World) : Outcome (option Bytes) :=
  match getROPixels this chint w with
  | Crash f => Crash f
  | Ret (Some bm) w1 => Ret (SkBitmap_readPixels bm dstInfo dstRB srcX srcY) w1
  | Ret None w1 => Ret None w1
  end.

End ReadPixels.

(** ** Notions used by the further properties *)

(** Every bitmap held by the bitmap cache is immutable. *)
Definition bitmapCache_immutable (w : World) : Prop :=
  forall desc bm, bitmapCache w !! desc = Some bm -> bm_immutable bm = true.

(** The members of an image that never change: info, id and generator. *)
Definition same_identity (a b : SkImage_Lazy) : Prop :=
  fInfo a = fInfo b /\ fUniqueID a = fUniqueID b
  /\ fSharedGenerator a = fSharedGenerator b
  /\ fOnMakeColorTypeAndSpaceResult a = fOnMakeColorTypeAndSpaceResult b.

(** The planes of a size description that are not empty. *)
Definition nonempty_planes (si : SkYUVASizeInfo) (first count : nat) : list nat :=
  filter (fun i => SkISize_isEmpty (sizeAt si i) = false) (seq first count).

(** The key a lazy image is cached under by [lockTextureProxyView]. *)
Definition textureKey (self : SkImage_Lazy) : GrUniqueKey :=
  GrMakeKeyFromImageID (fUniqueID self)
    (SkIRect_MakeSize (fWidth (dimensions self)) (fHeight (dimensions self))).

(** A world with an image recolored to color space 2, whose generator works
    in color space 1. *)
Definition wide_gamut_world : World :=
  match onMakeColorTypeAndColorSpace 0 kBGRA_8888_SkColorType (Some 2%N) sample_world with
  | Ret _ w => w
  | Crash _ => sample_world
  end.

(** A bitmap copy that rejects every request. *)
Definition failing_readPixels (bm : SkBitmap) (dstInfo : SkImageInfo) (dstRB srcX srcY : Z)
    : option Bytes := None.

(** A generator that makes its own textures, and a world with an image over
    it. *)
Definition native_generator : SkImageGenerator :=
  {| getInfo := sample_info; uniqueID := 2%N;
     getPixels := fun _ => Some (replicate 16 255%N);
     refEncodedData := None; isValid := fun _ => true;
     queryYUVA8 := None; getYUVA8Planes := fun _ _ _ => None;
     generateTexture := fun _ info mip _ =>
       Some {| nt_mipmapped := mip; nt_backendFormat := sample_format;
               nt_dimensions := {| fWidth := ii_width info; fHeight := ii_height info |};
               nt_origin := kTopLeft_GrSurfaceOrigin; nt_swizzle := 0%N |} |}.

Definition native_world : World := snd (MakeFromGenerator (Some native_generator) empty_world).

(** The images of [l] are at the same addresses in [l'], with their
    identity. *)
Definition identities_kept (l l' : list SkImage_Lazy) : Prop :=
  length l' = length l
  /\ forall a img, l !! a = Some img ->
       exists img', l' !! a = Some img' /\ same_identity img img'.

(** From [w] to [w'] only textures were created (and planes or samples
    recorded): ids, images, bitmap cache and key table are as before and the
    proxies of [w] are the first proxies of [w']. *)
Definition only_textures_created (w w' : World) : Prop :=
  nextImageID w' = nextImageID w /\ images w' = images w
  /\ bitmapCache w' = bitmapCache w
  /\ fUniquelyKeyedProxies w' = fUniquelyKeyedProxies w
  /\ exists created, proxies w' = proxies w ++ created.

(** ** The unchecked allocation, seen from the cascade *)

(** The allocation that [getPlanes] would make for this image on a miss of
    the planes cache answers null. *)
Definition planes_allocation_fails (self : SkImage_Lazy) (w : World) : Prop :=
  yuvPlanesCache w !! uniqueID (generatorOf self) = None
  /\ exists yuvInfo,
       queryYUVA8 (generatorOf self) = Some yuvInfo
       /\ SkResourceCache_NewCachedData w (totalSize yuvInfo) = None.

(** The call gets as far as that allocation: no cached texture, no native
    texture, the planar stage is attempted, and the allocation answers null. *)
Definition reaches_null_data (self : SkImage_Lazy) (ctx : GrRecordingContext)
    (texGenPolicy : GrImageTexGenPolicy) (mipMapped : GrMipmapped) (w : World) : Prop :=
  cache_hit_succeeds self texGenPolicy w = false
  /\ native_generation_succeeds self ctx texGenPolicy mipMapped = false
  /\ yuv_planar_attempted ctx mipMapped = true
  /\ planes_allocation_fails self w.

(** The sample world when only the resource cache answers null. *)
Definition null_planes_world : World :=
  {| nextImageID := 4%N; images := [sample_image]; bitmapCache := ∅; yuvPlanesCache := ∅;
     proxies := []; fUniquelyKeyedProxies := ∅; histogram := [];
     SkBitmapCache_Alloc := fun _ _ => true; tryAllocPixels := fun _ => true;
     SkResourceCache_NewCachedData := fun _ => None |}.

(** ** A context that tells color types apart *)

Definition GrColorType_code (ct : GrColorType) : N :=
  match ct with
  | GrColorType_kUnknown => 0
  | GrColorType_kAlpha_8 => 1
  | GrColorType_kBGR_565 => 2
  | GrColorType_kABGR_4444 => 3
  | GrColorType_kRGBA_8888 => 4
  | GrColorType_kRGB_888x => 5
  | GrColorType_kBGRA_8888 => 6
  | GrColorType_kRGBA_1010102 => 7
  | GrColorType_kGray_8 => 8
  | GrColorType_kRGBA_F16 => 9
  | GrColorType_kRGBA_F16_Clamped => 10
  | GrColorType_kRGBA_F32 => 11
  end%N.

(** The sample context, except that the swizzle it reads and the format of
    the render targets it makes carry the code of the color type they were
    asked for. *)
Definition probing_ctx : GrRecordingContext :=
  {| contextID := 7%N;
     fDisableGpuYUVConversion := false;
     getDefaultBackendFormat := getDefaultBackendFormat sample_ctx;
     getReadSwizzle := fun _ ct => GrColorType_code ct;
     GrBitmapTextureMaker_view := GrBitmapTextureMaker_view sample_ctx;
     GrRenderTargetContext_Make := fun ct _ _ =>
       Some {| fmt_tag := GrColorType_code ct; fmt_isValid := true |};
     GrCopyBaseMipMap_succeeds := fun _ => true |}.

(** The probing context on a GPU that makes no render target for a color
    type without a valid default format. *)
Definition strict_ctx : GrRecordingContext :=
  {| contextID := 7%N;
     fDisableGpuYUVConversion := false;
     getDefaultBackendFormat := getDefaultBackendFormat sample_ctx;
     getReadSwizzle := fun _ ct => GrColorType_code ct;
     GrBitmapTextureMaker_view := GrBitmapTextureMaker_view sample_ctx;
     GrRenderTargetContext_Make := fun ct _ _ =>
       if fmt_isValid (getDefaultBackendFormat sample_ctx ct)
       then Some {| fmt_tag := GrColorType_code ct; fmt_isValid := true |}
       else None;
     GrCopyBaseMipMap_succeeds := fun _ => true |}.

(** The sample world after recoloring the image to Gray_8, a color type the
    sample conversion does not know: the child sits at address 1. *)
Definition gray_world : World :=
  match onMakeColorTypeAndColorSpace 0 kGray_8_SkColorType None sample_world with
  | Ret _ w => w
  | Crash _ => sample_world
  end.

Definition gray_image : SkImage_Lazy :=
  {| fInfo := makeColorType sample_info kGray_8_SkColorType; fUniqueID := 4%N;
     fSharedGenerator := {| fGenerator := sample_generator |};
     fOnMakeColorTypeAndSpaceResult := None; fUniqueIDListeners := [];
     fAddedToRasterCache := false |}.
(** * Properties *)

(** ** Recoloring: the memo slot *)

(** What the validator answers on a generator whose info is not empty. *)
Lemma Validator_ctor_override (sg : SharedGenerator) (ct : SkColorType)
    (cs : option SkColorSpace) (w : World) :
  isEmpty (getInfo (fGenerator sg)) = false ->
  (is_Some cs \/ ct <> ii_colorType (getInfo (fGenerator sg))) ->
  exists info,
    Validator_ctor (Some sg) (Some ct) cs w =
      ({| v_fSharedGenerator := Some sg; v_fInfo := info; v_fUniqueID := nextImageID w |},
       set_nextImageID (nextImageID w + 1)%N w)
    /\ ii_colorType info = ct
    /\ ii_colorSpace info = match cs with Some c => Some c | None => ii_colorSpace (getInfo (fGenerator sg)) end.
Proof.
  intros Hne Hov. unfold Validator_ctor. rewrite Hne.
  destruct (bool_decide (ct = ii_colorType (getInfo (fGenerator sg)))) eqn:Hct.
  - apply bool_decide_eq_true in Hct.
    destruct Hov as [[c ->] | Hdiff]; [| contradiction].
    simpl. eexists. split; [reflexivity |]. simpl. auto.
  - destruct cs as [c |]; simpl; eexists; (split; [reflexivity |]); simpl; auto.
Qed.

Lemma Validator_ctor_plain (sg : SharedGenerator) (ct : SkColorType) (w : World) :
  isEmpty (getInfo (fGenerator sg)) = false ->
  ct = ii_colorType (getInfo (fGenerator sg)) ->
  Validator_ctor (Some sg) (Some ct) None w =
    ({| v_fSharedGenerator := Some sg; v_fInfo := getInfo (fGenerator sg);
        v_fUniqueID := uniqueID (fGenerator sg) |}, w).
Proof.
  intros Hne ->. unfold Validator_ctor. rewrite Hne.
  rewrite bool_decide_eq_true_2 by reflexivity. reflexivity.
Qed.

Lemma Validator_ctor_empty (sg : SharedGenerator) (ct : option SkColorType)
    (cs : option SkColorSpace) (w : World) :
  isEmpty (getInfo (fGenerator sg)) = true ->
  exists v, Validator_ctor (Some sg) ct cs w = (v, w) /\ Validator_bool v = false.
Proof.
  intros He. unfold Validator_ctor. rewrite He. eexists. split; reflexivity.
Qed.

(** A valid validator always carries the generator it was given, and either
    the generator's identity or a fresh one. *)
Lemma Validator_ctor_cases (sg : SharedGenerator) (ct : SkColorType)
    (cs : option SkColorSpace) (w : World) :
  isEmpty (getInfo (fGenerator sg)) = false ->
  exists info id w',
    Validator_ctor (Some sg) (Some ct) cs w =
      ({| v_fSharedGenerator := Some sg; v_fInfo := info; v_fUniqueID := id |}, w')
    /\ ((id = uniqueID (fGenerator sg) /\ info = getInfo (fGenerator sg) /\ w' = w
         /\ cs = None /\ ct = ii_colorType (getInfo (fGenerator sg)))
        \/ (id = nextImageID w /\ w' = set_nextImageID (nextImageID w + 1)%N w
            /\ (is_Some cs \/ ct <> ii_colorType (getInfo (fGenerator sg))))).
Proof.
  intros Hne.
  destruct (decide (ct = ii_colorType (getInfo (fGenerator sg)))) as [Heq | Hneq].
  - destruct cs as [c |].
    + destruct (Validator_ctor_override sg ct (Some c) w Hne) as (info & Hv & _); [left; eauto |].
      exists info, (nextImageID w), (set_nextImageID (nextImageID w + 1)%N w).
      split; [exact Hv |]. right. repeat split. left; eauto.
    + exists (getInfo (fGenerator sg)), (uniqueID (fGenerator sg)), w.
      split; [apply Validator_ctor_plain; assumption |]. left. repeat split; assumption.
  - destruct (Validator_ctor_override sg ct cs w Hne) as (info & Hv & _); [right; assumption |].
    exists info, (nextImageID w), (set_nextImageID (nextImageID w + 1)%N w).
    split; [exact Hv |]. right. repeat split. right; assumption.
Qed.

(** The memo slot answers exactly when it holds a live child of the asked
    color type and color space. *)
Lemma memo_matches_Some (w : World) (self : SkImage_Lazy) (ct : SkColorType)
    (cs : option SkColorSpace) (r : nat) :
  memo_matches w self ct cs = Some r <->
  fOnMakeColorTypeAndSpaceResult self = Some r /\
  exists child, images w !! r = Some child /\ colorOf (fInfo child) = (ct, cs).
Proof.
  unfold memo_matches, colorOf, SkColorSpace_Equals, colorType, colorSpace. split.
  - destruct (fOnMakeColorTypeAndSpaceResult self) as [r' |]; [| discriminate].
    destruct (images w !! r') as [child |] eqn:Hc; [| discriminate].
    destruct (bool_decide (ct = _)) eqn:H1; [| discriminate].
    destruct (bool_decide (cs = _)) eqn:H2; [| discriminate].
    simpl. intros [= <-]. split; [reflexivity |]. exists child. split; [assumption |].
    apply bool_decide_eq_true in H1, H2. congruence.
  - intros (-> & child & -> & Hcol). injection Hcol as <- <-.
    rewrite !bool_decide_eq_true_2 by reflexivity. reflexivity.
Qed.

Lemma memo_matches_None (w : World) (self : SkImage_Lazy) (ct : SkColorType)
    (cs : option SkColorSpace) :
  (forall r child, fOnMakeColorTypeAndSpaceResult self = Some r ->
                   images w !! r = Some child -> colorOf (fInfo child) <> (ct, cs)) ->
  memo_matches w self ct cs = None.
Proof.
  intros H. destruct (memo_matches w self ct cs) as [r |] eqn:Hm; [| reflexivity].
  apply memo_matches_Some in Hm as (Hr & child & Hc & Hcol).
  exfalso. exact (H r child Hr Hc Hcol).
Qed.

(** The three ways a recoloring call can go. *)
Lemma onMake_hit (w : World) (this : nat) (self : SkImage_Lazy) (ct : SkColorType)
    (cs : option SkColorSpace) (r : nat) :
  images w !! this = Some self ->
  memo_matches w self ct cs = Some r ->
  onMakeColorTypeAndColorSpace this ct cs w = Ret (Some r) w.
Proof. intros Hs Hm. unfold onMakeColorTypeAndColorSpace. rewrite Hs, Hm. reflexivity. Qed.

Lemma onMake_invalid (w : World) (this : nat) (self : SkImage_Lazy) (ct : SkColorType)
    (cs : option SkColorSpace) :
  images w !! this = Some self ->
  memo_matches w self ct cs = None ->
  isEmpty (getInfo (generatorOf self)) = true ->
  onMakeColorTypeAndColorSpace this ct cs w = Ret None w.
Proof.
  intros Hs Hm He. unfold onMakeColorTypeAndColorSpace. rewrite Hs, Hm.
  destruct (Validator_ctor_empty (fSharedGenerator self) (Some ct) cs w He) as (v & -> & ->).
  reflexivity.
Qed.

Lemma onMake_miss (w : World) (this : nat) (self : SkImage_Lazy) (ct : SkColorType)
    (cs : option SkColorSpace) (info : SkImageInfo) (id : N) (w1 : World) :
  images w !! this = Some self ->
  memo_matches w self ct cs = None ->
  Validator_ctor (Some (fSharedGenerator self)) (Some ct) cs w =
    ({| v_fSharedGenerator := Some (fSharedGenerator self); v_fInfo := info;
        v_fUniqueID := id |}, w1) ->
  images w1 = images w ->
  let child := SkImage_Lazy_ctor (fSharedGenerator self)
                 {| v_fSharedGenerator := Some (fSharedGenerator self); v_fInfo := info;
                    v_fUniqueID := id |} in
  let r := length (images w) in
  onMakeColorTypeAndColorSpace this ct cs w =
    Ret (Some r)
        (set_images (<[this := set_memo (Some r) self]> (images w ++ [child])) w1).
Proof.
  intros Hs Hm Hv Hi. unfold onMakeColorTypeAndColorSpace. rewrite Hs, Hm, Hv.
  simpl. unfold new_SkImage_Lazy. simpl. rewrite Hi. reflexivity.
Qed.


Example sample_world_image : images sample_world !! 0%nat = Some sample_image.
Proof. reflexivity. Qed.

Example recolored_world_images :
  images recolored_world =
    [set_memo (Some 1%nat) sample_image; recolored_image]
  /\ nextImageID recolored_world = 5%N.
Proof. split; reflexivity. Qed.


(** ** Recoloring: identity *)

(** The images of the world after a recoloring that missed the memo: the old
    ones, with their constant members, and the child at the fresh address. *)
Lemma lookup_after_miss (imgs : list SkImage_Lazy) (this : nat) (self child : SkImage_Lazy)
    (r : option nat) (a : nat) (img' : SkImage_Lazy) :
  imgs !! this = Some self ->
  <[this := set_memo r self]> (imgs ++ [child]) !! a = Some img' ->
  (exists img, imgs !! a = Some img /\ fInfo img' = fInfo img
               /\ fUniqueID img' = fUniqueID img
               /\ fSharedGenerator img' = fSharedGenerator img)
  \/ (a = length imgs /\ img' = child).
Proof.
  intros Hs Hl. assert (Hlt : (this < length imgs)%nat) by (eapply lookup_lt_Some; eassumption).
  destruct (decide (a = this)) as [-> | Hne].
  - rewrite list_lookup_insert_eq in Hl by (rewrite length_app; simpl; lia).
    injection Hl as <-. left. exists self. auto.
  - rewrite list_lookup_insert_ne in Hl by congruence.
    destruct (decide (a < length imgs)%nat) as [Ha | Ha].
    + rewrite lookup_app_l in Hl by assumption. left. exists img'. auto.
    + rewrite lookup_app_r in Hl by lia.
      destruct (a - length imgs)%nat as [| k] eqn:Hk; simpl in Hl; [| discriminate].
      injection Hl as <-. right. split; [lia | reflexivity].
Qed.

Lemma well_formed_after_miss (w w1 : World) (this : nat) (self : SkImage_Lazy)
    (info : SkImageInfo) (id : N) (r : option nat) :
  well_formed w ->
  images w !! this = Some self ->
  (nextImageID w <= nextImageID w1)%N ->
  (id < nextImageID w1)%N ->
  (id = uniqueID (generatorOf self) /\ info = getInfo (generatorOf self)
   \/ id = nextImageID w) ->
  let child := SkImage_Lazy_ctor (fSharedGenerator self)
                 {| v_fSharedGenerator := Some (fSharedGenerator self); v_fInfo := info;
                    v_fUniqueID := id |} in
  well_formed (set_images (<[this := set_memo r self]> (images w ++ [child])) w1).
Proof.
  intros (Hids & Hgen & Hdet) Hs Hmono Hid Hcases child.
  assert (Hself := Hids _ _ Hs).
  assert (Hfresh : id = nextImageID w -> id <> uniqueID (generatorOf self)) by lia.
  split; [| split].
  - intros a img' Hl. simpl in Hl.
    destruct (lookup_after_miss _ _ _ _ _ _ _ Hs Hl) as [(img & Ha & _ & Hi & Hg) | (_ & ->)].
    + unfold generatorOf. rewrite Hi, Hg. simpl.
      destruct (Hids _ _ Ha) as [H1 H2]. unfold generatorOf in H2. lia.
    + simpl. unfold generatorOf in *. simpl. lia.
  - intros a img' Hl Heq. simpl in Hl.
    destruct (lookup_after_miss _ _ _ _ _ _ _ Hs Hl) as [(img & Ha & Hinf & Hi & Hg) | (_ & ->)].
    + unfold generatorOf in *. rewrite Hinf, Hg. apply (Hgen _ _ Ha).
      unfold generatorOf. congruence.
    + simpl in *. unfold generatorOf in *. simpl in *.
      destruct Hcases as [[_ ->] | Hc]; [reflexivity |]. exfalso. exact (Hfresh Hc Heq).
  - intros a b ia ib Hla Hlb Hsg Hsame. simpl in Hla, Hlb.
    assert (Hold_child : forall img, forall x, images w !! x = Some img ->
              fSharedGenerator img = fSharedGenerator self ->
              fUniqueID img = id -> fInfo img = info).
    { intros img x Hx Hg Hi.
      destruct Hcases as [[-> ->] | Hc].
      - unfold generatorOf. rewrite <- Hg. apply (Hgen _ _ Hx).
        unfold generatorOf. rewrite Hg. exact Hi.
      - destruct (Hids _ _ Hx) as [H1 _]. lia. }
    destruct (lookup_after_miss _ _ _ _ _ _ _ Hs Hla) as [(ia' & Ha & Hinfa & Hia & Hga) | (_ & ->)];
      destruct (lookup_after_miss _ _ _ _ _ _ _ Hs Hlb) as [(ib' & Hb & Hinfb & Hib & Hgb) | (_ & ->)].
    + rewrite Hinfa, Hinfb. apply (Hdet _ _ _ _ Ha Hb); congruence.
    + simpl in *. rewrite Hinfa. apply (Hold_child ia' a Ha); congruence.
    + simpl in *. rewrite Hinfb. symmetry. apply (Hold_child ib' b Hb); congruence.
    + reflexivity.
Qed.

(** C2, as amended.  Over one generator, two lazy images that share a unique
    id have the same image info: this holds of every well-formed world and
    recoloring keeps worlds well-formed.  A recoloring that does not answer
    the memoized child builds an image that (a) carries a freshly allocated
    unique id, different from the receiver's and from every existing image's,
    as soon as a color space is given or the color type differs from the
    generator's - also when (ct, cs) is the receiver's own pair - and (b)
    carries the generator's unique id and info when no color space is given
    and the color type is the generator's. *)
Theorem recolor_identity (w : World) (this : nat) (self : SkImage_Lazy)
    (ct : SkColorType) (cs : option SkColorSpace) :
  well_formed w ->
  images w !! this = Some self ->
  exists res w',
    onMakeColorTypeAndColorSpace this ct cs w = Ret res w'
    /\ well_formed w'
    /\ (forall a b ia ib,
          images w' !! a = Some ia -> images w' !! b = Some ib ->
          fSharedGenerator ia = fSharedGenerator ib ->
          fUniqueID ia = fUniqueID ib -> fInfo ia = fInfo ib)
    /\ ((forall r child,
            fOnMakeColorTypeAndSpaceResult self = Some r ->
            images w !! r = Some child ->
            colorOf (fInfo child) <> (ct, cs)) ->
        isEmpty (getInfo (generatorOf self)) = false ->
        exists r child,
          res = Some r /\ images w' !! r = Some child
          /\ fSharedGenerator child = fSharedGenerator self
          /\ ((is_Some cs \/ ct <> ii_colorType (getInfo (generatorOf self))) ->
              fUniqueID child = nextImageID w
              /\ fUniqueID child <> fUniqueID self
              /\ forall a img, images w !! a = Some img -> fUniqueID img <> fUniqueID child)
          /\ (cs = None -> ct = ii_colorType (getInfo (generatorOf self)) ->
              fUniqueID child = uniqueID (generatorOf self)
              /\ fInfo child = getInfo (generatorOf self))).
Proof.
  intros Hwf Hs.
  assert (Hlt : (this < length (images w))%nat) by (eapply lookup_lt_Some; eassumption).
  assert (Hself := proj1 Hwf _ _ Hs).
  destruct (memo_matches w self ct cs) as [r |] eqn:Hm.
  - (* the memoized child is answered *)
    exists (Some r), w. split; [exact (onMake_hit w this self ct cs r Hs Hm) |].
    split; [assumption |]. split; [apply Hwf |].
    intros Hno. exfalso. apply memo_matches_Some in Hm as (Hr & child & Hc & Hcol).
    exact (Hno r child Hr Hc Hcol).
  - destruct (isEmpty (getInfo (generatorOf self))) eqn:He.
    + (* validation fails *)
      exists None, w. split; [exact (onMake_invalid w this self ct cs Hs Hm He) |].
      split; [assumption |]. split; [apply Hwf |]. intros _ [=].
    + (* a new image is built *)
      destruct (Validator_ctor_cases (fSharedGenerator self) ct cs w He)
        as (info & id & w1 & Hv & Hcases).
      assert (Hi : images w1 = images w).
      { destruct Hcases as [(_ & _ & -> & _) | (_ & -> & _)]; reflexivity. }
      eexists _, _. split; [exact (onMake_miss w this self ct cs info id w1 Hs Hm Hv Hi) |].
      assert (Hwf' : well_formed
                (set_images (<[this := set_memo (Some (length (images w))) self]>
                   (images w ++ [SkImage_Lazy_ctor (fSharedGenerator self)
                      {| v_fSharedGenerator := Some (fSharedGenerator self);
                         v_fInfo := info; v_fUniqueID := id |}])) w1)).
      { apply well_formed_after_miss; try assumption.
        - destruct Hcases as [(_ & _ & -> & _) | (_ & -> & _)]; simpl; lia.
        - destruct Hcases as [(-> & _ & -> & _) | (-> & -> & _)]; simpl; [apply Hself | lia].
        - destruct Hcases as [(-> & -> & _) | (-> & _)]; auto. }
      split; [exact Hwf' |]. split; [apply Hwf' |].
      intros _ _. eexists _, _. split; [reflexivity |].
      split.
      { simpl. rewrite list_lookup_insert_ne by lia.
        rewrite lookup_app_r by lia. rewrite Nat.sub_diag. reflexivity. }
      split; [reflexivity |]. simpl. split.
      * intros Hov.
        destruct Hcases as [(_ & _ & _ & -> & ->) | (-> & _ & _)].
        { exfalso. destruct Hov as [[c Hc] | Hd]; [discriminate | apply Hd; reflexivity]. }
        split; [reflexivity |]. split; [lia |].
        intros a img Ha. destruct (proj1 Hwf _ _ Ha). lia.
      * intros -> ->.
        destruct Hcases as [(-> & -> & _) | (_ & _ & Hov)]; [split; reflexivity |].
        exfalso. destruct Hov as [[c Hc] | Hd]; [discriminate | apply Hd; reflexivity].
Qed.

(** A world without images is well-formed, and making an image from a
    generator whose id was allocated keeps a world well-formed. *)
Lemma well_formed_no_images (w : World) : images w = [] -> well_formed w.
Proof.
  intros Hnil. unfold well_formed, ids_allocated, generator_id_generator_info,
    id_determines_info. rewrite Hnil. repeat split; intros; discriminate.
Qed.

Lemma MakeFromGenerator_well_formed (w : World) (g : SkImageGenerator) :
  well_formed w ->
  (uniqueID g < nextImageID w)%N ->
  well_formed (snd (MakeFromGenerator (Some g) w)).
Proof.
  intros (Hids & Hgen & Hdet) Hg. unfold MakeFromGenerator. simpl.
  destruct (isEmpty (getInfo g)); simpl; [exact (conj Hids (conj Hgen Hdet)) |].
  set (new := SkImage_Lazy_ctor _ _).
  assert (Hlook : forall a img, (images w ++ [new]) !! a = Some img ->
                    images w !! a = Some img \/ img = new).
  { intros a img Hl. destruct (decide (a < length (images w))%nat) as [Ha | Ha].
    - rewrite lookup_app_l in Hl by assumption. left. exact Hl.
    - rewrite lookup_app_r in Hl by lia.
      destruct (a - length (images w))%nat; simpl in Hl; [| discriminate].
      injection Hl as <-. right. reflexivity. }
  split; [| split].
  - intros a img Hl. simpl in Hl. destruct (Hlook a img Hl) as [Hold | ->].
    + exact (Hids a img Hold).
    + unfold new, generatorOf. simpl. lia.
  - intros a img Hl Hid. simpl in Hl. destruct (Hlook a img Hl) as [Hold | ->].
    + exact (Hgen a img Hold Hid).
    + reflexivity.
  - intros a b ia ib Hla Hlb Hsg Hid. simpl in Hla, Hlb.
    destruct (Hlook a ia Hla) as [Ha | ->]; destruct (Hlook b ib Hlb) as [Hb | ->].
    + exact (Hdet a b ia ib Ha Hb Hsg Hid).
    + pose proof (Hgen a ia Ha) as H. unfold generatorOf in H.
      unfold new in *. simpl in *. rewrite Hsg in H. simpl in H. exact (H Hid).
    + pose proof (Hgen b ib Hb) as H. unfold generatorOf in H.
      unfold new in *. simpl in *. rewrite <- Hsg in H. simpl in H.
      symmetry. apply H. symmetry. exact Hid.
    + reflexivity.
Qed.

Lemma sample_world_well_formed : well_formed sample_world.
Proof.
  apply MakeFromGenerator_well_formed.
  - apply well_formed_no_images. reflexivity.
  - cbn. lia.
Qed.

(** On the sample image, a Gray_8 recoloring in color space 1 gets the fresh
    id 4, which no image had. *)
Lemma recolor_identity_witness :
  exists res w',
    onMakeColorTypeAndColorSpace 0 kGray_8_SkColorType (Some 1%N) sample_world = Ret res w'
    /\ well_formed w'
    /\ exists r child,
         res = Some r /\ images w' !! r = Some child
         /\ fUniqueID child = 4%N /\ fUniqueID child <> fUniqueID sample_image.
Proof.
  destruct (recolor_identity sample_world 0 sample_image kGray_8_SkColorType (Some 1%N)
              sample_world_well_formed eq_refl)
    as (res & w' & Hcall & Hwf & _ & Hmiss).
  exists res, w'. split; [exact Hcall |]. split; [exact Hwf |].
  destruct (Hmiss ltac:(intros r child [=]) eq_refl)
    as (r & child & Hres & Hchild & _ & Hfresh & _).
  exists r, child. split; [exact Hres |]. split; [exact Hchild |].
  destruct (Hfresh ltac:(left; eexists; reflexivity)) as (Hid & Hne & _).
  split; [exact Hid | exact Hne].
Defined.

(** C2 as stated fails both ways on the sample image, whose pair is
    (RGBA_8888, color space 1) and whose id is 2.  Recoloring it to that same
    pair builds an image of the same info under the fresh id 4: nothing
    changes and the id does.  Recoloring it to (RGBA_8888, no color space), a
    different pair, builds an image under id 2: the pair changes and the id
    does not. *)
Lemma recolor_identity_counterexample :
  (exists w' child,
      onMakeColorTypeAndColorSpace 0 kRGBA_8888_SkColorType (Some 1%N) sample_world
        = Ret (Some 1%nat) w'
      /\ images w' !! 0%nat = Some (set_memo (Some 1%nat) sample_image)
      /\ images w' !! 1%nat = Some child
      /\ (kRGBA_8888_SkColorType, Some 1%N) = colorOf (fInfo sample_image)
      /\ fSharedGenerator child = fSharedGenerator sample_image
      /\ fInfo child = fInfo sample_image
      /\ fUniqueID child <> fUniqueID sample_image)
  /\ (exists w' child,
        onMakeColorTypeAndColorSpace 0 kRGBA_8888_SkColorType None sample_world
          = Ret (Some 1%nat) w'
        /\ images w' !! 1%nat = Some child
        /\ (kRGBA_8888_SkColorType, None) <> colorOf (fInfo sample_image)
        /\ fUniqueID child = fUniqueID sample_image).
Proof.
  split.
  - eexists _, _. split; [reflexivity |]. split; [reflexivity |]. split; [reflexivity |].
    split; [reflexivity |]. split; [reflexivity |]. split; [reflexivity |].
    cbn. discriminate.
  - eexists _, _. split; [reflexivity |]. split; [reflexivity |].
    split; [cbn; discriminate | reflexivity].
Qed.

(** ** Encoded data *)

Lemma onRefEncoded_spec (w : World) (this : nat) (self : SkImage_Lazy) :
  images w !! this = Some self ->
  onRefEncoded this w =
    Ret (if bool_decide (uniqueID (generatorOf self) = fUniqueID self)
         then refEncodedData (generatorOf self) else None) w.
Proof.
  intros Hs. unfold onRefEncoded. rewrite Hs. destruct (bool_decide _); reflexivity.
Qed.

(** C7.  [onRefEncoded] answers encoded data only for an image whose unique
    id is its generator's, and then it answers the generator's encoded data.
    An image built by a recoloring that allocated a fresh unique id (a color
    space was given, or the color type is not the generator's) has an id that
    is not the generator's, and [onRefEncoded] answers null for it. *)
Theorem refEncoded_only_for_generator_id (w : World) (this : nat) (self : SkImage_Lazy)
    (ct : SkColorType) (cs : option SkColorSpace) :
  images w !! this = Some self ->
  (exists r,
      onRefEncoded this w = Ret r w
      /\ (is_Some r -> fUniqueID self = uniqueID (generatorOf self))
      /\ (fUniqueID self <> uniqueID (generatorOf self) -> r = None)
      /\ (fUniqueID self = uniqueID (generatorOf self) -> r = refEncodedData (generatorOf self)))
  /\ ((uniqueID (generatorOf self) < nextImageID w)%N ->
      (forall r child,
          fOnMakeColorTypeAndSpaceResult self = Some r ->
          images w !! r = Some child ->
          colorOf (fInfo child) <> (ct, cs)) ->
      isEmpty (getInfo (generatorOf self)) = false ->
      (is_Some cs \/ ct <> ii_colorType (getInfo (generatorOf self))) ->
      exists r w' child,
        onMakeColorTypeAndColorSpace this ct cs w = Ret (Some r) w'
        /\ images w' !! r = Some child
        /\ fUniqueID child = nextImageID w
        /\ fUniqueID child <> uniqueID (generatorOf child)
        /\ onRefEncoded r w' = Ret None w').
Proof.
  intros Hs. split.
  - eexists. split; [exact (onRefEncoded_spec w this self Hs) |].
    destruct (bool_decide _) eqn:Hb.
    + apply bool_decide_eq_true in Hb. split; [auto |]. split; [congruence | reflexivity].
    + apply bool_decide_eq_false in Hb. split; [intros [x [=]] |].
      split; [reflexivity | congruence].
  - intros Hgen Hno Hne Hov.
    assert (Hlt : (this < length (images w))%nat) by (eapply lookup_lt_Some; eassumption).
    pose proof (memo_matches_None w self ct cs Hno) as Hm.
    destruct (Validator_ctor_override (fSharedGenerator self) ct cs w Hne Hov)
      as (info & Hv & _).
    pose proof (onMake_miss w this self ct cs info (nextImageID w) _ Hs Hm Hv eq_refl) as Hcall.
    cbv zeta in Hcall.
    eexists _, _, _. split; [exact Hcall |].
    assert (Hchild :
      images (set_images (<[this := set_memo (Some (length (images w))) self]>
                (images w ++ [SkImage_Lazy_ctor (fSharedGenerator self)
                   {| v_fSharedGenerator := Some (fSharedGenerator self);
                      v_fInfo := info; v_fUniqueID := nextImageID w |}]))
                (set_nextImageID (nextImageID w + 1)%N w)) !! length (images w)
      = Some (SkImage_Lazy_ctor (fSharedGenerator self)
                {| v_fSharedGenerator := Some (fSharedGenerator self);
                   v_fInfo := info; v_fUniqueID := nextImageID w |})).
    { simpl. rewrite list_lookup_insert_ne by lia.
      rewrite lookup_app_r by lia. rewrite Nat.sub_diag. reflexivity. }
    split; [exact Hchild |]. split; [reflexivity |].
    assert (Hdiff : nextImageID w <> uniqueID (generatorOf self)) by lia.
    split; [exact Hdiff |].
    rewrite (onRefEncoded_spec _ _ _ Hchild).
    rewrite bool_decide_eq_false_2; [reflexivity |].
    unfold generatorOf. simpl. unfold generatorOf in Hdiff. congruence.
Qed.

(** The sample image answers the encoded bytes of its generator; its BGRA
    recoloring, under the fresh id 4, answers null. *)
Lemma refEncoded_only_for_generator_id_witness :
  onRefEncoded 0 sample_world = Ret (Some [137%N; 80%N; 78%N; 71%N]) sample_world
  /\ exists r w',
       onMakeColorTypeAndColorSpace 0 kBGRA_8888_SkColorType (Some 1%N) sample_world
         = Ret (Some r) w'
       /\ onRefEncoded r w' = Ret None w'.
Proof.
  pose proof (refEncoded_only_for_generator_id sample_world 0 sample_image
                kBGRA_8888_SkColorType (Some 1%N) eq_refl) as [Hfirst Hsecond].
  split.
  - destruct Hfirst as (r & Hcall & _ & _ & Hr). rewrite Hcall, (Hr eq_refl). reflexivity.
  - destruct (Hsecond ltac:(cbn; lia) ltac:(intros r child [=]) eq_refl
                      ltac:(left; eexists; reflexivity))
      as (r & w' & child & Hcall & _ & _ & _ & Hnone).
    exists r, w'. split; assumption.
Defined.

(** ** Raster accessor *)

(** C5.  [getROPixels] with the hint [kDisallow_CachingHint] returns in a
    world equal to the one it was called in, so the bitmap cache is not
    populated: an entry for the image that is absent before the call is
    absent after it, whether the decode succeeds or fails.  When the entry is
    absent the call succeeds exactly when the private allocation and the
    decode do, and the bitmap it then answers is immutable, holds the decoded
    pixels and is not owned by the cache. *)
Theorem getROPixels_disallow_no_cache_write (w : World) (this : nat) (self : SkImage_Lazy) :
  images w !! this = Some self ->
  exists r w',
    getROPixels this kDisallow_CachingHint w = Ret r w'
    /\ w' = w
    /\ bitmapCache w' = bitmapCache w
    /\ (bitmapCache w !! SkBitmapCacheDesc_Make self = None ->
        bitmapCache w' !! SkBitmapCacheDesc_Make self = None
        /\ (is_Some r <->
            tryAllocPixels w (fInfo self) = true
            /\ is_Some (getPixels (generatorOf self) (fInfo self)))
        /\ forall bm, r = Some bm ->
             bm_immutable bm = true /\ bm_cacheOwned bm = false
             /\ bm_info bm = fInfo self
             /\ getPixels (generatorOf self) (fInfo self) = Some (bm_pixels bm)).
Proof.
  intros Hs. unfold getROPixels. rewrite Hs.
  destruct (bitmapCache w !! SkBitmapCacheDesc_Make self) as [cached |] eqn:Hfind.
  - exists (Some cached), w. repeat split; try reflexivity; discriminate.
  - destruct (tryAllocPixels w (fInfo self)) eqn:Halloc; simpl.
    + destruct (getPixels (generatorOf self) (fInfo self)) as [px |] eqn:Hpx.
      * eexists _, w. split; [reflexivity |]. do 2 (split; [reflexivity |]).
        intros _. split; [assumption |]. split.
        { split; [intros _; split; [reflexivity | eauto] | intros _; eauto]. }
        intros bm [= <-]. simpl. auto.
      * exists None, w. split; [reflexivity |]. do 2 (split; [reflexivity |]).
        intros _. split; [assumption |]. split.
        { split; [intros [x [=]] | intros [_ [x [=]]]]. }
        intros bm [=].
    + exists None, w. split; [reflexivity |]. do 2 (split; [reflexivity |]).
      intros _. split; [assumption |]. split.
      { split; [intros [x [=]] | intros [[=] _]]. }
      intros bm [=].
Qed.

(** On the sample world the decode succeeds into a private bitmap and the
    cache stays empty. *)
Lemma getROPixels_disallow_no_cache_write_witness :
  exists r w',
    getROPixels 0 kDisallow_CachingHint sample_world = Ret r w'
    /\ is_Some r
    /\ bitmapCache w' !! SkBitmapCacheDesc_Make sample_image = None.
Proof.
  destruct (getROPixels_disallow_no_cache_write sample_world 0 sample_image eq_refl)
    as (r & w' & Hcall & _ & _ & Habsent).
  destruct (Habsent eq_refl) as (Hafter & Hsucc & _).
  exists r, w'. split; [exact Hcall |]. split; [| exact Hafter].
  apply Hsucc. split; [reflexivity | eexists; reflexivity].
Defined.

(** With the hint [kAllow_CachingHint], by contrast, a successful decode on a
    miss is what populates the cache. *)
Lemma getROPixels_allow_populates (w : World) (this : nat) (self : SkImage_Lazy) (px : Bytes) :
  images w !! this = Some self ->
  bitmapCache w !! SkBitmapCacheDesc_Make self = None ->
  SkBitmapCache_Alloc w (SkBitmapCacheDesc_Make self) (fInfo self) = true ->
  getPixels (generatorOf self) (fInfo self) = Some px ->
  exists bm w',
    getROPixels this kAllow_CachingHint w = Ret (Some bm) w'
    /\ bitmapCache w' !! SkBitmapCacheDesc_Make self = Some bm
    /\ bm_immutable bm = true.
Proof.
  intros Hs Hfind Halloc Hpx. unfold getROPixels. rewrite Hs, Hfind, Halloc, Hpx. simpl.
  eexists _, _. split; [reflexivity |]. split; [apply lookup_insert_eq | reflexivity].
Qed.

(** ** Allocation failure *)

(** A failed [SkBitmapCache::Alloc] is checked: the call answers false and
    nothing changed. *)
Lemma getROPixels_alloc_failure (w : World) (this : nat) (self : SkImage_Lazy) :
  images w !! this = Some self ->
  bitmapCache w !! SkBitmapCacheDesc_Make self = None ->
  SkBitmapCache_Alloc w (SkBitmapCacheDesc_Make self) (fInfo self) = false ->
  getROPixels this kAllow_CachingHint w = Ret None w.
Proof.
  intros Hs Hfind Halloc. unfold getROPixels. rewrite Hs, Hfind, Halloc. reflexivity.
Qed.

(** A null answer of [SkResourceCache::NewCachedData] is not checked: on a
    miss of the planes cache, once the generator has described its planes,
    the null pointer is dereferenced. *)
Lemma getPlanes_alloc_failure (w : World) (this : nat) (self : SkImage_Lazy)
    (yuvInfo : YUVInfo) :
  images w !! this = Some self ->
  yuvPlanesCache w !! uniqueID (generatorOf self) = None ->
  queryYUVA8 (generatorOf self) = Some yuvInfo ->
  SkResourceCache_NewCachedData w (totalSize yuvInfo) = None ->
  getPlanes this w = Crash NullDereference.
Proof.
  intros Hs Hfind Hq Halloc. unfold getPlanes, SkYUVPlanesCache_FindAndRef.
  rewrite Hs, Hfind, Hq, Halloc. reflexivity.
Qed.

(** C3, on the sample image when no allocation succeeds: [getROPixels]
    answers false in an unchanged world, but [getPlanes] dereferences the null
    data instead of answering failure. *)
Theorem allocation_failure_sample :
  getROPixels 0 kAllow_CachingHint failing_alloc_world = Ret None failing_alloc_world
  /\ getPlanes 0 failing_alloc_world = Crash NullDereference.
Proof.
  split.
  - apply (getROPixels_alloc_failure failing_alloc_world 0 sample_image); reflexivity.
  - apply (getPlanes_alloc_failure failing_alloc_world 0 sample_image sample_yuv); reflexivity.
Qed.

(** ** YUV planes: layout *)

Lemma size_t_modulus_pos : 0 < size_t_modulus.
Proof. reflexivity. Qed.

(** One step of pointer arithmetic agrees with the integers modulo 2^64. *)
Lemma ptr_add_step (base off a b : Z) :
  ptr_add (ptr_add base off) (size_t_mul a b) = ptr_add base (off + a * b).
Proof.
  unfold ptr_add, size_t_mul, to_size_t.
  pose proof size_t_modulus_pos as Hpos.
  rewrite Z.add_mod_idemp_l, Z.add_mod_idemp_r by lia.
  rewrite (Z.add_mod (base + off) (a * (b mod size_t_modulus))) by lia.
  rewrite Z.mul_mod_idemp_r by lia.
  rewrite <- Z.add_mod by lia.
  f_equal. lia.
Qed.

Lemma ptr_add_first (base a b : Z) :
  ptr_add base (size_t_mul a b) = ptr_add base (0 + a * b).
Proof.
  unfold ptr_add, size_t_mul, to_size_t.
  pose proof size_t_modulus_pos as Hpos.
  rewrite Z.add_mod_idemp_r by lia.
  rewrite (Z.add_mod base (a * (b mod size_t_modulus))) by lia.
  rewrite Z.mul_mod_idemp_r by lia.
  rewrite <- Z.add_mod by lia.
  reflexivity.
Qed.

(** Inside the address space the pointer arithmetic is exact. *)
Lemma ptr_add_exact (base off : Z) :
  0 <= base -> 0 <= off -> base + off < size_t_modulus ->
  ptr_add base off = base + off.
Proof. intros H1 H2 H3. unfold ptr_add, to_size_t. apply Z.mod_small. lia. Qed.

(** The loop of the hit path, entry by entry. *)
Lemma planes_on_hit_unfold (data : SkCachedData) (yuvInfo : YUVInfo) :
  let si := fSizeInfo yuvInfo in
  let step prev i :=
    if bool_decide (widthBytes si i = 0) then nullptr
    else ptr_add prev (size_t_mul (widthBytes si (i - 1)) (heightAt si (i - 1))) in
  let p0 := cd_data data in
  let p1 := step p0 1%nat in
  let p2 := step p1 2%nat in
  let p3 := step p2 3%nat in
  planes_on_hit data yuvInfo = [p0; p1; p2; p3].
Proof.
  unfold planes_on_hit. simpl.
  destruct (bool_decide (widthBytes (fSizeInfo yuvInfo) 1 = 0));
    destruct (bool_decide (widthBytes (fSizeInfo yuvInfo) 2 = 0));
    destruct (bool_decide (widthBytes (fSizeInfo yuvInfo) 3 = 0)); reflexivity.
Qed.

(** The two loops are the same computation. *)
Lemma planes_on_miss_on_hit (data : SkCachedData) (yuvInfo : YUVInfo) :
  planes_on_miss (cd_data data) yuvInfo = planes_on_hit data yuvInfo.
Proof. reflexivity. Qed.

Lemma offset_of_plane_nonneg (si : SkYUVASizeInfo) (i : nat) :
  (forall j, 0 <= widthBytes si j /\ 0 <= heightAt si j) ->
  0 <= offset_of_plane si i.
Proof.
  intros Hpos. induction i as [| i IH]; simpl; [lia |].
  destruct (Hpos i). nia.
Qed.

Lemma offset_of_plane_mono (si : SkYUVASizeInfo) (i k : nat) :
  (forall j, 0 <= widthBytes si j /\ 0 <= heightAt si j) ->
  (i <= k)%nat -> offset_of_plane si i <= offset_of_plane si k.
Proof.
  intros Hpos Hik. induction Hik as [| k Hik IH]; [lia |].
  simpl. destruct (Hpos k). nia.
Qed.

(** The layout on the hit path, in pointer arithmetic. *)
Lemma planes_on_hit_layout (data : SkCachedData) (yuvInfo : YUVInfo) (i : nat) :
  (0 < i < kMaxCount)%nat ->
  widthBytes (fSizeInfo yuvInfo) i <> 0 ->
  packed_below (fSizeInfo yuvInfo) i ->
  plane (planes_on_hit data yuvInfo) i
    = ptr_add (cd_data data) (offset_of_plane (fSizeInfo yuvInfo) i).
Proof.
  intros Hi Hne Hpacked. rewrite planes_on_hit_unfold. cbv zeta.
  unfold kMaxCount in Hi.
  assert (H1 : (1 <= i)%nat -> bool_decide (widthBytes (fSizeInfo yuvInfo) 1 = 0) = false).
  { intros ?. apply bool_decide_eq_false.
    destruct (decide (i = 1%nat)) as [-> | ?]; [exact Hne | apply Hpacked; lia]. }
  assert (H2 : (2 <= i)%nat -> bool_decide (widthBytes (fSizeInfo yuvInfo) 2 = 0) = false).
  { intros ?. apply bool_decide_eq_false.
    destruct (decide (i = 2%nat)) as [-> | ?]; [exact Hne | apply Hpacked; lia]. }
  assert (H3 : (3 <= i)%nat -> bool_decide (widthBytes (fSizeInfo yuvInfo) 3 = 0) = false).
  { intros ?. apply bool_decide_eq_false.
    destruct (decide (i = 3%nat)) as [-> | ?]; [exact Hne | apply Hpacked; lia]. }
  destruct i as [| [| [| [| i]]]]; try lia; unfold plane; simpl.
  - rewrite H1 by lia. apply ptr_add_first.
  - rewrite H1, H2 by lia. rewrite (ptr_add_first (cd_data data)). apply (ptr_add_step (cd_data data)).
  - rewrite H1, H2, H3 by lia. rewrite (ptr_add_first (cd_data data)).
    rewrite !(ptr_add_step (cd_data data)). reflexivity.
Qed.

Lemma planes_on_hit_empty (data : SkCachedData) (yuvInfo : YUVInfo) (i : nat) :
  (0 < i < kMaxCount)%nat ->
  widthBytes (fSizeInfo yuvInfo) i = 0 ->
  plane (planes_on_hit data yuvInfo) i = nullptr.
Proof.
  intros Hi Hz. rewrite planes_on_hit_unfold. cbv zeta. unfold kMaxCount in Hi.
  destruct i as [| [| [| [| i]]]]; try lia; unfold plane; simpl;
    rewrite (bool_decide_eq_true_2 _ Hz); reflexivity.
Qed.

(** C4, as amended.  In [getPlanes], on the hit path and on the miss path
    alike, plane 0 is the start of the cached data, an empty plane [i > 0] is
    null, and a non-empty plane [i > 0] all of whose predecessors [0 < j < i]
    are non-empty lies at plane 0 plus the sum over [j < i] of
    [row_bytes[j] * height[j]], in pointer arithmetic (exact whenever the
    planes fit in the address space).  The two paths compute the same
    pointers from the same base and metadata: what the miss path answers is
    what a later hit on the entry it cached computes. *)
Theorem getPlanes_layout (w : World) (this : nat) (self : SkImage_Lazy) (i : nat) :
  images w !! this = Some self ->
  (0 < i < kMaxCount)%nat ->
  let layout_rule (yuvInfo : YUVInfo) (pl : Planes) :=
    plane (p_outPlanes pl) 0 = cd_data (p_data pl)
    /\ (widthBytes (fSizeInfo yuvInfo) i = 0 -> plane (p_outPlanes pl) i = nullptr)
    /\ (widthBytes (fSizeInfo yuvInfo) i <> 0 ->
        packed_below (fSizeInfo yuvInfo) i ->
        plane (p_outPlanes pl) i
          = ptr_add (plane (p_outPlanes pl) 0) (offset_of_plane (fSizeInfo yuvInfo) i)
        /\ (0 <= cd_data (p_data pl) ->
            (forall j, 0 <= widthBytes (fSizeInfo yuvInfo) j
                       /\ 0 <= heightAt (fSizeInfo yuvInfo) j) ->
            cd_data (p_data pl) + offset_of_plane (fSizeInfo yuvInfo) kMaxCount
              < size_t_modulus ->
            plane (p_outPlanes pl) i
              = plane (p_outPlanes pl) 0 + offset_of_plane (fSizeInfo yuvInfo) i)) in
  (forall data yuvInfo,
      yuvPlanesCache w !! uniqueID (generatorOf self) = Some (data, yuvInfo) ->
      exists pl,
        getPlanes this w = Ret (Some pl) w
        /\ p_data pl = data /\ p_yuvaSizeInfo pl = fSizeInfo yuvInfo
        /\ layout_rule yuvInfo pl)
  /\ (forall yuvInfo addr bytes,
        yuvPlanesCache w !! uniqueID (generatorOf self) = None ->
        queryYUVA8 (generatorOf self) = Some yuvInfo ->
        SkResourceCache_NewCachedData w (totalSize yuvInfo) = Some addr ->
        getYUVA8Planes (generatorOf self) (fSizeInfo yuvInfo) (fYUVAIndices yuvInfo)
                       (planes_on_miss addr yuvInfo) = Some bytes ->
        exists pl w',
          getPlanes this w = Ret (Some pl) w'
          /\ cd_data (p_data pl) = addr /\ p_yuvaSizeInfo pl = fSizeInfo yuvInfo
          /\ layout_rule yuvInfo pl
          /\ yuvPlanesCache w' !! fUniqueID self = Some (p_data pl, yuvInfo)
          /\ p_outPlanes pl = planes_on_hit (p_data pl) yuvInfo)
  /\ (forall data yuvInfo,
        planes_on_miss (cd_data data) yuvInfo = planes_on_hit data yuvInfo).
Proof.
  intros Hs Hi layout_rule.
  assert (Hrule : forall data yuvInfo pl,
             p_data pl = data -> p_outPlanes pl = planes_on_hit data yuvInfo ->
             layout_rule yuvInfo pl).
  { intros data yuvInfo pl Hd Hp. unfold layout_rule. rewrite Hp, Hd.
    assert (H0 : plane (planes_on_hit data yuvInfo) 0 = cd_data data)
      by (rewrite planes_on_hit_unfold; reflexivity).
    split; [exact H0 |]. split; [apply planes_on_hit_empty; exact Hi |].
    intros Hne Hpacked. rewrite H0.
    pose proof (planes_on_hit_layout data yuvInfo i Hi Hne Hpacked) as Hl.
    split; [exact Hl |].
    intros Hbase Hpos Hfit. rewrite Hl. apply ptr_add_exact; [exact Hbase | |].
    - apply offset_of_plane_nonneg. exact Hpos.
    - pose proof (offset_of_plane_mono (fSizeInfo yuvInfo) i kMaxCount Hpos) as Hm.
      lia. }
  split; [| split].
  - intros data yuvInfo Hfind.
    unfold getPlanes, SkYUVPlanesCache_FindAndRef. rewrite Hs, Hfind.
    eexists. split; [reflexivity |]. split; [reflexivity |]. split; [reflexivity |].
    apply (Hrule data); reflexivity.
  - intros yuvInfo addr bytes Hfind Hq Halloc Hdec.
    unfold getPlanes, SkYUVPlanesCache_FindAndRef. rewrite Hs, Hfind, Hq, Halloc, Hdec.
    eexists _, _. split; [reflexivity |]. split; [reflexivity |]. split; [reflexivity |].
    split; [eapply Hrule; reflexivity |].
    split; [apply lookup_insert_eq | reflexivity].
  - intros data yuvInfo. apply planes_on_miss_on_hit.
Qed.

(** On the sample generator (Y 2x2, U 1x1, V 1x1, data at 4096): plane 1 is
    at 4100 on the miss, and at 4100 again on the hit that follows. *)
Lemma getPlanes_layout_witness :
  exists pl w',
    getPlanes 0 sample_world = Ret (Some pl) w'
    /\ plane (p_outPlanes pl) 1 = 4100
    /\ exists pl', getPlanes 0 w' = Ret (Some pl') w' /\ plane (p_outPlanes pl') 1 = 4100.
Proof.
  destruct (getPlanes_layout sample_world 0 sample_image 1 eq_refl ltac:(cbv; lia))
    as (_ & Hmiss & _).
  destruct (Hmiss sample_yuv 4096 [16%N; 16%N; 16%N; 16%N; 128%N; 128%N]
              eq_refl eq_refl eq_refl eq_refl)
    as (pl & w' & Hcall & Haddr & _ & (H0 & _ & Hsum) & Hcached & _).
  exists pl, w'. split; [exact Hcall |].
  destruct (Hsum ltac:(discriminate) ltac:(intros j ?; lia)) as [Hptr _].
  split; [rewrite Hptr, H0, Haddr; reflexivity |].
  assert (Himg : images w' !! 0%nat = Some sample_image).
  { unfold getPlanes in Hcall. cbn in Hcall. injection Hcall as _ <-. reflexivity. }
  destruct (getPlanes_layout w' 0 sample_image 1 Himg ltac:(cbv; lia)) as (Hhit & _ & _).
  destruct (Hhit (p_data pl) sample_yuv Hcached)
    as (pl' & Hcall' & Hdata' & _ & (H0' & _ & Hsum')).
  exists pl'. split; [exact Hcall' |].
  destruct (Hsum' ltac:(discriminate) ltac:(intros j ?; lia)) as [Hptr' _].
  rewrite Hptr', H0', Hdata', Haddr. reflexivity.
Defined.

(** C4 as stated fails when an empty plane precedes a non-empty one.  With
    planes 0 and 2 of 4x4 bytes, plane 1 empty and the data at 4096, plane 2
    is non-empty and the rule puts it at 4096 + 16 = 4112; the miss path and
    the hit path that follows both answer the null pointer for it. *)
Lemma getPlanes_layout_counterexample :
  exists pl w' pl',
    getPlanes 0 gapped_world = Ret (Some pl) w'
    /\ getPlanes 0 w' = Ret (Some pl') w'
    /\ widthBytes (p_yuvaSizeInfo pl) 2 <> 0
    /\ plane (p_outPlanes pl) 0 + offset_of_plane (p_yuvaSizeInfo pl) 2 = 4112
    /\ plane (p_outPlanes pl) 2 = nullptr
    /\ plane (p_outPlanes pl') 2 = nullptr
    /\ plane (p_outPlanes pl) 2
         <> ptr_add (plane (p_outPlanes pl) 0) (offset_of_plane (p_yuvaSizeInfo pl) 2).
Proof.
  eexists _, _, _. split; [reflexivity |]. split; [reflexivity |].
  split; [cbn; discriminate |]. split; [reflexivity |].
  split; [reflexivity |]. split; [reflexivity |]. cbn. discriminate.
Qed.

(** ** YUV planes: cache keys *)

(** What a returning [getPlanes] call did: it left the world as it was, or it
    missed under the generator's id and added under the image's id. *)
Lemma getPlanes_returns (w w1 : World) (this : nat) (self : SkImage_Lazy)
    (r : option Planes) :
  images w !! this = Some self ->
  getPlanes this w = Ret r w1 ->
  w1 = w
  \/ (yuvPlanesCache w !! uniqueID (generatorOf self) = None
      /\ exists pl yuvInfo,
           r = Some pl
           /\ queryYUVA8 (generatorOf self) = Some yuvInfo
           /\ w1 = SkYUVPlanesCache_Add (fUniqueID self) (p_data pl) yuvInfo w).
Proof.
  intros Hs. unfold getPlanes, SkYUVPlanesCache_FindAndRef. rewrite Hs.
  destruct (yuvPlanesCache w !! uniqueID (generatorOf self)) as [[data yuvInfo] |] eqn:Hfind.
  - intros [= <- <-]. left. reflexivity.
  - destruct (queryYUVA8 (generatorOf self)) as [yuvInfo |] eqn:Hq.
    + destruct (SkResourceCache_NewCachedData w (totalSize yuvInfo)) as [addr |];
        [| discriminate].
      destruct (getYUVA8Planes _ _ _ _) as [bytes |].
      * intros [= <- <-]. right. split; [reflexivity |].
        eexists _, yuvInfo. split; [reflexivity |]. split; reflexivity.
      * intros [= <- <-]. left. reflexivity.
    + intros [= <- <-]. left. reflexivity.
Qed.

Lemma getPlanes_images (w w1 : World) (this : nat) (r : option Planes) :
  getPlanes this w = Ret r w1 -> images w1 = images w.
Proof.
  intros Hcall. destruct (images w !! this) as [self |] eqn:Hs.
  - destruct (getPlanes_returns w w1 this self r Hs Hcall)
      as [-> | (_ & pl & yuvInfo & _ & _ & ->)]; reflexivity.
  - unfold getPlanes in Hcall. rewrite Hs in Hcall. discriminate.
Qed.

(** A miss that decodes adds under the image's id and answers the planes of
    the miss path. *)
Lemma getPlanes_miss_decoded (w w' : World) (this : nat) (self : SkImage_Lazy) (pl : Planes) :
  images w !! this = Some self ->
  yuvPlanesCache w !! uniqueID (generatorOf self) = None ->
  getPlanes this w = Ret (Some pl) w' ->
  exists yuvInfo,
    queryYUVA8 (generatorOf self) = Some yuvInfo
    /\ w' = SkYUVPlanesCache_Add (fUniqueID self) (p_data pl) yuvInfo w
    /\ p_outPlanes pl = planes_on_miss (cd_data (p_data pl)) yuvInfo.
Proof.
  intros Hs Hnone. unfold getPlanes, SkYUVPlanesCache_FindAndRef. rewrite Hs, Hnone.
  destruct (queryYUVA8 (generatorOf self)) as [yuvInfo |]; [| discriminate].
  destruct (SkResourceCache_NewCachedData w (totalSize yuvInfo)) as [addr |]; [| discriminate].
  destruct (getYUVA8Planes _ _ _ _) as [bytes |]; [| discriminate].
  intros [= <- <-]. exists yuvInfo. repeat split.
Qed.

(** Calls made through recolored images never fill the generator's slot. *)
Lemma getPlanes_each_recolored (sg : SharedGenerator) (receivers : list nat) :
  forall (w w' : World) (rs : list (option Planes)),
    recolored_over sg w receivers ->
    yuvPlanesCache w !! uniqueID (fGenerator sg) = None ->
    getPlanes_each receivers w = Ret rs w' ->
    yuvPlanesCache w' !! uniqueID (fGenerator sg) = None.
Proof.
  induction receivers as [| this rest IH]; intros w w' rs Hrec Hnone Hrun.
  - simpl in Hrun. injection Hrun as _ <-. exact Hnone.
  - simpl in Hrun. inversion Hrec as [| ? ? (img & Himg & Hsg & Hid) Hrest]; subst.
    destruct (getPlanes this w) as [r w1 |] eqn:Hcall; [| discriminate].
    destruct (getPlanes_each rest w1) as [rs' w2 |] eqn:Hrest_run; [| discriminate].
    injection Hrun as _ <-.
    pose proof (getPlanes_images _ _ _ _ Hcall) as Himgs.
    apply (IH w1 w2 rs').
    + unfold recolored_over in *. rewrite Himgs. exact Hrest.
    + destruct (getPlanes_returns w w1 this img r Himg Hcall)
        as [-> | (_ & pl & yuvInfo & _ & _ & ->)]; [exact Hnone |].
      simpl. rewrite lookup_insert_ne; [exact Hnone | exact Hid].
    + exact Hrest_run.
Qed.

(** C10.  [getPlanes] looks the planes up under the generator's unique id: an
    entry there is answered to any image over that generator, whatever the
    image's own id.  On a miss that decodes, the planes are added under the
    image's unique id, and nothing else changes.  So for an image whose id is
    not its generator's: the generator's slot is still empty after the call
    and stays empty through any further calls made by such images over the
    same generator; and in any world, a call through that generator answers
    the same with and without an entry under the image's id, which is thus
    never found.  When the image that decoded carries the generator's id,
    every image over the generator hits that entry afterwards. *)
Theorem getPlanes_lookup_and_add_keys (w : World) (this : nat) (self : SkImage_Lazy) :
  images w !! this = Some self ->
  (forall data yuvInfo,
      yuvPlanesCache w !! uniqueID (generatorOf self) = Some (data, yuvInfo) ->
      exists pl, getPlanes this w = Ret (Some pl) w /\ p_data pl = data)
  /\ (forall pl w',
        yuvPlanesCache w !! uniqueID (generatorOf self) = None ->
        getPlanes this w = Ret (Some pl) w' ->
        (exists yuvInfo,
            queryYUVA8 (generatorOf self) = Some yuvInfo
            /\ w' = SkYUVPlanesCache_Add (fUniqueID self) (p_data pl) yuvInfo w
            /\ yuvPlanesCache w' !! fUniqueID self = Some (p_data pl, yuvInfo))
        /\ (fUniqueID self <> uniqueID (generatorOf self) ->
            yuvPlanesCache w' !! uniqueID (generatorOf self) = None
            /\ forall receivers rs w'',
                 recolored_over (fSharedGenerator self) w' receivers ->
                 getPlanes_each receivers w' = Ret rs w'' ->
                 yuvPlanesCache w'' !! uniqueID (generatorOf self) = None)
        /\ (fUniqueID self = uniqueID (generatorOf self) ->
            forall that other,
              images w' !! that = Some other ->
              fSharedGenerator other = fSharedGenerator self ->
              exists pl',
                getPlanes that w' = Ret (Some pl') w'
                /\ p_data pl' = p_data pl /\ p_outPlanes pl' = p_outPlanes pl))
  /\ (fUniqueID self <> uniqueID (generatorOf self) ->
      forall w0 that other data yuvInfo,
        images w0 !! that = Some other ->
        fSharedGenerator other = fSharedGenerator self ->
        same_answer (getPlanes that w0)
          (getPlanes that (SkYUVPlanesCache_Add (fUniqueID self) data yuvInfo w0))).
Proof.
  intros Hs. split; [| split].
  - intros data yuvInfo Hfind.
    unfold getPlanes, SkYUVPlanesCache_FindAndRef. rewrite Hs, Hfind.
    eexists. split; reflexivity.
  - intros pl w' Hnone Hcall.
    destruct (getPlanes_miss_decoded w w' this self pl Hs Hnone Hcall)
      as (yuvInfo & Hq & -> & Hplanes).
    split; [| split].
    + exists yuvInfo. split; [exact Hq |]. split; [reflexivity |].
      simpl. apply lookup_insert_eq.
    + intros Hne.
      assert (Hstill : yuvPlanesCache
                (SkYUVPlanesCache_Add (fUniqueID self) (p_data pl) yuvInfo w)
                !! uniqueID (generatorOf self) = None).
      { simpl. rewrite lookup_insert_ne; [exact Hnone | exact Hne]. }
      split; [exact Hstill |].
      intros receivers rs w'' Hrec Hrun.
      exact (getPlanes_each_recolored (fSharedGenerator self) receivers _ w'' rs
               Hrec Hstill Hrun).
    + intros Heq that other Hother Hsg.
      unfold getPlanes, SkYUVPlanesCache_FindAndRef. rewrite Hother.
      unfold generatorOf. rewrite Hsg. fold (generatorOf self). simpl.
      rewrite <- Heq, lookup_insert_eq.
      eexists. split; [reflexivity |]. split; [reflexivity |]. simpl.
      rewrite Hplanes. symmetry. apply planes_on_miss_on_hit.
  - intros Hne w0 that other data yuvInfo Hother Hsg.
    unfold getPlanes, SkYUVPlanesCache_FindAndRef. simpl. rewrite Hother.
    unfold generatorOf. rewrite Hsg. fold (generatorOf self).
    rewrite lookup_insert_ne by exact Hne.
    destruct (yuvPlanesCache w0 !! uniqueID (generatorOf self)) as [[d yi] |];
      [reflexivity |].
    destruct (queryYUVA8 (generatorOf self)) as [yi |]; [| reflexivity].
    destruct (SkResourceCache_NewCachedData w0 (totalSize yi)); [| reflexivity].
    destruct (getYUVA8Planes _ _ _ _); reflexivity.
Qed.

(** On the recolored world: the BGRA child (id 4, generator id 2) decodes and
    adds under 4; slot 2 stays empty, also after the child asks twice more.
    On the sample world: the original image decodes and adds under 2, and the
    same image asking again hits. *)
Lemma getPlanes_lookup_and_add_keys_witness :
  (exists pl w',
      getPlanes 1 recolored_world = Ret (Some pl) w'
      /\ is_Some (yuvPlanesCache w' !! 4%N)
      /\ yuvPlanesCache w' !! 2%N = None
      /\ exists rs w'',
           getPlanes_each [1%nat; 1%nat] w' = Ret rs w''
           /\ yuvPlanesCache w'' !! 2%N = None)
  /\ (exists pl w' pl',
        getPlanes 0 sample_world = Ret (Some pl) w'
        /\ getPlanes 0 w' = Ret (Some pl') w'
        /\ p_data pl' = p_data pl).
Proof.
  split.
  - assert (Hcall : exists pl w', getPlanes 1 recolored_world = Ret (Some pl) w')
      by (eexists _, _; reflexivity).
    destruct Hcall as (pl & w' & Hcall).
    destruct (proj1 (proj2 (getPlanes_lookup_and_add_keys recolored_world 1 recolored_image
                              eq_refl)) pl w' eq_refl Hcall)
      as ((yuvInfo & Hq & Hw' & Hadded) & Hrecolored & _).
    destruct (Hrecolored ltac:(cbn; discriminate)) as [Hempty Hnever].
    exists pl, w'. split; [exact Hcall |]. split; [eexists; exact Hadded |].
    split; [exact Hempty |].
    assert (Hrun : exists rs w'', getPlanes_each [1%nat; 1%nat] w' = Ret rs w'')
      by (rewrite Hw'; eexists _, _; reflexivity).
    destruct Hrun as (rs & w'' & Hrun).
    exists rs, w''. split; [exact Hrun |].
    apply (Hnever [1%nat; 1%nat] rs w''); [| exact Hrun].
    assert (Himg : images w' !! 1%nat = Some recolored_image)
      by (rewrite Hw'; reflexivity).
    repeat constructor; exists recolored_image;
      (split; [exact Himg | split; [reflexivity | cbn; discriminate]]).
  - assert (Hcall : exists pl w', getPlanes 0 sample_world = Ret (Some pl) w')
      by (eexists _, _; reflexivity).
    destruct Hcall as (pl & w' & Hcall).
    destruct (proj1 (proj2 (getPlanes_lookup_and_add_keys sample_world 0 sample_image
                              eq_refl)) pl w' eq_refl Hcall)
      as ((yuvInfo & _ & Hw' & _) & _ & Hbase).
    destruct (Hbase eq_refl 0%nat sample_image ltac:(rewrite Hw'; reflexivity) eq_refl)
      as (pl' & Hcall' & Hdata & _).
    exists pl, w', pl'. split; [exact Hcall |]. split; [exact Hcall' | exact Hdata].
Defined.

(** ** Textures: what each step leaves untouched *)

Lemma getROPixels_total (w : World) (this : nat) (self : SkImage_Lazy) (chint : CachingHint) :
  images w !! this = Some self ->
  exists r w1,
    getROPixels this chint w = Ret r w1
    /\ histogram w1 = histogram w
    /\ proxies w1 = proxies w
    /\ length (images w1) = length (images w).
Proof.
  intros Hs. unfold getROPixels. rewrite Hs.
  destruct (bitmapCache w !! SkBitmapCacheDesc_Make self); [eexists _, _; eauto |].
  destruct chint.
  - destruct (negb (SkBitmapCache_Alloc w _ _)); [eexists _, _; eauto |].
    destruct (getPixels _ _); eexists _, _; (split; [reflexivity |]); simpl;
      rewrite ?length_insert; auto.
  - destruct (negb (tryAllocPixels w _)); [eexists _, _; eauto |].
    destruct (getPixels _ _); eexists _, _; eauto.
Qed.

Lemma upload_planes_frame (ctx : GrRecordingContext) (pl : Planes) (n : nat) :
  forall (i : nat) (views : list (option GrSurfaceProxyView)) (w w1 : World)
         (r : option (list (option GrSurfaceProxyView))),
    upload_planes ctx pl n i views w = (r, w1) ->
    histogram w1 = histogram w /\ images w1 = images w
    /\ SkResourceCache_NewCachedData w1 = SkResourceCache_NewCachedData w.
Proof.
  induction n as [| n IH]; intros i views w w1 r; simpl.
  - intros [= <- <-]. auto.
  - destruct (SkISize_isEmpty _); [apply IH |].
    destruct (GrBitmapTextureMaker_view _ _ _ _) as [nt |]; [| intros [= <- <-]; auto].
    unfold view_of_NewTexture, new_proxy. intros Hrun. apply IH in Hrun. exact Hrun.
Qed.

Section TextureFrames.

Variable SkColorTypeToGrColorType : SkColorType -> GrColorType.

(** When the allocation of the planes does not answer null, a call of
    [textureProxyViewFromPlanes] on a live image returns. *)
Lemma textureProxyViewFromPlanes_total (w : World) (this : nat) (self : SkImage_Lazy)
    (ctx : GrRecordingContext) (budgeted : SkBudgeted) :
  images w !! this = Some self ->
  planes_allocation_succeeds self w ->
  exists r w1,
    textureProxyViewFromPlanes SkColorTypeToGrColorType this ctx budgeted w = Ret r w1
    /\ histogram w1 = histogram w /\ images w1 = images w.
Proof.
  intros Hs Halloc. unfold textureProxyViewFromPlanes. rewrite Hs.
  assert (Hplanes : exists r w1, getPlanes this w = Ret r w1
                                 /\ histogram w1 = histogram w /\ images w1 = images w).
  { unfold getPlanes, SkYUVPlanesCache_FindAndRef. rewrite Hs.
    destruct (yuvPlanesCache w !! _) as [[data yuvInfo] |] eqn:Hfind;
      [eexists _, _; eauto |].
    destruct (queryYUVA8 _) as [yuvInfo |] eqn:Hq; [| eexists _, _; eauto].
    destruct (Halloc Hfind yuvInfo Hq) as [addr ->].
    destruct (getYUVA8Planes _ _ _ _); eexists _, _; eauto. }
  destruct Hplanes as (r & w1 & -> & Hh & Hi).
  destruct r as [pl |]; [| eexists _, _; eauto].
  destruct (upload_planes ctx pl kMaxCount 0 (replicate kMaxCount None) w1)
    as [views w2] eqn:Hup.
  apply upload_planes_frame in Hup as (Hh2 & Hi2 & _).
  destruct views as [yuvViews |]; [| eexists _, _; split; [reflexivity | split; congruence]].
  destruct (GrRenderTargetContext_Make _ _ _ _);
    eexists _, _; (split; [reflexivity |]); simpl; split; congruence.
Qed.

Lemma installKey_frame (this : nat) (ctx : GrRecordingContext) (key : option GrUniqueKey)
    (view : GrSurfaceProxyView) (w : World) :
  histogram (installKey this ctx key view w) = histogram w.
Proof. destruct key; reflexivity. Qed.

(** Stage 4 returns, with one sample: RGBA with a view, or Failure with the
    empty view. *)
Lemma lockTexture_stage4_records (w : World) (this : nat) (self : SkImage_Lazy)
    (ctx : GrRecordingContext) (texGenPolicy : GrImageTexGenPolicy)
    (mipMapped : GrMipmapped) (key : option GrUniqueKey) :
  images w !! this = Some self ->
  exists view w',
    lockTexture_stage4 this ctx texGenPolicy mipMapped key w = Ret view w'
    /\ ((exists bitmap w1,
            getROPixels this (if bool_decide (texGenPolicy = kDraw)
                              then kAllow_CachingHint else kDisallow_CachingHint) w
              = Ret (Some bitmap) w1
            /\ non_null (GrBitmapTextureMaker_view ctx bitmap
                           (inr (if bool_decide (texGenPolicy = kNew_Uncached_Unbudgeted)
                                 then kNew_Uncached_Unbudgeted else kNew_Uncached_Budgeted))
                           mipMapped) = true
            /\ is_Some view
            /\ histogram w' = histogram w ++ [kRGBA_LockTexturePath])
        \/ ((forall bitmap w1,
                getROPixels this (if bool_decide (texGenPolicy = kDraw)
                                  then kAllow_CachingHint else kDisallow_CachingHint) w
                  = Ret (Some bitmap) w1 ->
                non_null (GrBitmapTextureMaker_view ctx bitmap
                            (inr (if bool_decide (texGenPolicy = kNew_Uncached_Unbudgeted)
                                  then kNew_Uncached_Unbudgeted else kNew_Uncached_Budgeted))
                            mipMapped) = false)
            /\ view = None
            /\ histogram w' = histogram w ++ [kFailure_LockTexturePath])).
Proof.
  intros Hs. unfold lockTexture_stage4.
  destruct (getROPixels_total w this self
              (if bool_decide (texGenPolicy = kDraw)
               then kAllow_CachingHint else kDisallow_CachingHint) Hs)
    as (r & w1 & Hcall & Hh & _ & _).
  rewrite Hcall. destruct r as [bitmap |].
  - destruct (GrBitmapTextureMaker_view ctx bitmap _ mipMapped) as [nt |] eqn:Hmk.
    + eexists _, _. split; [reflexivity |]. left. exists bitmap, w1.
      split; [reflexivity |]. split; [rewrite Hmk; reflexivity |].
      split; [eexists; reflexivity |].
      simpl. rewrite installKey_frame. simpl. rewrite Hh. reflexivity.
    + eexists _, _. split; [reflexivity |]. right.
      split; [intros b wb [= <- <-]; rewrite Hmk; reflexivity |].
      split; [reflexivity |]. simpl. rewrite Hh. reflexivity.
  - eexists _, _. split; [reflexivity |]. right.
    split; [intros b wb [=] |]. split; [reflexivity |]. simpl. rewrite Hh. reflexivity.
Qed.

End TextureFrames.

(** ** Textures: the cascade *)

Lemma GrCopyBaseMipMapToView_frame (ctx : GrRecordingContext) (view : GrSurfaceProxyView)
    (w w1 : World) (r : option GrSurfaceProxyView) :
  GrCopyBaseMipMapToView ctx view w = (r, w1) -> histogram w1 = histogram w.
Proof.
  unfold GrCopyBaseMipMapToView.
  destruct (proxies w !! v_proxy view) as [src |]; [| intros [= <- <-]; reflexivity].
  destruct (GrCopyBaseMipMap_succeeds ctx src); intros [= <- <-]; reflexivity.
Qed.

Lemma removeUniqueKeyFromProxy_frame (p : nat) (w : World) :
  histogram (removeUniqueKeyFromProxy p w) = histogram w
  /\ images (removeUniqueKeyFromProxy p w) = images w.
Proof.
  unfold removeUniqueKeyFromProxy.
  destruct (proxies w !! p) as [proxy |]; [| auto].
  destruct (tp_uniqueKey proxy); auto.
Qed.

Section Cascade.

Variable SkColorTypeToGrColorType : SkColorType -> GrColorType.

(** A call of [lockTextureProxyView] on a live image returns and adds exactly
    one sample to the LockTexturePath histogram, as long as it does not get
    to a planes allocation that answers null.  The sample is one of Failure,
    PreExisting, Native, YUV, RGBA: the first stage, in the order cache hit,
    native generation, YUV planar, RGBA fallback, that succeeds, and Failure
    when none does; the view returned is empty exactly when the sample is
    Failure. *)
Lemma lockTextureProxyView_records_once_if (w : World) (this : nat) (self : SkImage_Lazy)
    (ctx : GrRecordingContext) (texGenPolicy : GrImageTexGenPolicy)
    (mipMapped : GrMipmapped) :
  images w !! this = Some self ->
  (cache_hit_succeeds self texGenPolicy w = false ->
   native_generation_succeeds self ctx texGenPolicy mipMapped = false ->
   yuv_planar_attempted ctx mipMapped = true ->
   planes_allocation_succeeds self w) ->
  exists view w' sample,
    lockTextureProxyView SkColorTypeToGrColorType this ctx texGenPolicy mipMapped w
      = Ret view w'
    /\ histogram w' = histogram w ++ [sample]
    /\ sample = first_stage_that_succeeds SkColorTypeToGrColorType this self ctx
                  texGenPolicy mipMapped w
    /\ sample ∈ [kFailure_LockTexturePath; kPreExisting_LockTexturePath;
                 kNative_LockTexturePath; kYUV_LockTexturePath; kRGBA_LockTexturePath]
    /\ (sample = kFailure_LockTexturePath <-> view = None).
Proof.
  intros Hs Hreach.
  unfold cache_hit_succeeds, lockTexture_key, native_generation_succeeds,
    yuv_planar_attempted in Hreach.
  unfold lockTextureProxyView, first_stage_that_succeeds, cache_hit_succeeds, lockTexture_key.
  rewrite Hs.
  set (key := if bool_decide (texGenPolicy = kDraw) then _ else None) in *.
  destruct (key ≫= (fun k => findOrCreateProxyByUniqueKey k w)) as [[p proxy] |]; simpl.
  { (* stage 1 *)
    assert (Hin : kPreExisting_LockTexturePath ∈
                    [kFailure_LockTexturePath; kPreExisting_LockTexturePath;
                     kNative_LockTexturePath; kYUV_LockTexturePath; kRGBA_LockTexturePath])
      by set_solver.
    destruct (bool_decide (mipMapped = GrMipmapped_kNo)
              || bool_decide (tp_mipmapped proxy = GrMipmapped_kYes)).
    - eexists _, _, _. split; [reflexivity |]. split; [reflexivity |].
      split; [reflexivity |]. split; [exact Hin |]. split; discriminate.
    - destruct (GrCopyBaseMipMapToView ctx _ _) as [[mippedView |] w2] eqn:Hcopy;
        apply GrCopyBaseMipMapToView_frame in Hcopy;
        eexists _, _, _; (split; [reflexivity |]).
      + rewrite installKey_frame, (proj1 (removeUniqueKeyFromProxy_frame _ _)), Hcopy.
        split; [reflexivity |]. split; [reflexivity |]. split; [exact Hin |].
        split; discriminate.
      + rewrite Hcopy. split; [reflexivity |]. split; [reflexivity |].
        split; [exact Hin |]. split; discriminate. }
  unfold lockTexture_stage2, native_generation_succeeds.
  specialize (Hreach eq_refl).
  destruct (generateTexture (generatorOf self) ctx (fInfo self) mipMapped texGenPolicy)
    as [nt |]; simpl.
  { (* stage 2 *)
    eexists _, _, _. split; [reflexivity |]. rewrite installKey_frame. simpl.
    split; [reflexivity |]. split; [reflexivity |]. split; [set_solver |].
    split; discriminate. }
  unfold lockTexture_stage3, yuv_planar_succeeds, rgba_fallback_succeeds,
    world_after_yuv_attempt, yuv_planar_attempted, yuv_budgeted.
  set (budgeted := if bool_decide (texGenPolicy = kNew_Uncached_Unbudgeted)
                   then SkBudgeted_kNo else SkBudgeted_kYes).
  assert (Hstage4 : forall w1,
            images w1 = images w -> histogram w1 = histogram w ->
            exists view w' sample,
              lockTexture_stage4 this ctx texGenPolicy mipMapped key w1 = Ret view w'
              /\ histogram w' = histogram w ++ [sample]
              /\ sample =
                   (if match getROPixels this
                                 (if bool_decide (texGenPolicy = kDraw)
                                  then kAllow_CachingHint else kDisallow_CachingHint) w1 with
                       | Ret (Some bitmap) _ =>
                           non_null (GrBitmapTextureMaker_view ctx bitmap
                             (inr (if bool_decide (texGenPolicy = kNew_Uncached_Unbudgeted)
                                   then kNew_Uncached_Unbudgeted
                                   else kNew_Uncached_Budgeted)) mipMapped)
                       | _ => false
                       end
                    then kRGBA_LockTexturePath else kFailure_LockTexturePath)
              /\ sample ∈ [kFailure_LockTexturePath; kPreExisting_LockTexturePath;
                           kNative_LockTexturePath; kYUV_LockTexturePath;
                           kRGBA_LockTexturePath]
              /\ (sample = kFailure_LockTexturePath <-> view = None)).
  { intros w1 Hi Hh.
    assert (Hs1 : images w1 !! this = Some self) by (rewrite Hi; exact Hs).
    destruct (lockTexture_stage4_records w1 this self ctx texGenPolicy mipMapped key Hs1)
      as (view & w' & Hcall & [(bitmap & wb & Hpix & Hmk & Hview & Hhist)
                              | (Hnone & -> & Hhist)]).
    - exists view, w', kRGBA_LockTexturePath. split; [exact Hcall |].
      split; [rewrite Hhist, Hh; reflexivity |].
      split; [rewrite Hpix, Hmk; reflexivity |]. split; [set_solver |].
      split; [discriminate |]. intros ->. destruct Hview as [x [=]].
    - exists None, w', kFailure_LockTexturePath. split; [exact Hcall |].
      split; [rewrite Hhist, Hh; reflexivity |].
      split; [| split; [set_solver | split; reflexivity]].
      destruct (getROPixels this _ w1) as [[bitmap |] wb |] eqn:Hpix; try reflexivity.
      rewrite (Hnone bitmap wb eq_refl). reflexivity. }
  specialize (Hreach eq_refl).
  destruct (bool_decide (mipMapped = GrMipmapped_kNo) && negb (fDisableGpuYUVConversion ctx));
    simpl; [| apply Hstage4; reflexivity].
  destruct (textureProxyViewFromPlanes_total SkColorTypeToGrColorType w this self ctx
              budgeted Hs (Hreach eq_refl)) as (r & w1 & -> & Hh & Hi).
  destruct r as [view |].
  - (* stage 3 *)
    eexists _, _, _. split; [reflexivity |]. rewrite installKey_frame. simpl. rewrite Hh.
    split; [reflexivity |]. split; [reflexivity |]. split; [set_solver |].
    split; discriminate.
  - apply Hstage4; assumption.
Qed.

(** The two ways of a call on a live image: it gets to a planes allocation
    that answers null, and the null data is dereferenced before any sample is
    recorded; or it returns with exactly one sample, that of the first stage
    that succeeds. *)
Lemma lockTextureProxyView_records_once_unless_null_data (w : World) (this : nat)
    (self : SkImage_Lazy) (ctx : GrRecordingContext) (texGenPolicy : GrImageTexGenPolicy)
    (mipMapped : GrMipmapped) :
  images w !! this = Some self ->
  (reaches_null_data self ctx texGenPolicy mipMapped w ->
   lockTextureProxyView SkColorTypeToGrColorType this ctx texGenPolicy mipMapped w
     = Crash NullDereference)
  /\ (~ reaches_null_data self ctx texGenPolicy mipMapped w ->
      exists view w' sample,
        lockTextureProxyView SkColorTypeToGrColorType this ctx texGenPolicy mipMapped w
          = Ret view w'
        /\ histogram w' = histogram w ++ [sample]
        /\ sample = first_stage_that_succeeds SkColorTypeToGrColorType this self ctx
                      texGenPolicy mipMapped w
        /\ sample ∈ [kFailure_LockTexturePath; kPreExisting_LockTexturePath;
                     kNative_LockTexturePath; kYUV_LockTexturePath; kRGBA_LockTexturePath]
        /\ (sample = kFailure_LockTexturePath <-> view = None)).
Proof.
  intros Hs. split.
  - intros (Hhit & Hnative & Hyuv & Hmiss & yuvInfo & Hq & Hnull).
    unfold cache_hit_succeeds, lockTexture_key in Hhit.
    unfold native_generation_succeeds in Hnative. unfold yuv_planar_attempted in Hyuv.
    unfold lockTextureProxyView. rewrite Hs.
    destruct (_ ≫= _) as [[p proxy] |]; [discriminate |].
    unfold lockTexture_stage2.
    destruct (generateTexture _ _ _ _ _); [discriminate |].
    unfold lockTexture_stage3. rewrite Hyuv.
    unfold textureProxyViewFromPlanes. rewrite Hs.
    rewrite (getPlanes_alloc_failure w this self yuvInfo Hs Hmiss Hq Hnull). reflexivity.
  - intros Hnot. apply lockTextureProxyView_records_once_if; [exact Hs |].
    intros Hhit Hnative Hyuv Hmiss yuvInfo Hq.
    destruct (SkResourceCache_NewCachedData w (totalSize yuvInfo)) as [addr |] eqn:Halloc;
      [eauto |].
    exfalso. apply Hnot. repeat split; try assumption. exists yuvInfo. split; assumption.
Qed.

End Cascade.

(** C1, on the sample image when the resource cache answers null.  The image
    has no cached texture and no native texture, its generator has planes,
    and reading its pixels and uploading them would succeed, so the first
    stage to succeed is the RGBA fallback; but the draw request stops inside
    the planar stage, at the null data of [getPlanes], and records no
    sample.  (The same request with mipmaps skips the planar stage and
    records RGBA.) *)
Theorem lockTextureProxyView_null_data_sample :
  lockTextureProxyView sample_SkColorTypeToGrColorType 0 sample_ctx kDraw
    GrMipmapped_kNo null_planes_world = Crash NullDereference
  /\ reaches_null_data sample_image sample_ctx kDraw GrMipmapped_kNo null_planes_world
  /\ (exists bitmap w1,
        getROPixels 0 kAllow_CachingHint null_planes_world = Ret (Some bitmap) w1
        /\ is_Some (GrBitmapTextureMaker_view sample_ctx bitmap
                      (inr kNew_Uncached_Budgeted) GrMipmapped_kNo))
  /\ exists view w',
       lockTextureProxyView sample_SkColorTypeToGrColorType 0 sample_ctx kDraw
         GrMipmapped_kYes null_planes_world = Ret (Some view) w'
       /\ histogram w' = [kRGBA_LockTexturePath].
Proof.
  split; [reflexivity |]. split.
  - repeat split. exists sample_yuv. split; reflexivity.
  - split.
    + eexists _, _. split; [reflexivity |]. eexists. reflexivity.
    + eexists _, _. split; reflexivity.
Qed.

(** On the sample world, whose allocations succeed, the draw request without
    mipmaps records YUV. *)
Example lockTextureProxyView_records_once_sample :
  exists view w',
    lockTextureProxyView sample_SkColorTypeToGrColorType 0 sample_ctx kDraw
      GrMipmapped_kNo sample_world = Ret view w'
    /\ histogram w' = histogram sample_world ++ [kYUV_LockTexturePath]
    /\ view <> None.
Proof.
  destruct (proj2 (lockTextureProxyView_records_once_unless_null_data
                     sample_SkColorTypeToGrColorType sample_world 0 sample_image sample_ctx
                     kDraw GrMipmapped_kNo eq_refl)
              ltac:(intros (_ & _ & _ & _ & yuvInfo & _ & Hnull); discriminate))
    as (view & w' & sample & Hcall & Hhist & Hsample & _ & Hfail).
  assert (Hyuv : sample = kYUV_LockTexturePath) by (rewrite Hsample; reflexivity).
  exists view, w'. split; [exact Hcall |]. split; [rewrite Hhist, Hyuv; reflexivity |].
  intros Hnone. apply Hfail in Hnone. rewrite Hyuv in Hnone. discriminate.
Qed.

Section Stage1.

Variable SkColorTypeToGrColorType : SkColorType -> GrColorType.

(** What the call reduces to when stage 1 finds a proxy. *)
Lemma lockTextureProxyView_stage1 (w : World) (this : nat) (self : SkImage_Lazy)
    (ctx : GrRecordingContext) (mipMapped : GrMipmapped) (p : nat) (proxy : GrTextureProxy) :
  images w !! this = Some self ->
  findOrCreateProxyByUniqueKey
    (GrMakeKeyFromImageID (fUniqueID self)
       (SkIRect_MakeSize (fWidth (dimensions self)) (fHeight (dimensions self)))) w
    = Some (p, proxy) ->
  let key := GrMakeKeyFromImageID (fUniqueID self)
               (SkIRect_MakeSize (fWidth (dimensions self)) (fHeight (dimensions self))) in
  let w1 := SK_HISTOGRAM_ENUMERATION kPreExisting_LockTexturePath w in
  let view := {| v_proxy := p; v_origin := kTopLeft_GrSurfaceOrigin;
                 v_swizzle := getReadSwizzle ctx (tp_backendFormat proxy)
                                (colorTypeOfLockTextureProxy SkColorTypeToGrColorType self ctx) |} in
  lockTextureProxyView SkColorTypeToGrColorType this ctx kDraw mipMapped w =
    if bool_decide (mipMapped = GrMipmapped_kNo)
       || bool_decide (tp_mipmapped proxy = GrMipmapped_kYes)
    then Ret (Some view) w1
    else
      match GrCopyBaseMipMapToView ctx view w1 with
      | (None, w2) => Ret (Some view) w2
      | (Some mippedView, w2) =>
          Ret (Some mippedView)
              (installKey this ctx (Some key) mippedView
                 (removeUniqueKeyFromProxy (v_proxy view) w2))
      end.
Proof.
  intros Hs Hfind key w1 view. unfold lockTextureProxyView. rewrite Hs.
  rewrite (bool_decide_eq_true_2 (kDraw = kDraw) eq_refl).
  cbn [mbind option_bind]. rewrite Hfind. reflexivity.
Qed.

(** C6.  Stage 1 of [lockTextureProxyView] when the key of the image is bound
    to a proxy that is not mipmapped and a mipmapped view is asked for.  If
    the copy into a mipmapped texture succeeds, the view returned is of a new
    proxy, which is mipmapped and carries the key; the key table sends the
    key to it, and the old proxy carries no key any more.  If the copy fails,
    the view returned is of the old proxy and the proxies and the key table
    are as before.  Either way the sample is PreExisting. *)
Theorem lockTextureProxyView_mipmap_upgrade (w : World) (this : nat) (self : SkImage_Lazy)
    (ctx : GrRecordingContext) (p : nat) (proxy : GrTextureProxy) :
  let key := GrMakeKeyFromImageID (fUniqueID self)
               (SkIRect_MakeSize (fWidth (dimensions self)) (fHeight (dimensions self))) in
  images w !! this = Some self ->
  fUniquelyKeyedProxies w !! key = Some p ->
  proxies w !! p = Some proxy ->
  tp_mipmapped proxy = GrMipmapped_kNo ->
  (GrCopyBaseMipMap_succeeds ctx proxy = true ->
   exists view w' mipped old,
     lockTextureProxyView SkColorTypeToGrColorType this ctx kDraw GrMipmapped_kYes w
       = Ret (Some view) w'
     /\ v_proxy view = length (proxies w)
     /\ v_proxy view <> p
     /\ proxies w' !! v_proxy view = Some mipped
     /\ tp_mipmapped mipped = GrMipmapped_kYes
     /\ tp_uniqueKey mipped = Some key
     /\ fUniquelyKeyedProxies w' !! key = Some (v_proxy view)
     /\ findOrCreateProxyByUniqueKey key w' = Some (v_proxy view, mipped)
     /\ proxies w' !! p = Some old
     /\ tp_uniqueKey old = None
     /\ tp_mipmapped old = GrMipmapped_kNo
     /\ histogram w' = histogram w ++ [kPreExisting_LockTexturePath])
  /\ (GrCopyBaseMipMap_succeeds ctx proxy = false ->
      exists view w',
        lockTextureProxyView SkColorTypeToGrColorType this ctx kDraw GrMipmapped_kYes w
          = Ret (Some view) w'
        /\ v_proxy view = p
        /\ proxies w' = proxies w
        /\ fUniquelyKeyedProxies w' = fUniquelyKeyedProxies w
        /\ findOrCreateProxyByUniqueKey key w' = Some (p, proxy)
        /\ histogram w' = histogram w ++ [kPreExisting_LockTexturePath]).
Proof.
  intros key Hs Hkey Hp Hmip.
  assert (Hlt : (p < length (proxies w))%nat) by (eapply lookup_lt_Some; eassumption).
  assert (Hfind : findOrCreateProxyByUniqueKey key w = Some (p, proxy)).
  { unfold findOrCreateProxyByUniqueKey. rewrite Hkey, Hp. reflexivity. }
  split; intros Hcopy.
  - rewrite (lockTextureProxyView_stage1 w this self ctx GrMipmapped_kYes p proxy Hs Hfind).
    cbv zeta. rewrite Hmip. simpl.
    unfold GrCopyBaseMipMapToView. simpl. rewrite Hp, Hcopy. simpl.
    unfold removeUniqueKeyFromProxy. simpl.
    rewrite lookup_app_l by exact Hlt. rewrite Hp.
    destruct (tp_uniqueKey proxy) as [k |] eqn:Hk.
    + eexists _, _, _, _. split; [reflexivity |]. simpl.
      split; [reflexivity |]. split; [lia |].
      split.
      { rewrite list_lookup_alter_eq. rewrite list_lookup_insert_ne by lia.
        rewrite lookup_app_r by lia. rewrite Nat.sub_diag. reflexivity. }
      split; [reflexivity |]. split; [reflexivity |].
      split; [apply lookup_insert_eq |].
      split.
      { unfold findOrCreateProxyByUniqueKey. simpl. rewrite lookup_insert_eq.
        rewrite list_lookup_alter_eq. rewrite list_lookup_insert_ne by lia.
        rewrite lookup_app_r by lia. rewrite Nat.sub_diag. reflexivity. }
      split.
      { rewrite list_lookup_alter_ne by lia.
        apply list_lookup_insert_eq. rewrite length_app. simpl. lia. }
      split; [reflexivity |]. split; [exact Hmip | reflexivity].
    + eexists _, _, _, _. split; [reflexivity |]. simpl.
      split; [reflexivity |]. split; [lia |].
      split.
      { rewrite list_lookup_alter_eq.
        rewrite lookup_app_r by lia. rewrite Nat.sub_diag. reflexivity. }
      split; [reflexivity |]. split; [reflexivity |].
      split; [apply lookup_insert_eq |].
      split.
      { unfold findOrCreateProxyByUniqueKey. simpl. rewrite lookup_insert_eq.
        rewrite list_lookup_alter_eq.
        rewrite lookup_app_r by lia. rewrite Nat.sub_diag. reflexivity. }
      split.
      { rewrite list_lookup_alter_ne by lia. rewrite lookup_app_l by exact Hlt. exact Hp. }
      split; [exact Hk |]. split; [exact Hmip | reflexivity].
  - rewrite (lockTextureProxyView_stage1 w this self ctx GrMipmapped_kYes p proxy Hs Hfind).
    cbv zeta. rewrite Hmip. simpl.
    unfold GrCopyBaseMipMapToView. simpl. rewrite Hp, Hcopy.
    eexists _, _. split; [reflexivity |]. simpl.
    split; [reflexivity |]. split; [reflexivity |]. split; [reflexivity |].
    split; [exact Hfind | reflexivity].
Qed.

End Stage1.

Example locked_world_binding :
  fUniquelyKeyedProxies locked_world !! GrMakeKeyFromImageID 2%N (SkIRect_MakeSize 2 2)
    = Some 3%nat
  /\ (tp_mipmapped <$> proxies locked_world !! 3%nat) = Some GrMipmapped_kNo
  /\ histogram locked_world = [kYUV_LockTexturePath].
Proof. repeat split. Qed.

(** On the locked world the key is bound to proxy 3, not mipmapped.  Asking
    for mipmaps on the sample context re-keys to the new proxy 4; on the
    context that cannot copy, proxy 3 is answered and keeps the key. *)
Lemma lockTextureProxyView_mipmap_upgrade_witness :
  (exists view w',
      lockTextureProxyView sample_SkColorTypeToGrColorType 0 sample_ctx kDraw
        GrMipmapped_kYes locked_world = Ret (Some view) w'
      /\ v_proxy view = 4%nat
      /\ fUniquelyKeyedProxies w' !! GrMakeKeyFromImageID 2%N (SkIRect_MakeSize 2 2)
           = Some 4%nat
      /\ (tp_uniqueKey <$> proxies w' !! 3%nat) = Some None)
  /\ (exists view w',
        lockTextureProxyView sample_SkColorTypeToGrColorType 0 no_copy_ctx kDraw
          GrMipmapped_kYes locked_world = Ret (Some view) w'
        /\ v_proxy view = 3%nat
        /\ fUniquelyKeyedProxies w' !! GrMakeKeyFromImageID 2%N (SkIRect_MakeSize 2 2)
             = Some 3%nat).
Proof.
  assert (Himg : exists img, images locked_world !! 0%nat = Some img
                             /\ fUniqueID img = 2%N /\ dimensions img = dimensions sample_image)
    by (eexists; repeat split).
  destruct Himg as (img & Himg & Hid & Hdim).
  assert (Hproxy : exists proxy, proxies locked_world !! 3%nat = Some proxy
                                 /\ tp_mipmapped proxy = GrMipmapped_kNo)
    by (eexists; repeat split).
  destruct Hproxy as (proxy & Hproxy & Hmip).
  assert (Hkey : fUniquelyKeyedProxies locked_world
                   !! GrMakeKeyFromImageID (fUniqueID img)
                        (SkIRect_MakeSize (fWidth (dimensions img)) (fHeight (dimensions img)))
                 = Some 3%nat)
    by (rewrite Hid, Hdim; reflexivity).
  split.
  - destruct (proj1 (lockTextureProxyView_mipmap_upgrade sample_SkColorTypeToGrColorType
                       locked_world 0 img sample_ctx 3 proxy Himg Hkey Hproxy Hmip) eq_refl)
      as (view & w' & mipped & old & Hcall & Hv & _ & _ & _ & _ & Hbound & _ & Hold & Hnokey & _).
    exists view, w'. split; [exact Hcall |].
    rewrite Hid, Hdim in Hbound.
    assert (Hv4 : v_proxy view = 4%nat) by exact Hv.
    split; [exact Hv4 |]. split; [rewrite <- Hv4; exact Hbound |].
    rewrite Hold. simpl. rewrite Hnokey. reflexivity.
  - destruct (proj2 (lockTextureProxyView_mipmap_upgrade sample_SkColorTypeToGrColorType
                       locked_world 0 img no_copy_ctx 3 proxy Himg Hkey Hproxy Hmip) eq_refl)
      as (view & w' & Hcall & Hv & _ & Htable & _).
    exists view, w'. split; [exact Hcall |]. split; [exact Hv |].
    rewrite Htable. reflexivity.
Defined.

(** * Further properties *)

(** ** Construction *)

(** X1.  [SkImage::MakeFromGenerator] answers no image, and changes nothing,
    for a null generator and for a generator of an empty image.  For any
    other generator it builds one image at a fresh address, with the
    generator's info and unique id, an empty memo slot and no listeners,
    without allocating an id; that image hands out the generator's encoded
    data. *)
Theorem MakeFromGenerator_result (w : World) (gen : option SkImageGenerator) :
  (gen = None \/ (exists g, gen = Some g /\ isEmpty (getInfo g) = true) ->
   MakeFromGenerator gen w = (None, w))
  /\ (forall g, gen = Some g -> isEmpty (getInfo g) = false ->
      exists w' img,
        MakeFromGenerator gen w = (Some (length (images w)), w')
        /\ images w' = images w ++ [img]
        /\ nextImageID w' = nextImageID w
        /\ fInfo img = getInfo g /\ fUniqueID img = uniqueID g
        /\ generatorOf img = g
        /\ fOnMakeColorTypeAndSpaceResult img = None
        /\ fUniqueIDListeners img = []
        /\ onRefEncoded (length (images w)) w' = Ret (refEncodedData g) w').
Proof.
  split.
  - intros [-> | (g & -> & He)]; [reflexivity |].
    unfold MakeFromGenerator. simpl. rewrite He. reflexivity.
  - intros g -> Hne. unfold MakeFromGenerator. simpl. rewrite Hne. simpl.
    eexists _, _. split; [reflexivity |]. simpl.
    split; [reflexivity |]. do 6 (split; [reflexivity |]).
    unfold onRefEncoded. simpl.
    rewrite lookup_app_r by lia. rewrite Nat.sub_diag. simpl.
    unfold generatorOf. simpl.
    rewrite bool_decide_eq_true_2 by reflexivity. reflexivity.
Qed.

Lemma MakeFromGenerator_result_witness :
  MakeFromGenerator (Some empty_generator) empty_world = (None, empty_world)
  /\ exists w' img,
       MakeFromGenerator (Some sample_generator) empty_world = (Some 0%nat, w')
       /\ images w' = [img] /\ fUniqueID img = 2%N
       /\ onRefEncoded 0 w' = Ret (Some [137%N; 80%N; 78%N; 71%N]) w'.
Proof.
  pose proof (MakeFromGenerator_result empty_world (Some empty_generator)) as [Hnone _].
  pose proof (MakeFromGenerator_result empty_world (Some sample_generator)) as [_ Hsome].
  split.
  - apply Hnone. right. exists empty_generator. split; reflexivity.
  - destruct (Hsome sample_generator eq_refl eq_refl)
      as (w' & img & Hcall & Himgs & _ & _ & Hid & _ & _ & _ & Henc).
    exists w', img. repeat split; assumption.
Defined.

(** The info of a validator built with a color type override. *)
Lemma Validator_ctor_info (sg : SharedGenerator) (ct : SkColorType)
    (cs : option SkColorSpace) (w : World) :
  isEmpty (getInfo (fGenerator sg)) = false ->
  let info := getInfo (fGenerator sg) in
  let v := fst (Validator_ctor (Some sg) (Some ct) cs w) in
  ii_width (v_fInfo v) = ii_width info
  /\ ii_height (v_fInfo v) = ii_height info
  /\ ii_alphaType (v_fInfo v) = ii_alphaType info
  /\ ii_colorType (v_fInfo v) = ct
  /\ ii_colorSpace (v_fInfo v) = match cs with Some c => Some c | None => ii_colorSpace info end.
Proof.
  intros Hne. unfold Validator_ctor. rewrite Hne. cbv zeta.
  destruct (bool_decide (ct = ii_colorType (getInfo (fGenerator sg)))) eqn:Hc;
    [apply bool_decide_eq_true in Hc |]; destruct cs; simpl; repeat split; congruence.
Qed.

(** X2.  A validator is valid exactly when it was given a generator whose
    info is not empty, whatever the overrides.  A valid validator keeps the
    generator's width, height and alpha type; its color type is the override
    when one is given and the generator's otherwise, its color space is the
    override when it is not null and the generator's otherwise; and it
    allocates an id exactly when a color space is given or the color type
    override differs from the generator's color type. *)
Theorem Validator_ctor_result (gen : option SharedGenerator) (ct : option SkColorType)
    (cs : option SkColorSpace) (w : World) :
  let v := fst (Validator_ctor gen ct cs w) in
  let w' := snd (Validator_ctor gen ct cs w) in
  (Validator_bool v = true <->
   exists sg, gen = Some sg /\ isEmpty (getInfo (fGenerator sg)) = false)
  /\ (forall sg, gen = Some sg -> isEmpty (getInfo (fGenerator sg)) = false ->
      let info := getInfo (fGenerator sg) in
      v_fSharedGenerator v = Some sg
      /\ ii_width (v_fInfo v) = ii_width info
      /\ ii_height (v_fInfo v) = ii_height info
      /\ ii_alphaType (v_fInfo v) = ii_alphaType info
      /\ ii_colorType (v_fInfo v) = default (ii_colorType info) ct
      /\ ii_colorSpace (v_fInfo v) = match cs with Some c => Some c | None => ii_colorSpace info end
      /\ ((is_Some cs \/ exists c, ct = Some c /\ c <> ii_colorType info) ->
          v_fUniqueID v = nextImageID w /\ nextImageID w' = (nextImageID w + 1)%N)
      /\ (cs = None -> (forall c, ct = Some c -> c = ii_colorType info) ->
          v_fUniqueID v = uniqueID (fGenerator sg) /\ w' = w)).
Proof.
  intros v w'. subst v w'. unfold Validator_ctor. split.
  - destruct gen as [sg |]; simpl.
    + destruct (isEmpty (getInfo (fGenerator sg))) eqn:He; simpl.
      * split; [discriminate |]. intros (sg' & [= <-] & He'). congruence.
      * split; [intros _; eauto |]. intros _.
        destruct ct as [c |]; [destruct (bool_decide (c = _)) |];
          destruct cs; reflexivity.
    + split; [discriminate |]. intros (sg & [=] & _).
  - intros sg -> Hne. rewrite Hne. cbv zeta.
    destruct ct as [c |]; [destruct (bool_decide (c = _)) eqn:Hc |];
      destruct cs as [s |]; simpl;
      try apply bool_decide_eq_true in Hc; try apply bool_decide_eq_false in Hc;
      (split; [reflexivity |]); (split; [reflexivity |]); (split; [reflexivity |]);
      (split; [reflexivity |]); (split; [congruence |]); (split; [reflexivity |]); split.
    all: try (intros _; split; reflexivity).
    all: try (intros _ _; split; reflexivity).
    all: try (intros [=]; fail).
    + intros [[x [=]] | (c' & [= <-] & Hd)]. congruence.
    + intros _ H. exfalso. apply Hc. apply H. reflexivity.
    + intros [[x [=]] | (c' & [=] & _)].
Qed.

Lemma Validator_ctor_result_witness :
  let v := fst (Validator_ctor (Some {| fGenerator := sample_generator |})
                  (Some kGray_8_SkColorType) None empty_world) in
  Validator_bool v = true
  /\ ii_width (v_fInfo v) = 2 /\ ii_colorType (v_fInfo v) = kGray_8_SkColorType
  /\ ii_colorSpace (v_fInfo v) = Some 1%N /\ v_fUniqueID v = 4%N.
Proof.
  pose proof (Validator_ctor_result (Some {| fGenerator := sample_generator |})
                (Some kGray_8_SkColorType) None empty_world) as [Hvalid Hfields].
  cbv zeta in *.
  destruct (Hfields _ eq_refl eq_refl) as (_ & Hw & _ & _ & Hct & Hcs & Hfresh & _).
  split; [apply Hvalid; eexists; split; reflexivity |].
  split; [exact Hw |]. split; [exact Hct |]. split; [exact Hcs |].
  apply Hfresh. right. exists kGray_8_SkColorType. split; [reflexivity | discriminate].
Defined.

(** ** Recoloring starts from the generator *)

(** X3.  A recoloring that builds an image overlays the target color type
    and color space on the generator's info, not on the receiver's: the child
    has the generator's width, height and alpha type, the target color type,
    and the target color space, or the generator's color space when the
    target is null, even if the receiver itself was recolored to another
    color space. *)
Theorem recolor_overlays_generator_info (w : World) (this : nat) (self : SkImage_Lazy)
    (ct : SkColorType) (cs : option SkColorSpace) (r : nat) (w' : World) :
  images w !! this = Some self ->
  (forall m child,
      fOnMakeColorTypeAndSpaceResult self = Some m ->
      images w !! m = Some child ->
      colorOf (fInfo child) <> (ct, cs)) ->
  onMakeColorTypeAndColorSpace this ct cs w = Ret (Some r) w' ->
  exists child,
    images w' !! r = Some child
    /\ fSharedGenerator child = fSharedGenerator self
    /\ fInfo child =
         {| ii_width := ii_width (getInfo (generatorOf self));
            ii_height := ii_height (getInfo (generatorOf self));
            ii_colorType := ct;
            ii_alphaType := ii_alphaType (getInfo (generatorOf self));
            ii_colorSpace := match cs with
                             | Some c => Some c
                             | None => ii_colorSpace (getInfo (generatorOf self))
                             end |}.
Proof.
  intros Hs Hno Hcall.
  assert (Hlt : (this < length (images w))%nat) by (eapply lookup_lt_Some; eassumption).
  pose proof (memo_matches_None w self ct cs Hno) as Hm.
  destruct (isEmpty (getInfo (generatorOf self))) eqn:He.
  { rewrite (onMake_invalid w this self ct cs Hs Hm He) in Hcall. discriminate. }
  destruct (Validator_ctor_cases (fSharedGenerator self) ct cs w He)
    as (info & id & w1 & Hv & Hcases).
  assert (Hi : images w1 = images w).
  { destruct Hcases as [(_ & _ & -> & _) | (_ & -> & _)]; reflexivity. }
  rewrite (onMake_miss w this self ct cs info id w1 Hs Hm Hv Hi) in Hcall.
  injection Hcall as <- <-.
  eexists. split.
  { simpl. rewrite list_lookup_insert_ne by lia.
    rewrite lookup_app_r by lia. rewrite Nat.sub_diag. reflexivity. }
  split; [reflexivity |]. simpl.
  pose proof (Validator_ctor_info (fSharedGenerator self) ct cs w He) as Hfields.
  cbv zeta in Hfields. rewrite Hv in Hfields. simpl in Hfields.
  destruct Hfields as (Hw & Hh & Ha & Hct & Hcs).
  destruct info as [iw ih ict ia ics]. simpl in *. unfold generatorOf.
  rewrite Hw, Hh, Ha, Hct, Hcs. reflexivity.
Qed.

Example wide_gamut_world_images :
  colorOf <$> (fInfo <$> images wide_gamut_world)
    = [(kRGBA_8888_SkColorType, Some 1%N); (kBGRA_8888_SkColorType, Some 2%N)].
Proof. reflexivity. Qed.

(** The image recolored to color space 2, recolored again to Gray_8 with a
    null color space, is in the generator's color space 1. *)
Lemma recolor_overlays_generator_info_witness :
  exists r w' child,
    onMakeColorTypeAndColorSpace 1 kGray_8_SkColorType None wide_gamut_world = Ret (Some r) w'
    /\ images w' !! r = Some child
    /\ colorOf (fInfo child) = (kGray_8_SkColorType, Some 1%N).
Proof.
  assert (Hcall : exists r w',
             onMakeColorTypeAndColorSpace 1 kGray_8_SkColorType None wide_gamut_world
               = Ret (Some r) w') by (eexists _, _; reflexivity).
  destruct Hcall as (r & w' & Hcall).
  assert (Hself : exists self, images wide_gamut_world !! 1%nat = Some self
                               /\ fOnMakeColorTypeAndSpaceResult self = None
                               /\ getInfo (generatorOf self) = sample_info)
    by (eexists; repeat split).
  destruct Hself as (self & Hself & Hmemo & Hgen).
  destruct (recolor_overlays_generator_info wide_gamut_world 1 self kGray_8_SkColorType None
              r w' Hself ltac:(intros m child Hm; congruence) Hcall)
    as (child & Hchild & _ & Hinfo).
  exists r, w', child. split; [exact Hcall |]. split; [exact Hchild |].
  rewrite Hinfo, Hgen. reflexivity.
Defined.

(** ** Raster accessor: caching *)

(** X4.  After [getROPixels] succeeded with [kAllow_CachingHint], the bitmap
    is in the bitmap cache: a further call, with either hint, answers that
    same bitmap and leaves the world as it is. *)
Theorem getROPixels_allow_then_hit (w w' : World) (this : nat) (bm : SkBitmap)
    (chint : CachingHint) :
  getROPixels this kAllow_CachingHint w = Ret (Some bm) w' ->
  getROPixels this chint w' = Ret (Some bm) w'.
Proof.
  unfold getROPixels.
  destruct (images w !! this) as [self |] eqn:Hs; [| discriminate].
  assert (Hlt : (this < length (images w))%nat) by (eapply lookup_lt_Some; eassumption).
  destruct (bitmapCache w !! SkBitmapCacheDesc_Make self) as [cached |] eqn:Hfind.
  - intros [= <- <-]. rewrite Hs, Hfind. reflexivity.
  - destruct (negb (SkBitmapCache_Alloc w _ _)); [discriminate |].
    destruct (getPixels _ _) as [px |]; [| discriminate].
    intros [= <- <-]. simpl.
    rewrite list_lookup_insert_eq by exact Hlt.
    change (SkBitmapCacheDesc_Make (notifyAddedToRasterCache self))
      with (SkBitmapCacheDesc_Make self).
    rewrite lookup_insert_eq. reflexivity.
Qed.

Lemma getROPixels_allow_then_hit_witness :
  exists bm w',
    getROPixels 0 kAllow_CachingHint sample_world = Ret (Some bm) w'
    /\ getROPixels 0 kDisallow_CachingHint w' = Ret (Some bm) w'
    /\ bm_cacheOwned bm = true.
Proof.
  eexists _, _. split; [reflexivity |].
  split; [apply (getROPixels_allow_then_hit sample_world); reflexivity | reflexivity].
Defined.

(** X5.  While every bitmap in the bitmap cache is immutable, every bitmap
    [getROPixels] answers is immutable, and the cache stays that way (the
    assertion of [check_output_bitmap]). *)
Theorem getROPixels_answers_immutable (w w' : World) (this : nat) (chint : CachingHint)
    (r : option SkBitmap) :
  bitmapCache_immutable w ->
  getROPixels this chint w = Ret r w' ->
  bitmapCache_immutable w' /\ forall bm, r = Some bm -> bm_immutable bm = true.
Proof.
  intros Hinv. unfold getROPixels.
  destruct (images w !! this) as [self |]; [| discriminate].
  destruct (bitmapCache w !! SkBitmapCacheDesc_Make self) as [cached |] eqn:Hfind.
  - intros [= <- <-]. split; [exact Hinv |]. intros bm [= <-]. exact (Hinv _ _ Hfind).
  - destruct chint.
    + destruct (negb (SkBitmapCache_Alloc w _ _));
        [intros [= <- <-]; split; [exact Hinv | discriminate] |].
      destruct (getPixels _ _) as [px |];
        [| intros [= <- <-]; split; [exact Hinv | discriminate]].
      intros [= <- <-]. split; [| intros bm [= <-]; reflexivity].
      intros desc bm. simpl. rewrite lookup_insert.
      destruct (decide (SkBitmapCacheDesc_Make self = desc)); [| apply Hinv].
      intros [= <-]. reflexivity.
    + destruct (negb (tryAllocPixels w _));
        [intros [= <- <-]; split; [exact Hinv | discriminate] |].
      destruct (getPixels _ _) as [px |]; intros [= <- <-];
        (split; [exact Hinv |]); [intros bm [= <-]; reflexivity | discriminate].
Qed.

Lemma getROPixels_answers_immutable_witness :
  exists bm w',
    getROPixels 0 kAllow_CachingHint sample_world = Ret (Some bm) w'
    /\ bitmapCache_immutable w' /\ bm_immutable bm = true.
Proof.
  eexists _, _. split; [reflexivity |].
  destruct (getROPixels_answers_immutable sample_world _ 0 kAllow_CachingHint _
              ltac:(intros desc bm; cbn; rewrite lookup_empty; discriminate) eq_refl)
    as [Hinv Hbm].
  split; [exact Hinv | apply Hbm; reflexivity].
Defined.

(** X6.  A call of [getROPixels] that answers false, because an allocation
    or the decode failed, leaves the world exactly as it was: nothing is
    cached and the image is not marked as added to the raster cache, so the
    same call can be tried again. *)
Theorem getROPixels_failure_changes_nothing (w w' : World) (this : nat)
    (chint : CachingHint) :
  getROPixels this chint w = Ret None w' -> w' = w.
Proof.
  unfold getROPixels.
  destruct (images w !! this) as [self |]; [| discriminate].
  destruct (bitmapCache w !! _); [discriminate |].
  destruct chint.
  - destruct (negb (SkBitmapCache_Alloc w _ _)); [intros [= <-]; reflexivity |].
    destruct (getPixels _ _); [discriminate | intros [= <-]; reflexivity].
  - destruct (negb (tryAllocPixels w _)); [intros [= <-]; reflexivity |].
    destruct (getPixels _ _); [discriminate | intros [= <-]; reflexivity].
Qed.

Lemma getROPixels_failure_changes_nothing_witness :
  getROPixels 0 kAllow_CachingHint failing_alloc_world = Ret None failing_alloc_world.
Proof.
  assert (Hcall : exists w', getROPixels 0 kAllow_CachingHint failing_alloc_world = Ret None w')
    by (eexists; reflexivity).
  destruct Hcall as (w' & Hcall).
  rewrite Hcall. f_equal.
  exact (getROPixels_failure_changes_nothing failing_alloc_world w' 0 kAllow_CachingHint Hcall).
Defined.

Section ReadPixelsFacts.

Variable SkBitmap_readPixels : SkBitmap -> SkImageInfo -> Z -> Z -> Z -> option Bytes.

(** X7.  [onReadPixels] decodes and caches before it copies: with
    [kAllow_CachingHint], on a miss whose allocation and decode succeed, the
    decoded bitmap is in the bitmap cache afterwards whether or not the copy
    into the destination succeeds, and the answer is that of the copy.  With
    [kDisallow_CachingHint] the world is left as it was. *)
Theorem onReadPixels_caches_before_copy (w : World) (this : nat) (self : SkImage_Lazy)
    (px : Bytes) (dstInfo : SkImageInfo) (dstRB srcX srcY : Z) :
  images w !! this = Some self ->
  bitmapCache w !! SkBitmapCacheDesc_Make self = None ->
  getPixels (generatorOf self) (fInfo self) = Some px ->
  let bm cached := {| bm_info := fInfo self; bm_pixels := px; bm_immutable := true;
                      bm_cacheOwned := cached |} in
  (SkBitmapCache_Alloc w (SkBitmapCacheDesc_Make self) (fInfo self) = true ->
   exists w',
     onReadPixels SkBitmap_readPixels this dstInfo dstRB srcX srcY kAllow_CachingHint w
       = Ret (SkBitmap_readPixels (bm true) dstInfo dstRB srcX srcY) w'
     /\ bitmapCache w' !! SkBitmapCacheDesc_Make self = Some (bm true))
  /\ (tryAllocPixels w (fInfo self) = true ->
      onReadPixels SkBitmap_readPixels this dstInfo dstRB srcX srcY kDisallow_CachingHint w
        = Ret (SkBitmap_readPixels (bm false) dstInfo dstRB srcX srcY) w).
Proof.
  intros Hs Hfind Hpx bm. split; intros Halloc.
  - unfold onReadPixels, getROPixels. rewrite Hs, Hfind, Halloc, Hpx. simpl.
    eexists. split; [reflexivity |]. simpl. apply lookup_insert_eq.
  - unfold onReadPixels, getROPixels. rewrite Hs, Hfind, Halloc, Hpx. reflexivity.
Qed.

End ReadPixelsFacts.

(** With a copy that rejects every request, the read answers false and the
    image is cached all the same. *)
Lemma onReadPixels_caches_before_copy_witness :
  exists w',
    onReadPixels failing_readPixels 0 sample_info 8 5 5 kAllow_CachingHint sample_world
      = Ret None w'
    /\ is_Some (bitmapCache w' !! SkBitmapCacheDesc_Make sample_image).
Proof.
  destruct (proj1 (onReadPixels_caches_before_copy failing_readPixels sample_world 0
                     sample_image (replicate 16 255%N) sample_info 8 5 5
                     eq_refl eq_refl eq_refl) eq_refl) as (w' & Hcall & Hcached).
  exists w'. split; [exact Hcall | eexists; exact Hcached].
Defined.

(** ** Reinterpreting the color space *)

Lemma makeColorSpace_back (i : SkImageInfo) (cs : option SkColorSpace) :
  makeColorSpace (makeColorSpace i cs) (ii_colorSpace i) = i.
Proof. destruct i. reflexivity. Qed.

(** X8.  [onReinterpretColorSpace] casts and does not convert: the generator
    is asked for the pixels of the image's own info, so when the call answers
    a bitmap its pixels are those a decode of the image itself gives (the ones
    [getROPixels] answers with [kDisallow_CachingHint] on a cache miss), its
    info is the image's with only the color space replaced, and it is
    immutable; the call leaves the world as it was, the bitmap cache
    included. *)
Theorem onReinterpretColorSpace_casts (w : World) (this : nat) (self : SkImage_Lazy)
    (newCS : option SkColorSpace) :
  images w !! this = Some self ->
  exists r,
    onReinterpretColorSpace this newCS w = Ret r w
    /\ (is_Some r <->
        tryAllocPixels w (makeColorSpace (fInfo self) newCS) = true
        /\ is_Some (getPixels (generatorOf self) (fInfo self)))
    /\ forall bm,
         r = Some bm ->
         getPixels (generatorOf self) (fInfo self) = Some (bm_pixels bm)
         /\ bm_info bm = makeColorSpace (fInfo self) newCS
         /\ bm_immutable bm = true
         /\ (bitmapCache w !! SkBitmapCacheDesc_Make self = None ->
             tryAllocPixels w (fInfo self) = true ->
             exists raw,
               getROPixels this kDisallow_CachingHint w = Ret (Some raw) w
               /\ bm_pixels raw = bm_pixels bm).
Proof.
  intros Hs. unfold onReinterpretColorSpace. rewrite Hs. cbv zeta.
  unfold colorSpace. rewrite makeColorSpace_back.
  destruct (tryAllocPixels w (makeColorSpace (fInfo self) newCS)) eqn:Halloc.
  - destruct (getPixels (generatorOf self) (fInfo self)) as [px |] eqn:Hpx.
    + eexists. split; [reflexivity |]. split.
      { split; [intros _; split; [reflexivity | eauto] | intros _; eexists; reflexivity]. }
      intros bm [= <-]. simpl. repeat split.
      intros Hfind Htry. unfold getROPixels. rewrite Hs, Hfind, Htry, Hpx. simpl.
      eexists. split; reflexivity.
    + exists None. split; [reflexivity |]. split; [| intros bm [=]].
      split; [intros [x [=]] | intros [_ [x [=]]]].
  - exists None. split; [reflexivity |]. split; [| intros bm [=]].
    split; [intros [x [=]] | intros [[=] _]].
Qed.

Lemma onReinterpretColorSpace_casts_witness :
  exists bm raw,
    onReinterpretColorSpace 0 (Some 9%N) sample_world = Ret (Some bm) sample_world
    /\ getROPixels 0 kDisallow_CachingHint sample_world = Ret (Some raw) sample_world
    /\ bm_pixels raw = bm_pixels bm
    /\ ii_colorSpace (bm_info bm) = Some 9%N.
Proof.
  destruct (onReinterpretColorSpace_casts sample_world 0 sample_image (Some 9%N) eq_refl)
    as (r & Hcall & Hsucc & Hbm).
  destruct (proj2 Hsucc ltac:(split; [reflexivity | eexists; reflexivity])) as [bm ->].
  destruct (Hbm bm eq_refl) as (_ & Hinfo & _ & Hraw).
  destruct (Hraw eq_refl eq_refl) as (raw & Hget & Hsame).
  exists bm, raw. split; [exact Hcall |]. split; [exact Hget |]. split; [exact Hsame |].
  rewrite Hinfo. reflexivity.
Defined.

(** ** YUV planes: failure and bounds *)

(** What [getPlanes] leaves alone. *)
Lemma getPlanes_frame (w w' : World) (this : nat) (r : option Planes) :
  getPlanes this w = Ret r w' ->
  (r = None -> w' = w)
  /\ images w' = images w /\ nextImageID w' = nextImageID w
  /\ bitmapCache w' = bitmapCache w /\ proxies w' = proxies w
  /\ fUniquelyKeyedProxies w' = fUniquelyKeyedProxies w
  /\ histogram w' = histogram w.
Proof.
  intros Hcall.
  destruct (images w !! this) as [self |] eqn:Hs;
    [| unfold getPlanes in Hcall; rewrite Hs in Hcall; discriminate].
  destruct (getPlanes_returns w w' this self r Hs Hcall)
    as [-> | (_ & pl & yuvInfo & -> & _ & ->)].
  - repeat split.
  - split; [discriminate |]. repeat split.
Qed.

(** X9.  [getPlanes] writes nothing but the YUV planes cache, and a call
    that answers null (the generator has no planes, or the decode failed)
    leaves the world exactly as it was: a failed decode is not cached. *)
Theorem getPlanes_failure_changes_nothing (w w' : World) (this : nat) (r : option Planes) :
  getPlanes this w = Ret r w' ->
  (r = None -> w' = w)
  /\ images w' = images w /\ nextImageID w' = nextImageID w
  /\ bitmapCache w' = bitmapCache w /\ proxies w' = proxies w
  /\ fUniquelyKeyedProxies w' = fUniquelyKeyedProxies w
  /\ histogram w' = histogram w.
Proof.
  intros Hcall.
  destruct (images w !! this) as [self |] eqn:Hs;
    [| unfold getPlanes in Hcall; rewrite Hs in Hcall; discriminate].
  destruct (getPlanes_returns w w' this self r Hs Hcall)
    as [-> | (_ & pl & yuvInfo & -> & _ & ->)].
  - repeat split.
  - split; [discriminate |]. repeat split.
Qed.

Lemma getPlanes_failure_changes_nothing_witness :
  getPlanes 0 native_world = Ret None native_world.
Proof.
  assert (Hcall : exists w', getPlanes 0 native_world = Ret None w')
    by (eexists; reflexivity).
  destruct Hcall as (w' & Hcall). rewrite Hcall. f_equal.
  exact (proj1 (getPlanes_failure_changes_nothing native_world w' 0 None Hcall) eq_refl).
Defined.

(** The size of the buffer, in the integers modulo 2^64. *)
Lemma totalSize_sum (yuvInfo : YUVInfo) :
  totalSize yuvInfo = to_size_t (offset_of_plane (fSizeInfo yuvInfo) kMaxCount).
Proof.
  unfold totalSize. simpl.
  change (size_t_add 0) with (ptr_add 0).
  repeat match goal with
         | |- context [size_t_add ?a ?b] => change (size_t_add a b) with (ptr_add a b)
         end.
  rewrite (ptr_add_first 0). rewrite !(ptr_add_step 0). reflexivity.
Qed.

(** X10.  When the sizes are not negative and the planes fit in the address
    space behind the data, the buffer [getPlanes] asks for has exactly the
    size of all planes together, and every non-empty plane whose predecessors
    are non-empty lies inside the buffer and ends before any later such plane
    starts: the planes handed to the generator do not overlap and do not
    leave the allocation. *)
Theorem planes_inside_buffer (base : Z) (yuvInfo : YUVInfo) (i : nat) :
  let si := fSizeInfo yuvInfo in
  let planes := planes_on_miss base yuvInfo in
  (i < kMaxCount)%nat ->
  0 <= base ->
  (forall j, 0 <= widthBytes si j /\ 0 <= heightAt si j) ->
  base + offset_of_plane si kMaxCount < size_t_modulus ->
  widthBytes si i <> 0 ->
  packed_below si i ->
  totalSize yuvInfo = offset_of_plane si kMaxCount
  /\ base <= plane planes i
  /\ plane planes i + widthBytes si i * heightAt si i <= base + totalSize yuvInfo
  /\ forall k, (i < k < kMaxCount)%nat -> widthBytes si k <> 0 -> packed_below si k ->
       plane planes i + widthBytes si i * heightAt si i <= plane planes k.
Proof.
  intros si planes Hi Hbase Hpos Hfit Hne Hpacked.
  pose proof (offset_of_plane_nonneg si kMaxCount Hpos) as Htot0.
  assert (Htotal : totalSize yuvInfo = offset_of_plane si kMaxCount).
  { rewrite totalSize_sum. unfold to_size_t. apply Z.mod_small. fold si. lia. }
  assert (Hat : forall k, (k < kMaxCount)%nat -> widthBytes si k <> 0 -> packed_below si k ->
                  plane planes k = base + offset_of_plane si k).
  { intros k Hk Hnek Hpk. unfold planes.
    change base with (cd_data {| cd_data := base; cd_size := 0; cd_bytes := [] |}) at 1.
    rewrite planes_on_miss_on_hit.
    destruct k as [| k].
    - rewrite planes_on_hit_unfold. unfold plane. simpl. lia.
    - rewrite planes_on_hit_layout by (assumption || lia). simpl cd_data.
      apply ptr_add_exact; [exact Hbase | apply offset_of_plane_nonneg; exact Hpos |].
      pose proof (offset_of_plane_mono si (S k) kMaxCount Hpos ltac:(lia)). lia. }
  split; [exact Htotal |]. rewrite (Hat i Hi Hne Hpacked), Htotal.
  pose proof (offset_of_plane_nonneg si i Hpos) as Hoff.
  split; [lia |].
  assert (Hnext : offset_of_plane si i + widthBytes si i * heightAt si i
                  = offset_of_plane si (S i)) by reflexivity.
  split.
  - pose proof (offset_of_plane_mono si (S i) kMaxCount Hpos ltac:(lia)). lia.
  - intros k Hk Hnek Hpk. rewrite (Hat k ltac:(lia) Hnek Hpk).
    pose proof (offset_of_plane_mono si (S i) k Hpos ltac:(lia)). lia.
Qed.

(** The sample planes at 4096: Y occupies 4096..4099, U follows at 4100, and
    the buffer has 6 bytes. *)
Lemma planes_inside_buffer_witness :
  let planes := planes_on_miss 4096 sample_yuv in
  totalSize sample_yuv = 6
  /\ 4096 <= plane planes 0
  /\ plane planes 0 + 4 <= plane planes 1
  /\ plane planes 1 + 1 <= 4096 + totalSize sample_yuv.
Proof.
  assert (Hpos : forall j, 0 <= widthBytes (fSizeInfo sample_yuv) j
                           /\ 0 <= heightAt (fSizeInfo sample_yuv) j).
  { intros j. unfold widthBytes, heightAt, sizeAt.
    do 4 (destruct j as [| j]; [simpl; lia |]). simpl. destruct j; simpl; lia. }
  destruct (planes_inside_buffer 4096 sample_yuv 0 ltac:(cbv; lia) ltac:(lia) Hpos
              ltac:(reflexivity) ltac:(cbn; discriminate) ltac:(intros j ?; lia))
    as (Htotal & Hlow & _ & Hbefore).
  destruct (planes_inside_buffer 4096 sample_yuv 1 ltac:(cbv; lia) ltac:(lia) Hpos
              ltac:(reflexivity) ltac:(cbn; discriminate) ltac:(intros j ?; lia))
    as (_ & _ & Hhigh & _).
  cbv zeta. split; [exact Htotal |]. split; [exact Hlow |].
  split; [| exact Hhigh].
  exact (Hbefore 1%nat ltac:(cbv; lia) ltac:(cbn; discriminate) ltac:(intros j ?; lia)).
Defined.

(** ** Textures: frames *)

Lemma identities_kept_refl (l : list SkImage_Lazy) : identities_kept l l.
Proof. split; [reflexivity |]. intros a img H. exists img. repeat split; assumption. Qed.

Lemma identities_kept_trans (l1 l2 l3 : list SkImage_Lazy) :
  identities_kept l1 l2 -> identities_kept l2 l3 -> identities_kept l1 l3.
Proof.
  intros [Hl12 H12] [Hl23 H23]. split; [congruence |].
  intros a img Ha. destruct (H12 a img Ha) as (img2 & Ha2 & I1 & I2 & I3 & I4).
  destruct (H23 a img2 Ha2) as (img3 & Ha3 & J1 & J2 & J3 & J4).
  exists img3. split; [assumption |]. repeat split; congruence.
Qed.

Lemma identities_kept_alter (l : list SkImage_Lazy) (this : nat)
    (f : SkImage_Lazy -> SkImage_Lazy) :
  (forall img, same_identity img (f img)) -> identities_kept l (alter f this l).
Proof.
  intros Hf. split; [apply length_alter |].
  intros a img Ha. destruct (decide (this = a)) as [-> | Hne].
  - exists (f img). rewrite list_lookup_alter_eq, Ha. split; [reflexivity | apply Hf].
  - exists img. rewrite list_lookup_alter_ne by exact Hne.
    split; [assumption |]. repeat split.
Qed.

Lemma identities_kept_insert (l : list SkImage_Lazy) (this : nat) (self self' : SkImage_Lazy) :
  l !! this = Some self -> same_identity self self' ->
  identities_kept l (<[this := self']> l).
Proof.
  intros Hs Hsame. split; [apply length_insert |].
  intros a img Ha. destruct (decide (this = a)) as [-> | Hne].
  - exists self'. rewrite list_lookup_insert_eq by (eapply lookup_lt_Some; eassumption).
    split; [reflexivity |]. congruence.
  - exists img. rewrite list_lookup_insert_ne by exact Hne.
    split; [assumption |]. repeat split.
Qed.

Lemma only_textures_created_refl (w : World) : only_textures_created w w.
Proof. repeat split. exists []. symmetry. apply app_nil_r. Qed.

Lemma only_textures_created_trans (w1 w2 w3 : World) :
  only_textures_created w1 w2 -> only_textures_created w2 w3 ->
  only_textures_created w1 w3.
Proof.
  intros (A1 & A2 & A3 & A4 & l1 & A5) (B1 & B2 & B3 & B4 & l2 & B5).
  repeat split; try congruence. exists (l1 ++ l2). rewrite B5, A5, app_assoc. reflexivity.
Qed.

(** What [getROPixels] leaves alone. *)
Lemma getROPixels_frame (w w' : World) (this : nat) (chint : CachingHint)
    (r : option SkBitmap) :
  getROPixels this chint w = Ret r w' ->
  nextImageID w' = nextImageID w
  /\ identities_kept (images w) (images w')
  /\ proxies w' = proxies w
  /\ fUniquelyKeyedProxies w' = fUniquelyKeyedProxies w
  /\ (chint = kDisallow_CachingHint -> w' = w).
Proof.
  unfold getROPixels.
  destruct (images w !! this) as [self |] eqn:Hs; [| discriminate].
  assert (Hsame : forall w0, w0 = w ->
            nextImageID w0 = nextImageID w /\ identities_kept (images w) (images w0)
            /\ proxies w0 = proxies w
            /\ fUniquelyKeyedProxies w0 = fUniquelyKeyedProxies w
            /\ (chint = kDisallow_CachingHint -> w0 = w)).
  { intros w0 ->. repeat split; try apply identities_kept_refl. }
  destruct (bitmapCache w !! _); [intros [= _ <-]; apply Hsame; reflexivity |].
  destruct chint.
  - destruct (negb (SkBitmapCache_Alloc w _ _)); [intros [= _ <-]; apply Hsame; reflexivity |].
    destruct (getPixels _ _); [| intros [= _ <-]; apply Hsame; reflexivity].
    intros [= _ <-]. simpl. split; [reflexivity |].
    split; [apply (identities_kept_insert _ _ self); [assumption | repeat split] |].
    repeat split. discriminate.
  - destruct (negb (tryAllocPixels w _)); [intros [= _ <-]; apply Hsame; reflexivity |].
    destruct (getPixels _ _); intros [= _ <-]; apply Hsame; reflexivity.
Qed.

(** The plane uploads create one proxy per non-empty plane and touch nothing
    else. *)
Lemma upload_planes_creates (ctx : GrRecordingContext) (pl : Planes) (n : nat) :
  forall (i : nat) (views : list (option GrSurfaceProxyView)) (w w' : World)
         (r : option (list (option GrSurfaceProxyView))),
    upload_planes ctx pl n i views w = (r, w') ->
    yuvPlanesCache w' = yuvPlanesCache w
    /\ histogram w' = histogram w
    /\ nextImageID w' = nextImageID w /\ images w' = images w
    /\ bitmapCache w' = bitmapCache w
    /\ fUniquelyKeyedProxies w' = fUniquelyKeyedProxies w
    /\ exists created,
         proxies w' = proxies w ++ created
         /\ (is_Some r ->
             length created = length (nonempty_planes (p_yuvaSizeInfo pl) i n)).
Proof.
  induction n as [| n IH]; intros i views w w' r; simpl.
  - intros [= <- <-]. repeat split. exists []. rewrite app_nil_r. auto.
  - unfold nonempty_planes. simpl seq.
    destruct (SkISize_isEmpty (sizeAt (p_yuvaSizeInfo pl) i)) eqn:He.
    + rewrite filter_cons_False by (rewrite He; discriminate). apply IH.
    + rewrite filter_cons_True by exact He.
      destruct (GrBitmapTextureMaker_view _ _ _ _) as [nt |].
      * unfold view_of_NewTexture, new_proxy. intros Hrun.
        apply IH in Hrun as (H1 & H2 & H3 & H4 & H5 & H6 & created & Hp & Hlen).
        simpl in *. repeat split; try assumption.
        eexists (_ :: created). rewrite Hp, <- app_assoc. split; [reflexivity |].
        intros Hr. simpl. rewrite (Hlen Hr). reflexivity.
      * intros [= <- <-]. repeat split. exists []. rewrite app_nil_r.
        split; [reflexivity |]. intros [x [=]].
Qed.

Lemma installKey_frame_world (this : nat) (ctx : GrRecordingContext)
    (key : option GrUniqueKey) (view : GrSurfaceProxyView) (w : World) :
  nextImageID (installKey this ctx key view w) = nextImageID w
  /\ identities_kept (images w) (images (installKey this ctx key view w))
  /\ length (proxies (installKey this ctx key view w)) = length (proxies w)
  /\ (key = None -> installKey this ctx key view w = w).
Proof.
  destruct key as [k |]; simpl.
  - split; [reflexivity |]. split; [| split; [apply length_alter | discriminate]].
    apply identities_kept_alter. intros img. repeat split.
  - repeat split. apply identities_kept_refl.
Qed.

(** Installing a key on a view of an existing proxy binds the key to it. *)
Lemma installKey_binds (this : nat) (ctx : GrRecordingContext) (k : GrUniqueKey)
    (view : GrSurfaceProxyView) (w : World) (tp : GrTextureProxy) :
  proxies w !! v_proxy view = Some tp ->
  findOrCreateProxyByUniqueKey k (installKey this ctx (Some k) view w)
    = Some (v_proxy view, set_uniqueKey (Some k) tp).
Proof.
  intros Hp. unfold findOrCreateProxyByUniqueKey. simpl.
  rewrite lookup_insert_eq, list_lookup_alter_eq, Hp. reflexivity.
Qed.

Lemma find_after_histogram (k : GrUniqueKey) (sample : LockTexturePath) (w : World) :
  findOrCreateProxyByUniqueKey k (SK_HISTOGRAM_ENUMERATION sample w)
    = findOrCreateProxyByUniqueKey k w.
Proof. reflexivity. Qed.

Section PlanarFacts.

Variable SkColorTypeToGrColorType : SkColorType -> GrColorType.

(** What a returning [textureProxyViewFromPlanes] left alone, and that a
    view it answers is of an existing proxy. *)
Lemma textureProxyViewFromPlanes_returns (w w' : World) (this : nat) (self : SkImage_Lazy)
    (ctx : GrRecordingContext) (budgeted : SkBudgeted) (r : option GrSurfaceProxyView) :
  images w !! this = Some self ->
  textureProxyViewFromPlanes SkColorTypeToGrColorType this ctx budgeted w = Ret r w' ->
  histogram w' = histogram w
  /\ only_textures_created w w'
  /\ forall view, r = Some view -> is_Some (proxies w' !! v_proxy view).
Proof.
  intros Hs. unfold textureProxyViewFromPlanes. rewrite Hs.
  destruct (getPlanes this w) as [[pl |] w1 |] eqn:Hplanes; [| | discriminate].
  2:{ intros [= <- <-].
      destruct (getPlanes_frame _ _ _ _ Hplanes) as (Hw & _).
      rewrite (Hw eq_refl). split; [reflexivity |].
      split; [apply only_textures_created_refl | discriminate]. }
  destruct (getPlanes_frame _ _ _ _ Hplanes) as (_ & G1 & G2 & G3 & G4 & G5 & G6).
  destruct (upload_planes ctx pl kMaxCount 0 (replicate kMaxCount None) w1)
    as [uploaded w2] eqn:Hup.
  apply upload_planes_creates in Hup as (_ & U2 & U3 & U4 & U5 & U6 & created & Up & _).
  assert (Hbase : only_textures_created w w2).
  { repeat split; try congruence. exists created. congruence. }
  destruct uploaded as [yuvViews |];
    [| intros [= <- <-]; split; [congruence | split; [exact Hbase | discriminate]]].
  destruct (GrRenderTargetContext_Make _ _ _ _) as [format |];
    [| intros [= <- <-]; split; [congruence | split; [exact Hbase | discriminate]]].
  intros [= <- <-]. simpl. split; [congruence |]. split.
  { apply (only_textures_created_trans w w2); [exact Hbase |].
    repeat split. eexists. reflexivity. }
  intros view [= <-]. simpl.
  rewrite lookup_app_r by lia. rewrite Nat.sub_diag. eexists. reflexivity.
Qed.

(** X11.  When [textureProxyViewFromPlanes] answers a view, it created one
    texture per non-empty plane and one render target, the last proxy, which
    the view refers to with a top-left origin: it is not mipmapped, has the
    image's dimensions, carries no key, and holds the YUV draw whose color
    conversion goes from the generator's color space to the image's.  The
    call records no sample and leaves ids, images, the bitmap cache and the
    key table as they were, whatever it answers. *)
Theorem textureProxyViewFromPlanes_result (w w' : World) (this : nat) (self : SkImage_Lazy)
    (ctx : GrRecordingContext) (budgeted : SkBudgeted) (r : option GrSurfaceProxyView) :
  images w !! this = Some self ->
  textureProxyViewFromPlanes SkColorTypeToGrColorType this ctx budgeted w = Ret r w' ->
  histogram w' = histogram w
  /\ only_textures_created w w'
  /\ forall view, r = Some view ->
       exists pl w1 rt,
         getPlanes this w = Ret (Some pl) w1
         /\ length (proxies w')
              = (length (proxies w)
                 + length (nonempty_planes (p_yuvaSizeInfo pl) 0 kMaxCount) + 1)%nat
         /\ v_proxy view = (length (proxies w') - 1)%nat
         /\ proxies w' !! v_proxy view = Some rt
         /\ v_origin view = kTopLeft_GrSurfaceOrigin
         /\ tp_mipmapped rt = GrMipmapped_kNo
         /\ tp_dimensions rt = dimensions self
         /\ tp_uniqueKey rt = None
         /\ exists views,
              tp_contents rt =
                FromYUVDraw views (p_yuvaIndices pl) (p_yuvColorSpace pl)
                  (ii_colorSpace (getInfo (generatorOf self))) (colorSpace self)
                  (sizeAt (p_yuvaSizeInfo pl) 0) (fOrigin (p_yuvaSizeInfo pl)).
Proof.
  intros Hs. unfold textureProxyViewFromPlanes. rewrite Hs.
  destruct (getPlanes this w) as [[pl |] w1 |] eqn:Hplanes; [| | discriminate].
  2:{ intros [= <- <-].
      destruct (getPlanes_frame _ _ _ _ Hplanes) as (Hw & _).
      rewrite (Hw eq_refl). split; [reflexivity |].
      split; [apply only_textures_created_refl | discriminate]. }
  destruct (getPlanes_frame _ _ _ _ Hplanes)
    as (_ & G1 & G2 & G3 & G4 & G5 & G6).
  destruct (upload_planes ctx pl kMaxCount 0 (replicate kMaxCount None) w1)
    as [uploaded w2] eqn:Hup.
  apply upload_planes_creates in Hup
    as (_ & U2 & U3 & U4 & U5 & U6 & created & Up & Ulen).
  assert (Hbase : only_textures_created w w2).
  { repeat split; try congruence. exists created. congruence. }
  destruct uploaded as [yuvViews |];
    [| intros [= <- <-]; split; [congruence | split; [exact Hbase | discriminate]]].
  destruct (GrRenderTargetContext_Make _ _ _ _) as [format |];
    [| intros [= <- <-]; split; [congruence | split; [exact Hbase | discriminate]]].
  intros [= <- <-]. simpl. split; [congruence |]. split.
  { apply (only_textures_created_trans w w2); [exact Hbase |].
    repeat split. eexists. reflexivity. }
  intros view [= <-]. simpl.
  exists pl, w1. eexists. split; [reflexivity |].
  assert (Hlen : length (proxies w2)
                 = (length (proxies w)
                    + length (nonempty_planes (p_yuvaSizeInfo pl) 0 kMaxCount))%nat).
  { rewrite Up, length_app, (Ulen ltac:(eauto)), G4. reflexivity. }
  rewrite length_app. simpl.
  split; [lia |]. split; [lia |].
  split; [rewrite lookup_app_r by lia; rewrite Nat.sub_diag; reflexivity |].
  repeat split. eexists. reflexivity.
Qed.


End PlanarFacts.

(** On the sample image: three planes and the render target make four
    proxies, and the view is of the fourth. *)
Lemma textureProxyViewFromPlanes_result_witness :
  exists view w',
    textureProxyViewFromPlanes sample_SkColorTypeToGrColorType 0 sample_ctx SkBudgeted_kYes
      sample_world = Ret (Some view) w'
    /\ length (proxies w') = 4%nat /\ v_proxy view = 3%nat
    /\ fUniquelyKeyedProxies w' = fUniquelyKeyedProxies sample_world.
Proof.
  assert (Hcall : exists view w',
             textureProxyViewFromPlanes sample_SkColorTypeToGrColorType 0 sample_ctx
               SkBudgeted_kYes sample_world = Ret (Some view) w')
    by (eexists _, _; reflexivity).
  destruct Hcall as (view & w' & Hcall).
  destruct (textureProxyViewFromPlanes_result sample_SkColorTypeToGrColorType sample_world w'
              0 sample_image sample_ctx SkBudgeted_kYes (Some view) eq_refl Hcall)
    as (_ & (_ & _ & _ & Hkeys & _) & Hview).
  destruct (Hview view eq_refl) as (pl & w1 & rt & Hplanes & Hlen & Hlast & _).
  assert (Hsizes : p_yuvaSizeInfo pl = fSizeInfo sample_yuv).
  { revert Hplanes. unfold getPlanes. cbn. intros [= <- _]. reflexivity. }
  rewrite Hsizes in Hlen.
  assert (Hfour : length (proxies w') = 4%nat) by exact Hlen.
  exists view, w'. split; [exact Hcall |]. split; [exact Hfour |].
  split; [rewrite Hlast, Hfour; reflexivity | exact Hkeys].
Defined.

(** ** Textures: what a returning cascade did *)

Lemma find_Some (k : GrUniqueKey) (w : World) (p : nat) (proxy : GrTextureProxy) :
  findOrCreateProxyByUniqueKey k w = Some (p, proxy) ->
  fUniquelyKeyedProxies w !! k = Some p /\ proxies w !! p = Some proxy.
Proof.
  unfold findOrCreateProxyByUniqueKey.
  destruct (fUniquelyKeyedProxies w !! k) as [q |]; [| discriminate].
  destruct (proxies w !! q) as [tp |] eqn:Hq; [| discriminate].
  intros [= <- <-]. auto.
Qed.

(** A collaborator's texture, viewed and keyed. *)
Lemma view_of_NewTexture_creates (nt : NewTexture) (c : TextureContents) (w : World) :
  let view := fst (view_of_NewTexture nt c w) in
  let w' := snd (view_of_NewTexture nt c w) in
  only_textures_created w w'
  /\ histogram w' = histogram w
  /\ proxies w' !! v_proxy view = Some (proxy_of_NewTexture nt c).
Proof.
  unfold view_of_NewTexture, new_proxy. simpl. split; [| split; [reflexivity |]].
  - repeat split. eexists. reflexivity.
  - rewrite lookup_app_r by lia. rewrite Nat.sub_diag. reflexivity.
Qed.

Lemma lockTexture_stage4_returns (w w' : World) (this : nat) (self : SkImage_Lazy)
    (ctx : GrRecordingContext) (texGenPolicy : GrImageTexGenPolicy)
    (mipMapped : GrMipmapped) (key : option GrUniqueKey)
    (view : option GrSurfaceProxyView) :
  images w !! this = Some self ->
  lockTexture_stage4 this ctx texGenPolicy mipMapped key w = Ret view w' ->
  nextImageID w' = nextImageID w
  /\ identities_kept (images w) (images w')
  /\ (texGenPolicy <> kDraw -> key = None -> only_textures_created w w')
  /\ (forall k v, key = Some k -> view = Some v ->
        exists proxy, findOrCreateProxyByUniqueKey k w' = Some (v_proxy v, proxy)).
Proof.
  intros Hs. unfold lockTexture_stage4.
  destruct (getROPixels this _ w) as [r w1 |] eqn:Hpix; [| discriminate].
  destruct (getROPixels_frame _ _ _ _ _ Hpix) as (R1 & R2 & R3 & R4 & R5).
  assert (Hdis : texGenPolicy <> kDraw -> w1 = w).
  { intros Hne. apply R5. rewrite bool_decide_eq_false_2 by exact Hne. reflexivity. }
  assert (Hfail : forall w0, w0 = SK_HISTOGRAM_ENUMERATION kFailure_LockTexturePath w1 ->
            nextImageID w0 = nextImageID w
            /\ identities_kept (images w) (images w0)
            /\ (texGenPolicy <> kDraw -> key = None -> only_textures_created w w0)
            /\ (forall k v, key = Some k -> (None : option GrSurfaceProxyView) = Some v ->
                  exists proxy, findOrCreateProxyByUniqueKey k w0 = Some (v_proxy v, proxy))).
  { intros w0 ->. simpl. split; [exact R1 |]. split; [exact R2 |].
    split; [| intros k v _ [=]].
    intros Hne _. rewrite (Hdis Hne). repeat split. exists []. symmetry. apply app_nil_r. }
  destruct r as [bitmap |]; [| intros [= <- <-]; apply Hfail; reflexivity].
  destruct (GrBitmapTextureMaker_view ctx bitmap _ mipMapped) as [nt |];
    [| intros [= <- <-]; apply Hfail; reflexivity].
  pose proof (view_of_NewTexture_creates nt (FromBitmap bitmap) w1) as Hnew.
  destruct (view_of_NewTexture nt (FromBitmap bitmap) w1) as [v w2]. simpl in Hnew.
  destruct Hnew as ((N1 & N2 & N3 & N4 & created & N5) & _ & Hp).
  intros [= <- <-].
  destruct (installKey_frame_world this ctx key v w2) as (I1 & I2 & _ & I4).
  simpl. split; [congruence |]. split.
  { apply (identities_kept_trans _ (images w1)); [exact R2 |].
    rewrite <- N2. exact I2. }
  split.
  - intros Hne ->. rewrite (I4 eq_refl). rewrite <- (Hdis Hne).
    repeat split; try assumption. exists created. exact N5.
  - intros k v' -> [= <-]. eexists. apply installKey_binds. exact Hp.
Qed.

Section CascadeFacts.

Variable SkColorTypeToGrColorType : SkColorType -> GrColorType.

Lemma lockTexture_stage3_returns (w w' : World) (this : nat) (self : SkImage_Lazy)
    (ctx : GrRecordingContext) (texGenPolicy : GrImageTexGenPolicy)
    (mipMapped : GrMipmapped) (key : option GrUniqueKey)
    (view : option GrSurfaceProxyView) :
  images w !! this = Some self ->
  lockTexture_stage3 SkColorTypeToGrColorType this ctx texGenPolicy mipMapped key w
    = Ret view w' ->
  nextImageID w' = nextImageID w
  /\ identities_kept (images w) (images w')
  /\ (texGenPolicy <> kDraw -> key = None -> only_textures_created w w')
  /\ (forall k v, key = Some k -> view = Some v ->
        exists proxy, findOrCreateProxyByUniqueKey k w' = Some (v_proxy v, proxy)).
Proof.
  intros Hs. unfold lockTexture_stage3.
  destruct (bool_decide (mipMapped = GrMipmapped_kNo) && negb (fDisableGpuYUVConversion ctx));
    [| apply (lockTexture_stage4_returns w w' this self); exact Hs].
  destruct (textureProxyViewFromPlanes _ this ctx _ w) as [r w1 |] eqn:Hyuv; [| discriminate].
  destruct (textureProxyViewFromPlanes_returns SkColorTypeToGrColorType w w1 this self ctx _ r
              Hs Hyuv) as (_ & Hcreated & Hview).
  pose proof Hcreated as (C1 & C2 & C3 & C4 & created & C5).
  destruct r as [v |].
  - intros [= <- <-].
    destruct (Hview v eq_refl) as (rt & Hp).
    destruct (installKey_frame_world this ctx key v
                (SK_HISTOGRAM_ENUMERATION kYUV_LockTexturePath w1)) as (I1 & I2 & _ & I4).
    split; [simpl in I1; congruence |]. split.
    { simpl in I2. rewrite C2 in I2. exact I2. }
    split.
    + intros _ ->. rewrite (I4 eq_refl). simpl. exact Hcreated.
    + intros k v' -> [= <-]. eexists. apply installKey_binds. exact Hp.
  - intros Hstage4.
    assert (Hs1 : images w1 !! this = Some self) by (rewrite C2; exact Hs).
    destruct (lockTexture_stage4_returns w1 w' this self ctx texGenPolicy mipMapped key view
                Hs1 Hstage4) as (S1 & S2 & S3 & S4).
    split; [congruence |]. split; [rewrite <- C2; exact S2 |].
    split; [| exact S4].
    intros Hne Hkey. apply (only_textures_created_trans w w1); [exact Hcreated |].
    exact (S3 Hne Hkey).
Qed.

Lemma lockTexture_stage2_returns (w w' : World) (this : nat) (self : SkImage_Lazy)
    (ctx : GrRecordingContext) (texGenPolicy : GrImageTexGenPolicy)
    (mipMapped : GrMipmapped) (key : option GrUniqueKey)
    (view : option GrSurfaceProxyView) :
  images w !! this = Some self ->
  lockTexture_stage2 SkColorTypeToGrColorType this self ctx texGenPolicy mipMapped key w
    = Ret view w' ->
  nextImageID w' = nextImageID w
  /\ identities_kept (images w) (images w')
  /\ (texGenPolicy <> kDraw -> key = None -> only_textures_created w w')
  /\ (forall k v, key = Some k -> view = Some v ->
        exists proxy, findOrCreateProxyByUniqueKey k w' = Some (v_proxy v, proxy)).
Proof.
  intros Hs. unfold lockTexture_stage2.
  destruct (generateTexture _ _ _ _ _) as [nt |];
    [| apply (lockTexture_stage3_returns w w' this self); exact Hs].
  pose proof (view_of_NewTexture_creates nt FromGenerator w) as Hnew.
  destruct (view_of_NewTexture nt FromGenerator w) as [v w1]. simpl in Hnew.
  destruct Hnew as (Hcreated & _ & Hp).
  pose proof Hcreated as (C1 & C2 & C3 & C4 & created & C5).
  intros [= <- <-].
  destruct (installKey_frame_world this ctx key v
              (SK_HISTOGRAM_ENUMERATION kNative_LockTexturePath w1)) as (I1 & I2 & _ & I4).
  split; [simpl in I1; congruence |]. split.
  { simpl in I2. rewrite C2 in I2. exact I2. }
  split.
  - intros _ ->. rewrite (I4 eq_refl). simpl. exact Hcreated.
  - intros k v' -> [= <-]. eexists. apply installKey_binds. exact Hp.
Qed.

(** Every returning call of the cascade: ids and image identities are kept;
    without a key only textures are created; with the key of a draw, a view
    answered is of the proxy the key is bound to afterwards. *)
Lemma lockTextureProxyView_returns (w w' : World) (this : nat) (self : SkImage_Lazy)
    (ctx : GrRecordingContext) (texGenPolicy : GrImageTexGenPolicy)
    (mipMapped : GrMipmapped) (view : option GrSurfaceProxyView) :
  images w !! this = Some self ->
  lockTextureProxyView SkColorTypeToGrColorType this ctx texGenPolicy mipMapped w
    = Ret view w' ->
  nextImageID w' = nextImageID w
  /\ identities_kept (images w) (images w')
  /\ (texGenPolicy <> kDraw -> only_textures_created w w')
  /\ (texGenPolicy = kDraw -> forall v, view = Some v ->
        exists proxy,
          findOrCreateProxyByUniqueKey (textureKey self) w' = Some (v_proxy v, proxy)).
Proof.
  intros Hs. unfold lockTextureProxyView. rewrite Hs.
  destruct (decide (texGenPolicy = kDraw)) as [-> | Hne].
  - rewrite (bool_decide_eq_true_2 (kDraw = kDraw) eq_refl). cbn [mbind option_bind].
    fold (textureKey self).
    destruct (findOrCreateProxyByUniqueKey (textureKey self) w) as [[p proxy] |] eqn:Hfind.
    + destruct (find_Some _ _ _ _ Hfind) as [Hk Hp].
      assert (Hlt : (p < length (proxies w))%nat) by (eapply lookup_lt_Some; eassumption).
      assert (Hsame : forall w0 v,
                w0 = SK_HISTOGRAM_ENUMERATION kPreExisting_LockTexturePath w ->
                v_proxy v = p ->
                nextImageID w0 = nextImageID w
                /\ identities_kept (images w) (images w0)
                /\ (kDraw <> kDraw -> only_textures_created w w0)
                /\ (kDraw = kDraw -> forall v', Some v = Some v' ->
                      exists proxy',
                        findOrCreateProxyByUniqueKey (textureKey self) w0
                          = Some (v_proxy v', proxy'))).
      { intros w0 v -> Hv. split; [reflexivity |].
        split; [apply identities_kept_refl |]. split; [congruence |].
        intros _ v' [= <-]. exists proxy. rewrite Hv. exact Hfind. }
      destruct (bool_decide (mipMapped = GrMipmapped_kNo)
                || bool_decide (tp_mipmapped proxy = GrMipmapped_kYes));
        [intros [= <- <-]; apply Hsame; reflexivity |].
      unfold GrCopyBaseMipMapToView. simpl. rewrite Hp.
      destruct (GrCopyBaseMipMap_succeeds ctx proxy);
        [| intros [= <- <-]; apply Hsame; reflexivity].
      simpl. intros [= <- <-].
      set (w2 := set_proxies _ _).
      set (mipped := {| v_proxy := length (proxies w) |}).
      destruct (installKey_frame_world this ctx (Some (textureKey self)) mipped
                  (removeUniqueKeyFromProxy p w2)) as (I1 & I2 & _ & _).
      destruct (removeUniqueKeyFromProxy_frame p w2) as [_ Himgs].
      assert (Hnext : nextImageID (removeUniqueKeyFromProxy p w2) = nextImageID w).
      { unfold removeUniqueKeyFromProxy. destruct (proxies w2 !! p) as [tp |]; [| reflexivity].
        destruct (tp_uniqueKey tp); reflexivity. }
      split; [exact (eq_trans I1 Hnext) |]. split; [rewrite Himgs in I2; exact I2 |].
      split; [intros Habs; exfalso; apply Habs; reflexivity |]. intros _ v' [= <-].
      assert (Hnew : exists tp, proxies (removeUniqueKeyFromProxy p w2)
                                  !! length (proxies w) = Some tp).
      { unfold removeUniqueKeyFromProxy. subst w2. simpl.
        rewrite lookup_app_l by exact Hlt. rewrite Hp.
        destruct (tp_uniqueKey proxy); simpl;
          [rewrite list_lookup_insert_ne by lia |];
          rewrite lookup_app_r by lia; rewrite Nat.sub_diag; eexists; reflexivity. }
      destruct Hnew as (tp & Hnew). eexists.
      apply (installKey_binds this ctx (textureKey self) mipped _ tp). exact Hnew.
    + intros Hcall.
      destruct (lockTexture_stage2_returns w w' this self ctx kDraw mipMapped
                  (Some (textureKey self)) view Hs Hcall) as (S1 & S2 & _ & S4).
      split; [exact S1 |]. split; [exact S2 |]. split; [congruence |].
      intros _ v Hv. exact (S4 (textureKey self) v eq_refl Hv).
  - rewrite (bool_decide_eq_false_2 (texGenPolicy = kDraw) Hne). cbn [mbind option_bind].
    intros Hcall.
    destruct (lockTexture_stage2_returns w w' this self ctx texGenPolicy mipMapped
                None view Hs Hcall) as (S1 & S2 & S3 & _).
    split; [exact S1 |]. split; [exact S2 |].
    split; [intros _; exact (S3 Hne eq_refl) | congruence].
Qed.

(** X12.  Textures made for drawing are found again: when
    [lockTextureProxyView] with the policy [kDraw] answers a view, the key of
    the image is bound to the proxy of that view, and a further draw request
    without mipmaps takes stage 1, answers a view of that same proxy, records
    PreExisting and creates nothing. *)
Theorem lockTextureProxyView_draw_then_hit (w w' : World) (this : nat) (self : SkImage_Lazy)
    (ctx : GrRecordingContext) (mipMapped : GrMipmapped) (view : GrSurfaceProxyView) :
  images w !! this = Some self ->
  lockTextureProxyView SkColorTypeToGrColorType this ctx kDraw mipMapped w
    = Ret (Some view) w' ->
  fUniquelyKeyedProxies w' !! textureKey self = Some (v_proxy view)
  /\ exists again w'',
       lockTextureProxyView SkColorTypeToGrColorType this ctx kDraw GrMipmapped_kNo w'
         = Ret (Some again) w''
       /\ v_proxy again = v_proxy view
       /\ histogram w'' = histogram w' ++ [kPreExisting_LockTexturePath]
       /\ proxies w'' = proxies w'
       /\ fUniquelyKeyedProxies w'' = fUniquelyKeyedProxies w'
       /\ images w'' = images w'.
Proof.
  intros Hs Hcall.
  destruct (lockTextureProxyView_returns w w' this self ctx kDraw mipMapped (Some view)
              Hs Hcall) as (_ & [_ Hkept] & _ & Hbound).
  destruct (Hbound eq_refl view eq_refl) as (proxy & Hfind).
  destruct (Hkept this self Hs) as (self' & Hs' & Hinfo & Hid & _).
  assert (Hkey : textureKey self' = textureKey self).
  { unfold textureKey, dimensions. rewrite <- Hinfo, <- Hid. reflexivity. }
  split; [exact (proj1 (find_Some _ _ _ _ Hfind)) |].
  rewrite <- Hkey in Hfind.
  pose proof (lockTextureProxyView_stage1 SkColorTypeToGrColorType w' this self' ctx
                GrMipmapped_kNo (v_proxy view) proxy Hs' Hfind) as Hagain.
  cbv zeta in Hagain. simpl in Hagain.
  eexists _, _. split; [exact Hagain |]. repeat split.
Qed.

(** X13.  With a policy other than [kDraw] the cascade writes nothing that is
    shared through keys: it leaves the key table, the existing proxies, the
    bitmap cache, the images with their listeners and the id counter as they
    were, and only appends the textures it creates. *)
Theorem lockTextureProxyView_uncached_adds_no_state (w w' : World) (this : nat)
    (self : SkImage_Lazy) (ctx : GrRecordingContext) (texGenPolicy : GrImageTexGenPolicy)
    (mipMapped : GrMipmapped) (view : option GrSurfaceProxyView) :
  images w !! this = Some self ->
  texGenPolicy <> kDraw ->
  lockTextureProxyView SkColorTypeToGrColorType this ctx texGenPolicy mipMapped w
    = Ret view w' ->
  fUniquelyKeyedProxies w' = fUniquelyKeyedProxies w
  /\ bitmapCache w' = bitmapCache w
  /\ images w' = images w
  /\ nextImageID w' = nextImageID w
  /\ exists created, proxies w' = proxies w ++ created.
Proof.
  intros Hs Hne Hcall.
  destruct (lockTextureProxyView_returns w w' this self ctx texGenPolicy mipMapped view
              Hs Hcall) as (_ & _ & Hcreated & _).
  destruct (Hcreated Hne) as (C1 & C2 & C3 & C4 & C5). auto.
Qed.

(** X14.  No call of the cascade changes who an image is: the id counter is
    as before, and every image is at its address with the same info, unique
    id, generator and memoized recoloring, so the keys derived from it stay
    the same. *)
Theorem lockTextureProxyView_keeps_identities (w w' : World) (this : nat)
    (self : SkImage_Lazy) (ctx : GrRecordingContext) (texGenPolicy : GrImageTexGenPolicy)
    (mipMapped : GrMipmapped) (view : option GrSurfaceProxyView) :
  images w !! this = Some self ->
  lockTextureProxyView SkColorTypeToGrColorType this ctx texGenPolicy mipMapped w
    = Ret view w' ->
  nextImageID w' = nextImageID w
  /\ length (images w') = length (images w)
  /\ forall a img, images w !! a = Some img ->
       exists img',
         images w' !! a = Some img' /\ same_identity img img'
         /\ textureKey img' = textureKey img
         /\ SkBitmapCacheDesc_Make img' = SkBitmapCacheDesc_Make img.
Proof.
  intros Hs Hcall.
  destruct (lockTextureProxyView_returns w w' this self ctx texGenPolicy mipMapped view
              Hs Hcall) as (Hnext & [Hlen Hkept] & _ & _).
  split; [exact Hnext |]. split; [exact Hlen |].
  intros a img Ha. destruct (Hkept a img Ha) as (img' & Ha' & Hsame).
  exists img'. split; [exact Ha' |]. split; [exact Hsame |].
  destruct Hsame as (Hinfo & Hid & _).
  unfold textureKey, SkBitmapCacheDesc_Make, bounds, dimensions.
  rewrite <- Hinfo, <- Hid. split; reflexivity.
Qed.

End CascadeFacts.

(** The sample image drawn twice: the YUV stage makes the texture, the second
    request finds it. *)
Lemma lockTextureProxyView_draw_then_hit_witness :
  exists view w' again w'',
    lockTextureProxyView sample_SkColorTypeToGrColorType 0 sample_ctx kDraw GrMipmapped_kNo
      sample_world = Ret (Some view) w'
    /\ lockTextureProxyView sample_SkColorTypeToGrColorType 0 sample_ctx kDraw
         GrMipmapped_kNo w' = Ret (Some again) w''
    /\ v_proxy again = v_proxy view
    /\ histogram w'' = [kYUV_LockTexturePath; kPreExisting_LockTexturePath].
Proof.
  assert (Hcall : exists view w',
             lockTextureProxyView sample_SkColorTypeToGrColorType 0 sample_ctx kDraw
               GrMipmapped_kNo sample_world = Ret (Some view) w'
             /\ histogram w' = [kYUV_LockTexturePath])
    by (eexists _, _; split; reflexivity).
  destruct Hcall as (view & w' & Hcall & Hhist).
  destruct (lockTextureProxyView_draw_then_hit sample_SkColorTypeToGrColorType sample_world w'
              0 sample_image sample_ctx GrMipmapped_kNo view eq_refl Hcall)
    as (_ & again & w'' & Hagain & Hsame & Hhist' & _).
  exists view, w', again, w''. split; [exact Hcall |]. split; [exact Hagain |].
  split; [exact Hsame |]. rewrite Hhist', Hhist. reflexivity.
Defined.

(** The sample image locked uncached and budgeted: four textures, no key. *)
Lemma lockTextureProxyView_uncached_adds_no_state_witness :
  exists view w',
    lockTextureProxyView sample_SkColorTypeToGrColorType 0 sample_ctx kNew_Uncached_Budgeted
      GrMipmapped_kNo sample_world = Ret (Some view) w'
    /\ fUniquelyKeyedProxies w' = ∅
    /\ images w' = [sample_image].
Proof.
  assert (Hcall : exists view w',
             lockTextureProxyView sample_SkColorTypeToGrColorType 0 sample_ctx
               kNew_Uncached_Budgeted GrMipmapped_kNo sample_world = Ret (Some view) w')
    by (eexists _, _; reflexivity).
  destruct Hcall as (view & w' & Hcall).
  destruct (lockTextureProxyView_uncached_adds_no_state sample_SkColorTypeToGrColorType
              sample_world w' 0 sample_image sample_ctx kNew_Uncached_Budgeted
              GrMipmapped_kNo (Some view) eq_refl ltac:(discriminate) Hcall)
    as (Hkeys & _ & Himgs & _).
  exists view, w'. split; [exact Hcall |]. split; [exact Hkeys | exact Himgs].
Defined.

Lemma lockTextureProxyView_keeps_identities_witness :
  exists view w' img',
    lockTextureProxyView sample_SkColorTypeToGrColorType 0 sample_ctx kDraw GrMipmapped_kYes
      sample_world = Ret view w'
    /\ nextImageID w' = 4%N
    /\ images w' !! 0%nat = Some img'
    /\ fUniqueID img' = 2%N /\ fInfo img' = sample_info.
Proof.
  assert (Hcall : exists view w',
             lockTextureProxyView sample_SkColorTypeToGrColorType 0 sample_ctx kDraw
               GrMipmapped_kYes sample_world = Ret view w')
    by (eexists _, _; reflexivity).
  destruct Hcall as (view & w' & Hcall).
  destruct (lockTextureProxyView_keeps_identities sample_SkColorTypeToGrColorType
              sample_world w' 0 sample_image sample_ctx kDraw GrMipmapped_kYes view
              eq_refl Hcall) as (Hnext & _ & Hkept).
  destruct (Hkept 0%nat sample_image eq_refl) as (img' & Himg & (Hinfo & Hid & _) & _).
  exists view, w', img'. split; [exact Hcall |]. split; [exact Hnext |].
  split; [exact Himg |]. split; [symmetry; exact Hid | symmetry; exact Hinfo].
Defined.

Section RgbaFacts.

Variable SkColorTypeToGrColorType : SkColorType -> GrColorType.

(** X15.  When a draw request reaches the RGBA stage (no cached texture, no
    native texture, and the planar stage skipped because mipmaps are asked for
    or GPU YUV conversion is off) and answers a view, then afterwards the
    image's bitmap is in the bitmap cache, the texture answered was made from
    that bitmap and carries the image's key, the image has one more listener,
    for that key and this context, and the sample is RGBA. *)
Theorem lockTextureProxyView_rgba_draw (w w' : World) (this : nat) (self : SkImage_Lazy)
    (ctx : GrRecordingContext) (mipMapped : GrMipmapped) (view : GrSurfaceProxyView) :
  images w !! this = Some self ->
  findOrCreateProxyByUniqueKey (textureKey self) w = None ->
  generateTexture (generatorOf self) ctx (fInfo self) mipMapped kDraw = None ->
  mipMapped = GrMipmapped_kYes \/ fDisableGpuYUVConversion ctx = true ->
  lockTextureProxyView SkColorTypeToGrColorType this ctx kDraw mipMapped w
    = Ret (Some view) w' ->
  exists bm tp self',
    bitmapCache w' !! SkBitmapCacheDesc_Make self = Some bm
    /\ proxies w' !! v_proxy view = Some tp
    /\ tp_contents tp = FromBitmap bm
    /\ tp_uniqueKey tp = Some (textureKey self)
    /\ fUniquelyKeyedProxies w' !! textureKey self = Some (v_proxy view)
    /\ images w' !! this = Some self'
    /\ fUniqueIDListeners self'
         = fUniqueIDListeners self ++ [(textureKey self, contextID ctx)]
    /\ histogram w' = histogram w ++ [kRGBA_LockTexturePath].
Proof.
  intros Hs Hfind Hnative Hskip.
  assert (Hlt : (this < length (images w))%nat) by (eapply lookup_lt_Some; eassumption).
  unfold lockTextureProxyView. rewrite Hs.
  rewrite (bool_decide_eq_true_2 (kDraw = kDraw) eq_refl). cbn [mbind option_bind].
  fold (textureKey self). rewrite Hfind.
  unfold lockTexture_stage2. rewrite Hnative.
  unfold lockTexture_stage3.
  assert (Hcond : bool_decide (mipMapped = GrMipmapped_kNo)
                  && negb (fDisableGpuYUVConversion ctx) = false).
  { destruct Hskip as [-> | ->]; [reflexivity | apply andb_false_r]. }
  rewrite Hcond. unfold lockTexture_stage4.
  rewrite (bool_decide_eq_true_2 (kDraw = kDraw) eq_refl).
  assert (Hpix : (exists bm w1 self1,
            getROPixels this kAllow_CachingHint w = Ret (Some bm) w1
            /\ bitmapCache w1 !! SkBitmapCacheDesc_Make self = Some bm
            /\ images w1 !! this = Some self1
            /\ fUniqueIDListeners self1 = fUniqueIDListeners self
            /\ proxies w1 = proxies w
            /\ fUniquelyKeyedProxies w1 = fUniquelyKeyedProxies w
            /\ histogram w1 = histogram w)
          \/ exists w1, getROPixels this kAllow_CachingHint w = Ret None w1).
  { unfold getROPixels. rewrite Hs.
    destruct (bitmapCache w !! SkBitmapCacheDesc_Make self) as [cached |] eqn:Hc.
    - left. exists cached, w, self. repeat split; try assumption; reflexivity.
    - destruct (negb (SkBitmapCache_Alloc w _ _)); [right; eexists; reflexivity |].
      destruct (getPixels _ _) as [px |]; [| right; eexists; reflexivity].
      left. eexists _, _, _. split; [reflexivity |]. simpl.
      split; [apply lookup_insert_eq |].
      split; [apply list_lookup_insert_eq; exact Hlt |]. repeat split. }
  destruct Hpix as [(bm & w1 & self1 & -> & Hcached & Hs1 & Hl1 & Hp1 & Hk1 & Hh1)
                   | (w1 & ->)]; [| discriminate].
  destruct (GrBitmapTextureMaker_view ctx bm _ mipMapped) as [nt |]; [| discriminate].
  unfold view_of_NewTexture, new_proxy. intros [= <- <-]. simpl.
  exists bm. eexists _, _. split; [exact Hcached |].
  split.
  { rewrite list_lookup_alter_eq.
    rewrite lookup_app_r by lia. rewrite Nat.sub_diag. reflexivity. }
  split; [reflexivity |]. split; [reflexivity |].
  split; [apply lookup_insert_eq |].
  split; [rewrite list_lookup_alter_eq, Hs1; reflexivity |].
  simpl. rewrite Hl1, Hh1. split; reflexivity.
Qed.

End RgbaFacts.

(** The sample image drawn with mipmaps: the planar stage is skipped and the
    RGBA stage caches the bitmap. *)
Lemma lockTextureProxyView_rgba_draw_witness :
  exists view w',
    lockTextureProxyView sample_SkColorTypeToGrColorType 0 sample_ctx kDraw GrMipmapped_kYes
      sample_world = Ret (Some view) w'
    /\ is_Some (bitmapCache w' !! SkBitmapCacheDesc_Make sample_image)
    /\ histogram w' = [kRGBA_LockTexturePath].
Proof.
  assert (Hcall : exists view w',
             lockTextureProxyView sample_SkColorTypeToGrColorType 0 sample_ctx kDraw
               GrMipmapped_kYes sample_world = Ret (Some view) w')
    by (eexists _, _; reflexivity).
  destruct Hcall as (view & w' & Hcall).
  destruct (lockTextureProxyView_rgba_draw sample_SkColorTypeToGrColorType sample_world w' 0
              sample_image sample_ctx GrMipmapped_kYes view eq_refl eq_refl eq_refl
              ltac:(left; reflexivity) Hcall)
    as (bm & tp & self' & Hcached & _ & _ & _ & _ & _ & _ & Hhist).
  exists view, w'. split; [exact Hcall |]. split; [eexists; exact Hcached | exact Hhist].
Defined.

(** ** Recoloring twice *)

(** X16.  The memoized recoloring is found by color type and color space of
    the child, so asking twice for the same target answers the same image,
    without building anything, whenever the target color space is not null or
    the generator has no color space.  With a null target over a generator
    that has a color space, the child carries the generator's color space,
    never matches the null target, and every call builds a new image. *)
Theorem recolor_twice (w w' : World) (this : nat) (self : SkImage_Lazy)
    (ct : SkColorType) (cs : option SkColorSpace) (r : nat) :
  images w !! this = Some self ->
  onMakeColorTypeAndColorSpace this ct cs w = Ret (Some r) w' ->
  (is_Some cs \/ ii_colorSpace (getInfo (generatorOf self)) = None ->
   onMakeColorTypeAndColorSpace this ct cs w' = Ret (Some r) w')
  /\ (cs = None -> is_Some (ii_colorSpace (getInfo (generatorOf self))) ->
      (forall m child,
          fOnMakeColorTypeAndSpaceResult self = Some m ->
          images w !! m = Some child ->
          colorOf (fInfo child) <> (ct, cs)) ->
      exists w'',
        onMakeColorTypeAndColorSpace this ct cs w' = Ret (Some (S r)) w''
        /\ length (images w'') = S (length (images w'))).
Proof.
  intros Hs Hcall.
  assert (Hlt : (this < length (images w))%nat) by (eapply lookup_lt_Some; eassumption).
  destruct (memo_matches w self ct cs) as [m |] eqn:Hm.
  { rewrite (onMake_hit w this self ct cs m Hs Hm) in Hcall. injection Hcall as <- <-.
    split; [intros _; exact (onMake_hit w this self ct cs m Hs Hm) |].
    intros _ _ Hno. exfalso.
    apply memo_matches_Some in Hm as (Hr & child & Hc & Hcol). exact (Hno m child Hr Hc Hcol). }
  destruct (isEmpty (getInfo (generatorOf self))) eqn:He.
  { rewrite (onMake_invalid w this self ct cs Hs Hm He) in Hcall. discriminate. }
  destruct (Validator_ctor_cases (fSharedGenerator self) ct cs w He)
    as (info & id & w1 & Hv & Hcases).
  assert (Hi : images w1 = images w).
  { destruct Hcases as [(_ & _ & -> & _) | (_ & -> & _)]; reflexivity. }
  rewrite (onMake_miss w this self ct cs info id w1 Hs Hm Hv Hi) in Hcall.
  injection Hcall as <- <-.
  pose proof (Validator_ctor_info (fSharedGenerator self) ct cs w He) as Hfields.
  cbv zeta in Hfields. rewrite Hv in Hfields. simpl in Hfields.
  destruct Hfields as (_ & _ & _ & Hct & Hcs).
  set (child := SkImage_Lazy_ctor _ _).
  set (w' := set_images _ w1).
  assert (Hself' : images w' !! this = Some (set_memo (Some (length (images w))) self)).
  { subst w'. simpl. apply list_lookup_insert_eq. rewrite length_app. simpl. lia. }
  assert (Hchild : images w' !! length (images w) = Some child).
  { subst w'. simpl. rewrite list_lookup_insert_ne by lia.
    rewrite lookup_app_r by lia. rewrite Nat.sub_diag. reflexivity. }
  assert (Hcolor : colorOf (fInfo child)
                   = (ct, match cs with
                          | Some c => Some c
                          | None => ii_colorSpace (getInfo (generatorOf self))
                          end)).
  { unfold colorOf, child. simpl. unfold generatorOf. rewrite Hct, Hcs. reflexivity. }
  split.
  - intros Hmemo. apply (onMake_hit w' this _ ct cs _ Hself').
    apply memo_matches_Some. split; [reflexivity |].
    exists child. split; [exact Hchild |]. rewrite Hcolor.
    destruct Hmemo as [[c ->] | Hnone]; [reflexivity |].
    destruct cs; [reflexivity | rewrite Hnone; reflexivity].
  - intros -> [c Hc] _.
    assert (Hm' : memo_matches w' (set_memo (Some (length (images w))) self) ct None = None).
    { apply memo_matches_None. intros m ch [= <-]. rewrite Hchild. intros [= <-].
      rewrite Hcolor, Hc. discriminate. }
    destruct (Validator_ctor_cases (fSharedGenerator self) ct None w' He)
      as (info' & id' & w1' & Hv' & Hcases').
    assert (Hi' : images w1' = images w').
    { destruct Hcases' as [(_ & _ & -> & _) | (_ & -> & _)]; reflexivity. }
    pose proof (onMake_miss w' this (set_memo (Some (length (images w))) self) ct None
                  info' id' w1' Hself' Hm' Hv' Hi') as Hagain.
    cbv zeta in Hagain.
    assert (Hlen : length (images w') = S (length (images w))).
    { subst w'. simpl. rewrite length_insert, length_app. simpl. lia. }
    rewrite Hlen in Hagain.
    eexists. split; [exact Hagain |].
    cbn [images set_images]. rewrite length_insert, length_app. simpl. lia.
Qed.

(** The sample image recolored to (BGRA, color space 1) twice answers image
    1 both times; recolored to (Gray_8, null) twice it answers images 1 and
    2. *)
Lemma recolor_twice_witness :
  (exists w',
      onMakeColorTypeAndColorSpace 0 kBGRA_8888_SkColorType (Some 1%N) sample_world
        = Ret (Some 1%nat) w'
      /\ onMakeColorTypeAndColorSpace 0 kBGRA_8888_SkColorType (Some 1%N) w'
           = Ret (Some 1%nat) w')
  /\ (exists w' w'',
        onMakeColorTypeAndColorSpace 0 kGray_8_SkColorType None sample_world
          = Ret (Some 1%nat) w'
        /\ onMakeColorTypeAndColorSpace 0 kGray_8_SkColorType None w'
             = Ret (Some 2%nat) w'').
Proof.
  split.
  - assert (Hcall : exists w',
               onMakeColorTypeAndColorSpace 0 kBGRA_8888_SkColorType (Some 1%N) sample_world
                 = Ret (Some 1%nat) w') by (eexists; reflexivity).
    destruct Hcall as (w' & Hcall). exists w'. split; [exact Hcall |].
    apply (proj1 (recolor_twice sample_world w' 0 sample_image kBGRA_8888_SkColorType
                    (Some 1%N) 1 eq_refl Hcall)).
    left. eexists. reflexivity.
  - assert (Hcall : exists w',
               onMakeColorTypeAndColorSpace 0 kGray_8_SkColorType None sample_world
                 = Ret (Some 1%nat) w') by (eexists; reflexivity).
    destruct Hcall as (w' & Hcall).
    destruct (proj2 (recolor_twice sample_world w' 0 sample_image kGray_8_SkColorType
                       None 1 eq_refl Hcall) eq_refl ltac:(eexists; reflexivity)
                    ltac:(intros m child [=]))
      as (w'' & Hagain & _).
    exists w', w''. split; [exact Hcall | exact Hagain].
Defined.

(** * The color type behind the views of the cascade *)

Section ColorTypes.

Variable SkColorTypeToGrColorType : SkColorType -> GrColorType.

(** A view answered by [textureProxyViewFromPlanes] is of a render target
    made for the color type of the image as converted, and reads with the
    swizzle of that color type. *)
Lemma textureProxyViewFromPlanes_colorType (w w' : World) (this : nat) (self : SkImage_Lazy)
    (ctx : GrRecordingContext) (budgeted : SkBudgeted) (view : GrSurfaceProxyView) :
  images w !! this = Some self ->
  textureProxyViewFromPlanes SkColorTypeToGrColorType this ctx budgeted w
    = Ret (Some view) w' ->
  exists format,
    GrRenderTargetContext_Make ctx (SkColorTypeToGrColorType (colorType self))
      (dimensions self) budgeted = Some format
    /\ v_swizzle view
       = getReadSwizzle ctx format (SkColorTypeToGrColorType (colorType self))
    /\ (tp_backendFormat <$> proxies w' !! v_proxy view) = Some format.
Proof.
  intros Hs. unfold textureProxyViewFromPlanes. rewrite Hs.
  destruct (getPlanes this w) as [[pl |] w1 | f]; [| discriminate | discriminate].
  destruct (upload_planes ctx pl kMaxCount 0 (replicate kMaxCount None) w1)
    as [[yuvViews |] w2]; [| discriminate].
  destruct (GrRenderTargetContext_Make ctx (SkColorTypeToGrColorType (colorType self))
              (dimensions self) budgeted) as [format |]; [| discriminate].
  simpl. intros [= <- <-]. exists format. split; [reflexivity |]. split; [reflexivity |].
  simpl. rewrite lookup_app_r by lia. rewrite Nat.sub_diag. reflexivity.
Qed.

(** A view answered by stage 4 is the one the bitmap texture maker made. *)
Lemma lockTexture_stage4_view (w w' : World) (this : nat) (self : SkImage_Lazy)
    (ctx : GrRecordingContext) (texGenPolicy : GrImageTexGenPolicy)
    (mipMapped : GrMipmapped) (key : option GrUniqueKey) (view : GrSurfaceProxyView) :
  images w !! this = Some self ->
  lockTexture_stage4 this ctx texGenPolicy mipMapped key w = Ret (Some view) w' ->
  exists bitmap nt,
    GrBitmapTextureMaker_view ctx bitmap
      (inr (if bool_decide (texGenPolicy = kNew_Uncached_Unbudgeted)
            then kNew_Uncached_Unbudgeted else kNew_Uncached_Budgeted)) mipMapped = Some nt
    /\ histogram w' = histogram w ++ [kRGBA_LockTexturePath]
    /\ v_swizzle view = nt_swizzle nt.
Proof.
  intros Hs. unfold lockTexture_stage4.
  destruct (getROPixels_total w this self
              (if bool_decide (texGenPolicy = kDraw)
               then kAllow_CachingHint else kDisallow_CachingHint) Hs)
    as (r & w1 & -> & Hh & _).
  destruct r as [bitmap |]; [| discriminate].
  destruct (GrBitmapTextureMaker_view ctx bitmap _ mipMapped) as [nt |] eqn:Hnt;
    [| discriminate].
  simpl. intros [= <- <-]. exists bitmap, nt. split; [exact Hnt |].
  split; [| reflexivity].
  simpl. rewrite installKey_frame. simpl. rewrite Hh. reflexivity.
Qed.

(** A view answered from stage 3 on is either the render target of the
    planar stage, made and read for the color type of the image as
    converted, or the texture of stage 4. *)
Lemma lockTexture_stage3_view (w w' : World) (this : nat) (self : SkImage_Lazy)
    (ctx : GrRecordingContext) (texGenPolicy : GrImageTexGenPolicy)
    (mipMapped : GrMipmapped) (key : option GrUniqueKey) (view : GrSurfaceProxyView) :
  images w !! this = Some self ->
  lockTexture_stage3 SkColorTypeToGrColorType this ctx texGenPolicy mipMapped key w
    = Ret (Some view) w' ->
  (exists format,
      mipMapped = GrMipmapped_kNo
      /\ GrRenderTargetContext_Make ctx (SkColorTypeToGrColorType (colorType self))
           (dimensions self) (yuv_budgeted texGenPolicy) = Some format
      /\ histogram w' = histogram w ++ [kYUV_LockTexturePath]
      /\ v_swizzle view
         = getReadSwizzle ctx format (SkColorTypeToGrColorType (colorType self)))
  \/ (exists bitmap nt,
        GrBitmapTextureMaker_view ctx bitmap
          (inr (if bool_decide (texGenPolicy = kNew_Uncached_Unbudgeted)
                then kNew_Uncached_Unbudgeted else kNew_Uncached_Budgeted)) mipMapped
          = Some nt
        /\ histogram w' = histogram w ++ [kRGBA_LockTexturePath]
        /\ v_swizzle view = nt_swizzle nt).
Proof.
  intros Hs. unfold lockTexture_stage3.
  destruct (bool_decide (mipMapped = GrMipmapped_kNo)) eqn:Hmip; simpl;
    [| intros Hcall; right; exact (lockTexture_stage4_view _ _ _ _ _ _ _ _ _ Hs Hcall)].
  apply bool_decide_eq_true_1 in Hmip.
  destruct (fDisableGpuYUVConversion ctx); simpl;
    [intros Hcall; right; exact (lockTexture_stage4_view _ _ _ _ _ _ _ _ _ Hs Hcall) |].
  destruct (textureProxyViewFromPlanes SkColorTypeToGrColorType this ctx _ w)
    as [[planar |] w1 | f] eqn:Hplanes; [| | discriminate].
  - intros [= <- <-].
    destruct (textureProxyViewFromPlanes_returns SkColorTypeToGrColorType _ _ _ _ _ _ _
                Hs Hplanes) as (Hh & _).
    destruct (textureProxyViewFromPlanes_colorType _ _ _ _ _ _ _ Hs Hplanes)
      as (format & Hmake & Hsw & _).
    left. exists format. split; [exact Hmip |]. split; [exact Hmake |].
    split; [| exact Hsw].
    rewrite installKey_frame. simpl. rewrite Hh. reflexivity.
  - intros Hcall.
    destruct (textureProxyViewFromPlanes_returns SkColorTypeToGrColorType _ _ _ _ _ _ _
                Hs Hplanes) as (Hh & (_ & Hi & _) & _).
    assert (Hs1 : images w1 !! this = Some self) by (rewrite Hi; exact Hs).
    destruct (lockTexture_stage4_view _ _ _ _ _ _ _ _ _ Hs1 Hcall)
      as (bitmap & nt & Hnt & Hhist & Hsw).
    right. exists bitmap, nt. split; [exact Hnt |]. split; [| exact Hsw].
    rewrite Hhist, Hh. reflexivity.
Qed.

(** C9, as the code has it.  [colorTypeOfLockTextureProxy] answers the GPU
    color type of the image's color type, or RGBA_8888 when the default
    backend format of that color type is not valid.  A call of
    [lockTextureProxyView] that answers a view takes one of four ways, told
    apart by the sample it records.  PreExisting: the view is of the proxy
    found under the key, or of its mipmapped copy, and reads with the
    swizzle of the color type so determined.  Native: the view is the one
    the generator made.  YUV: the view is of a render target made for the
    color type of the image as converted, without the substitution, and
    reads with the swizzle of that color type.  RGBA: the view is the one
    the bitmap texture maker made. *)
Theorem lockTextureProxyView_color_types (w w' : World) (this : nat) (self : SkImage_Lazy)
    (ctx : GrRecordingContext) (texGenPolicy : GrImageTexGenPolicy)
    (mipMapped : GrMipmapped) (view : GrSurfaceProxyView) :
  let ct := SkColorTypeToGrColorType (colorType self) in
  let substituted :=
    if fmt_isValid (getDefaultBackendFormat ctx ct) then ct else GrColorType_kRGBA_8888 in
  images w !! this = Some self ->
  lockTextureProxyView SkColorTypeToGrColorType this ctx texGenPolicy mipMapped w
    = Ret (Some view) w' ->
  colorTypeOfLockTextureProxy SkColorTypeToGrColorType self ctx = substituted
  /\ ((exists p proxy,
          texGenPolicy = kDraw
          /\ findOrCreateProxyByUniqueKey (textureKey self) w = Some (p, proxy)
          /\ histogram w' = histogram w ++ [kPreExisting_LockTexturePath]
          /\ v_swizzle view = getReadSwizzle ctx (tp_backendFormat proxy) substituted)
      \/ (exists nt,
            generateTexture (generatorOf self) ctx (fInfo self) mipMapped texGenPolicy
              = Some nt
            /\ histogram w' = histogram w ++ [kNative_LockTexturePath]
            /\ v_swizzle view = nt_swizzle nt)
      \/ (exists format,
            mipMapped = GrMipmapped_kNo
            /\ GrRenderTargetContext_Make ctx ct (dimensions self)
                 (yuv_budgeted texGenPolicy) = Some format
            /\ histogram w' = histogram w ++ [kYUV_LockTexturePath]
            /\ v_swizzle view = getReadSwizzle ctx format ct)
      \/ (exists bitmap nt,
            GrBitmapTextureMaker_view ctx bitmap
              (inr (if bool_decide (texGenPolicy = kNew_Uncached_Unbudgeted)
                    then kNew_Uncached_Unbudgeted else kNew_Uncached_Budgeted)) mipMapped
              = Some nt
            /\ histogram w' = histogram w ++ [kRGBA_LockTexturePath]
            /\ v_swizzle view = nt_swizzle nt)).
Proof.
  intros ct substituted Hs.
  assert (Hct : colorTypeOfLockTextureProxy SkColorTypeToGrColorType self ctx = substituted).
  { unfold colorTypeOfLockTextureProxy, substituted, ct.
    destruct (fmt_isValid (getDefaultBackendFormat ctx _)); reflexivity. }
  intros Hcall. split; [exact Hct |].
  unfold lockTextureProxyView in Hcall. rewrite Hs in Hcall. rewrite Hct in Hcall.
  destruct (bool_decide (texGenPolicy = kDraw)) eqn:Hdraw.
  - apply bool_decide_eq_true_1 in Hdraw. cbn [mbind option_bind] in Hcall.
    fold (textureKey self) in Hcall.
    destruct (findOrCreateProxyByUniqueKey (textureKey self) w) as [[p proxy] |] eqn:Hfind.
    + left. exists p, proxy. split; [exact Hdraw |]. split; [reflexivity |].
      destruct (bool_decide (mipMapped = GrMipmapped_kNo)
                || bool_decide (tp_mipmapped proxy = GrMipmapped_kYes)).
      * injection Hcall as <- <-. split; reflexivity.
      * destruct (GrCopyBaseMipMapToView ctx _ _) as [[mippedView |] w2] eqn:Hcopy.
        -- injection Hcall as <- <-.
           split.
           ++ change (histogram (installKey this ctx (Some (textureKey self)) mippedView
                                   (removeUniqueKeyFromProxy p w2))
                      = histogram w ++ [kPreExisting_LockTexturePath]).
              rewrite installKey_frame.
              rewrite (proj1 (removeUniqueKeyFromProxy_frame _ _)).
              rewrite (GrCopyBaseMipMapToView_frame _ _ _ _ _ Hcopy). reflexivity.
           ++ unfold GrCopyBaseMipMapToView in Hcopy. simpl in Hcopy.
              destruct (proxies w !! p) as [src |]; [| discriminate].
              destruct (GrCopyBaseMipMap_succeeds ctx src); [| discriminate].
              injection Hcopy as <- _. reflexivity.
        -- injection Hcall as <- <-.
           split; [| reflexivity].
           rewrite (GrCopyBaseMipMapToView_frame _ _ _ _ _ Hcopy). reflexivity.
    + right. revert Hcall. unfold lockTexture_stage2.
      destruct (generateTexture (generatorOf self) ctx (fInfo self) mipMapped texGenPolicy)
        as [nt |].
      * simpl. intros [= <- <-]. left. exists nt. split; [reflexivity |].
        split; reflexivity.
      * intros Hcall. right. exact (lockTexture_stage3_view _ _ _ _ _ _ _ _ _ Hs Hcall).
  - right. cbn [mbind option_bind] in Hcall. revert Hcall. unfold lockTexture_stage2.
    destruct (generateTexture (generatorOf self) ctx (fInfo self) mipMapped texGenPolicy)
      as [nt |].
    + simpl. intros [= <- <-]. left. exists nt. split; [reflexivity |].
      split; reflexivity.
    + intros Hcall. right. exact (lockTexture_stage3_view _ _ _ _ _ _ _ _ _ Hs Hcall).
Qed.

End ColorTypes.

(** The image recolored to Gray_8, a color type the sample conversion does
    not know and for which the sample GPU has no format, so that
    [colorTypeOfLockTextureProxy] answers RGBA_8888.  On the probing context
    the draw request answers a view of the planar stage whose render target
    and swizzle are those of the unknown color type, not of RGBA_8888.  On
    the strict context, which would make a render target for RGBA_8888, the
    planar stage asks for one of the unknown color type and gets none, and
    the request ends in the RGBA fallback. *)
Lemma lockTextureProxyView_color_types_counterexample :
  images gray_world !! 1%nat = Some gray_image
  /\ sample_SkColorTypeToGrColorType (colorType gray_image) = GrColorType_kUnknown
  /\ colorTypeOfLockTextureProxy sample_SkColorTypeToGrColorType gray_image probing_ctx
     = GrColorType_kRGBA_8888
  /\ (exists view w' proxy,
        lockTextureProxyView sample_SkColorTypeToGrColorType 1 probing_ctx kDraw
          GrMipmapped_kNo gray_world = Ret (Some view) w'
        /\ histogram w' = [kYUV_LockTexturePath]
        /\ proxies w' !! v_proxy view = Some proxy
        /\ tp_backendFormat proxy
           = {| fmt_tag := GrColorType_code GrColorType_kUnknown; fmt_isValid := true |}
        /\ v_swizzle view = GrColorType_code GrColorType_kUnknown
        /\ v_swizzle view <> GrColorType_code GrColorType_kRGBA_8888)
  /\ colorTypeOfLockTextureProxy sample_SkColorTypeToGrColorType gray_image strict_ctx
     = GrColorType_kRGBA_8888
  /\ is_Some (GrRenderTargetContext_Make strict_ctx GrColorType_kRGBA_8888
                (dimensions gray_image) SkBudgeted_kYes)
  /\ exists view w',
       lockTextureProxyView sample_SkColorTypeToGrColorType 1 strict_ctx kDraw
         GrMipmapped_kNo gray_world = Ret (Some view) w'
       /\ histogram w' = [kRGBA_LockTexturePath].
Proof.
  split; [reflexivity |]. split; [reflexivity |]. split; [reflexivity |].
  split.
  { eexists _, _, _. split; [reflexivity |]. split; [reflexivity |].
    split; [reflexivity |]. split; [reflexivity |]. split; [reflexivity |].
    discriminate. }
  split; [reflexivity |]. split; [eexists; reflexivity |].
  eexists _, _. split; reflexivity.
Qed.

(** The draw request on the recolored image, probing context: the way taken
    is the planar one, with the color type as converted. *)
Lemma lockTextureProxyView_color_types_witness :
  exists view w' format,
    lockTextureProxyView sample_SkColorTypeToGrColorType 1 probing_ctx kDraw
      GrMipmapped_kNo gray_world = Ret (Some view) w'
    /\ GrRenderTargetContext_Make probing_ctx
         (sample_SkColorTypeToGrColorType (colorType gray_image))
         (dimensions gray_image) (yuv_budgeted kDraw) = Some format
    /\ v_swizzle view
       = getReadSwizzle probing_ctx format
           (sample_SkColorTypeToGrColorType (colorType gray_image)).
Proof.
  assert (Hcall : exists view w',
             lockTextureProxyView sample_SkColorTypeToGrColorType 1 probing_ctx kDraw
               GrMipmapped_kNo gray_world = Ret (Some view) w'
             /\ histogram w' = [kYUV_LockTexturePath])
    by (eexists _, _; split; reflexivity).
  destruct Hcall as (view & w' & Hcall & Hhist).
  destruct (lockTextureProxyView_color_types sample_SkColorTypeToGrColorType gray_world w' 1
              gray_image probing_ctx kDraw GrMipmapped_kNo view eq_refl Hcall)
    as [_ [H | [H | [H | H]]]].
  - destruct H as (p & proxy & _ & Hfind & _). discriminate Hfind.
  - destruct H as (nt & Hnt & _). discriminate Hnt.
  - destruct H as (format & _ & Hmake & _ & Hsw).
    exists view, w', format. split; [exact Hcall |]. split; [exact Hmake | exact Hsw].
  - destruct H as (bitmap & nt & _ & Hrgba & _). rewrite Hhist in Hrgba. discriminate Hrgba.
Defined.
